(** * AI-Video-Editor: timeline composition and rendering pipeline

    A shallow embedding of the clip model ([models.py]), the export pipeline
    ([export.py]), the preview job ([preview_worker.py]) and the sequencer and
    clip operations of the main window ([main_window.py]), with the
    properties of the specification stated and proved over it.

    Conventions of the embedding.
    - A Python [float] is an exact rational ([Q]); numbers are compared with
      [==] where the code compares values.  Rounding, infinities and NaN are
      outside the model.
    - A Python object with identity (a [TimelineClip]) carries its identity
      in the field [oid]; [is] and the default [==] of such objects compare
      [oid].
    - What the code obtains from the Python runtime or from the external
      media tool (the text of a float, path joining, the file system, the
      subprocess, uuid) is an operation of the class [Runtime]. *)

From Stdlib Require Import ZArith QArith Qminmax Qround Qabs Lqa Lia List String Ascii Bool.
From stdpp Require Import base gmap strings list pretty.

Open Scope string_scope.
Open Scope list_scope.
Open Scope Q_scope.

(* ===================================================================== *)
(** * Python values                                                       *)
(* ===================================================================== *)

Module Py.

(** [x < y] on floats, as a boolean. *)
Definition ltb (x y : Q) : bool := negb (Qle_bool y x).

(** [x <= y] on floats, as a boolean. *)
Definition leb (x y : Q) : bool := Qle_bool x y.

(** The builtin [max(a, b)] of two arguments: [b] when [b > a], else [a]. *)
Definition max (a b : Q) : Q := if ltb a b then b else a.

(** [x or d] for a float [x]: [0.0] is falsy. *)
Definition or_float (x d : Q) : Q := if Qeq_bool x 0 then d else x.

(** [s or d] for a string [s]: the empty string is falsy. *)
Definition or_str (s d : string) : string := if String.eqb s "" then d else s.

(** Truthiness of a float, of a string and of a list. *)
Definition truthy_float (x : Q) : bool := negb (Qeq_bool x 0).
Definition truthy_str (s : string) : bool := negb (String.eqb s "").
Definition truthy_list {A} (l : list A) : bool := match l with [] => false | _ => true end.

(** [s.replace(c, by)] for a one-character pattern [c]. *)
Fixpoint replace_char (c : ascii) (by_ : string) (s : string) : string :=
  match s with
  | EmptyString => EmptyString
  | String a rest =>
      if Ascii.eqb a c then by_ +:+ replace_char c by_ rest
      else String a (replace_char c by_ rest)
  end.

(** [s.lower()], on ASCII letters. *)
Definition lower_ascii (a : ascii) : ascii :=
  let n := nat_of_ascii a in
  if (65 <=? n)%nat && (n <=? 90)%nat then ascii_of_nat (n + 32) else a.

Fixpoint lower (s : string) : string :=
  match s with
  | EmptyString => EmptyString
  | String a rest => String (lower_ascii a) (lower rest)
  end.

(** [s.strip()], on ASCII white space. *)
Definition is_space (a : ascii) : bool :=
  let n := nat_of_ascii a in
  (n =? 32)%nat || ((9 <=? n)%nat && (n <=? 13)%nat).

Fixpoint lstrip (s : string) : string :=
  match s with
  | EmptyString => EmptyString
  | String a rest => if is_space a then lstrip rest else s
  end.

Fixpoint rstrip (s : string) : string :=
  match s with
  | EmptyString => EmptyString
  | String a rest =>
      match rstrip rest with
      | EmptyString => if is_space a then EmptyString else String a EmptyString
      | rest' => String a rest'
      end
  end.

Definition strip (s : string) : string := rstrip (lstrip s).

(** [int(x)] of a float: truncation towards zero. *)
Definition int_float (x : Q) : Z := if ltb x 0 then Qceiling x else Qfloor x.

(** [int(s)] of a string, on ASCII characters: white space around an
    optional sign and decimal digits, which single underscores may separate;
    [None] when it raises. *)
Definition digit_of (a : ascii) : option Z :=
  let n := nat_of_ascii a in
  if (48 <=? n)%nat && (n <=? 57)%nat then Some (Z.of_nat (n - 48)) else None.

Fixpoint int_digits (acc : Z) (after_digit : bool) (s : string) : option Z :=
  match s with
  | EmptyString => if after_digit then Some acc else None
  | String a rest =>
      match digit_of a with
      | Some d => int_digits (acc * 10 + d) true rest
      | None =>
          if Ascii.eqb a "_" && after_digit then int_digits acc false rest else None
      end
  end.

Definition int_of_str (s : string) : option Z :=
  match strip s with
  | String "+" rest => int_digits 0 false rest
  | String "-" rest => option_map Z.opp (int_digits 0 false rest)
  | digits => int_digits 0 false digits
  end.

(** Membership of a string in a list of strings. *)
Definition str_in (s : string) (l : list string) : bool := existsb (String.eqb s) l.

(** [sep.join(parts)]. *)
Definition join (sep : string) (parts : list string) : string := String.concat sep parts.

(** [str(n)] of an [int]. *)
Definition str_int (n : Z) : string := pretty n.

End Py.

(** Formatting of numbers. *)
Module Fmt.

(** Rounding to the nearest integer, ties to even, as the formatting of a
    float to a fixed number of decimals rounds. *)
Definition round_half_even (q : Q) : Z :=
  let f := Qfloor q in
  match Qcompare (q - inject_Z f) (1 # 2) with
  | Lt => f
  | Gt => (f + 1)%Z
  | Eq => if Z.even f then f else (f + 1)%Z
  end.

(** The number of millionths [f"{q:.6f}"] prints, for [q >= 0]. *)
Definition millionths (q : Q) : Z := round_half_even (q * 1000000).

Fixpoint zeros (n : nat) : string :=
  match n with O => "" | S k => "0" +:+ zeros k end.

(** [s] padded on the left with zeros to [n] characters. *)
Definition zero_pad (n : nat) (s : string) : string :=
  zeros (n - String.length s) +:+ s.

(** [f"{q:.6f}"]. *)
Definition format_6f (q : Q) : string :=
  let n := millionths (Qabs q) in
  (if Py.ltb q 0 then "-" else "")
  +:+ pretty (n / 1000000)%Z +:+ "." +:+ zero_pad 6 (pretty (n mod 1000000)%Z).

(** The number that [format_6f q] denotes. *)
Definition value_6f (q : Q) : Q :=
  (if Py.ltb q 0 then -1 else 1) * (inject_Z (millionths (Qabs q)) / 1000000).

End Fmt.

(** What [subprocess.run] does: it returns a completed process, or raises
    [TimeoutExpired], or raises another exception of text [msg]. *)
Inductive SubprocessOutcome :=
| Completed (returncode : Z) (stdout stderr : string)
| TimeoutExpired
| Raised (msg : string).

(** The Python runtime and the external tool, as the code uses them. *)
Class Runtime := {
  (** the state of the world outside the program: files on disk, the clock *)
  World : Type;
  (** [str(x)] and [f"{x}"] of a float *)
  str_float : Q -> string;
  (** [os.path.join(a, b)] *)
  os_path_join : string -> string -> string;
  (** [os.path.basename(p)] and [os.path.splitext(p)] *)
  os_path_basename : string -> string;
  os_path_splitext : string -> string * string;
  (** [os.path.exists(p)] *)
  os_path_exists : string -> World -> bool;
  (** [os.makedirs(p, exist_ok=True)] *)
  os_makedirs : string -> World -> World;
  (** [os.replace(src, dst)]: [false] when it raises *)
  os_replace : string -> string -> World -> bool * World;
  (** writing a text file *)
  write_text : string -> string -> World -> World;
  (** [uuid.uuid4().hex] *)
  uuid4_hex : World -> string * World;
  (** [tempfile.gettempdir()] *)
  gettempdir : string;
  (** [subprocess.run(cmd, capture_output=True, text=True, timeout=t)] *)
  subprocess_run : list string -> Z -> World -> SubprocessOutcome * World;
  (** [float(s)] of a string, [None] when it raises *)
  float_of_str : string -> option Q;
}.

(* ===================================================================== *)
(** * config.py                                                           *)
(* ===================================================================== *)

Module UIConfig.
Definition MIN_CLIP_DURATION : Q := 0.2.
Definition THUMBNAIL_WIDTH : Z := 240.
Definition THUMBNAIL_COUNT : Z := 6.
Definition WAVEFORM_SIZE : Z * Z := (1000, 100)%Z.
End UIConfig.

Module FFmpegConfig.
Definition PRESET : string := "fast".
Definition CRF : Z := 20.
Definition AUDIO_BITRATE : string := "192k".
Definition VOLUME_BG_MUSIC : Q := 0.6.
Definition CROSSFADE_DURATION : Q := 1.0.
End FFmpegConfig.

(* ===================================================================== *)
(** * models.py                                                           *)
(* ===================================================================== *)

Inductive MediaType := video | audio | image | unknown.

#[global] Instance MediaType_eq_dec : EqDecision MediaType.
Proof. solve_decision. Defined.

Record MediaItem := {
  path : string;
  name : string;
  type : MediaType;
  duration : option Q;
}.

Record TimelineClip := {
  oid : nat;                       (* identity of the object *)
  media : MediaItem;
  start : Q;
  end_ : option Q;
  title : string;
  title_size : Z;
  title_pos : string;
  lut : string;
  transition : string;
  track : Z;
  speed : Q;
  preview_dir : option string;
  thumb_paths : list string;
  waveform_path : option string;
  proxy_path : option string;
  effect_preview_path : option string;
}.

(** Assignments to the attributes of a clip. *)
Definition set_preview_dir (c : TimelineClip) (v : option string) : TimelineClip :=
  {| oid := oid c; media := media c; start := start c; end_ := end_ c;
     title := title c; title_size := title_size c; title_pos := title_pos c;
     lut := lut c; transition := transition c; track := track c; speed := speed c;
     preview_dir := v; thumb_paths := thumb_paths c;
     waveform_path := waveform_path c; proxy_path := proxy_path c;
     effect_preview_path := effect_preview_path c |}.

Definition set_thumb_paths (c : TimelineClip) (v : list string) : TimelineClip :=
  {| oid := oid c; media := media c; start := start c; end_ := end_ c;
     title := title c; title_size := title_size c; title_pos := title_pos c;
     lut := lut c; transition := transition c; track := track c; speed := speed c;
     preview_dir := preview_dir c; thumb_paths := v;
     waveform_path := waveform_path c; proxy_path := proxy_path c;
     effect_preview_path := effect_preview_path c |}.

Definition set_waveform_path (c : TimelineClip) (v : option string) : TimelineClip :=
  {| oid := oid c; media := media c; start := start c; end_ := end_ c;
     title := title c; title_size := title_size c; title_pos := title_pos c;
     lut := lut c; transition := transition c; track := track c; speed := speed c;
     preview_dir := preview_dir c; thumb_paths := thumb_paths c;
     waveform_path := v; proxy_path := proxy_path c;
     effect_preview_path := effect_preview_path c |}.

Definition set_proxy_path (c : TimelineClip) (v : option string) : TimelineClip :=
  {| oid := oid c; media := media c; start := start c; end_ := end_ c;
     title := title c; title_size := title_size c; title_pos := title_pos c;
     lut := lut c; transition := transition c; track := track c; speed := speed c;
     preview_dir := preview_dir c; thumb_paths := thumb_paths c;
     waveform_path := waveform_path c; proxy_path := v;
     effect_preview_path := effect_preview_path c |}.

(** A value of a project file, as [json.load] gives it (lists and objects
    do not occur in a clip record). *)
Inductive Json :=
| JNull
| JBool (b : bool)
| JNum (x : Q)
| JStr (s : string).

(** What [TimelineClip.from_dict] does. *)
Inductive FromDict :=
| FdClip (clip : TimelineClip)     (* it returns the clip *)
| FdNone                           (* it returns [None] *)
| FdRaises                         (* an exception leaves it *)
| FdUntyped.                       (* a field is given a value of another type
                                      than it has in this model: what the code
                                      does then is outside the model *)

Module Models.
Section Models.
Context `{Runtime}.

(** [MediaItem._detect_type]. *)
Definition _detect_type (path : string) : MediaType :=
  let ext := Py.lower (os_path_splitext path).2 in
  if Py.str_in ext [".mp4"; ".mov"; ".mkv"; ".avi"; ".webm"] then video
  else if Py.str_in ext [".mp3"; ".wav"; ".aac"; ".m4a"; ".ogg"] then audio
  else if Py.str_in ext [".png"; ".jpg"; ".jpeg"; ".bmp"; ".gif"] then image
  else unknown.

(** [MediaItem._probe_duration]. *)
Definition _probe_duration (path : string) (w : World) : option Q * World :=
  let cmd := ["ffprobe";
              "-v"; "error";
              "-show_entries"; "format=duration";
              "-of"; "default=noprint_wrappers=1:nokey=1";
              path] in
  match subprocess_run cmd 5 w with
  | (Completed returncode stdout _, w') =>
      if Z.eqb returncode 0 && Py.truthy_str (Py.strip stdout)
      then (float_of_str (Py.strip stdout), w')
      else (None, w')
  | (_, w') => (None, w')
  end.

(** [MediaItem.__init__(path)]. *)
Definition MediaItem_init (p : string) (w : World) : MediaItem * World :=
  let type := _detect_type p in
  let '(duration, w') :=
    match type with
    | video | audio => _probe_duration p w
    | _ => (None, w)
    end in
  ({| path := p; name := os_path_basename p; type := type; duration := duration |}, w').

End Models.

(** [TimelineClip.__init__(media)], for the object of identity [o]. *)
Definition TimelineClip_init (o : nat) (m : MediaItem) : TimelineClip :=
  {| oid := o; media := m;
     start := 0.0; end_ := None;
     title := ""; title_size := 36; title_pos := "(w-text_w)/2";
     lut := "none";
     transition := "none";
     track := 0;
     speed := 1.0;
     preview_dir := None; thumb_paths := []; waveform_path := None;
     proxy_path := None; effect_preview_path := None |}.

(** [TimelineClip.duration_effective]. *)
Definition duration_effective (self : TimelineClip) : Q :=
  let base :=
    match duration (media self) with
    | None => 5.0
    | Some media_duration =>
        let start := Py.or_float (start self) 0.0 in
        let end_ := match end_ self with Some e => e | None => media_duration end in
        Py.max 0.2 (end_ - start)
    end in
  let spd := speed self in
  let spd := if Py.leb spd 0 then 1.0 else spd in
  Py.max 0.2 (base / spd).

Section FromDict.
Context `{Runtime}.

(** [float(x)] of a project-file value, [None] when it raises. *)
Definition float_of_json (x : Json) : option Q :=
  match x with
  | JNum q => Some q
  | JBool b => Some (if b then 1.0 else 0.0)
  | JStr s => float_of_str s
  | JNull => None
  end.

(** The fields the code stores as they are: the value when it has the type
    of the field, the default when the key is absent. *)
Definition get_float (data : gmap string Json) (k : string) (default : Q)
  : option Q :=
  match data !! k with
  | None => Some default
  | Some (JNum q) => Some q
  | Some _ => None
  end.

Definition get_opt_float (data : gmap string Json) (k : string) : option (option Q) :=
  match data !! k with
  | None | Some JNull => Some None
  | Some (JNum q) => Some (Some q)
  | Some _ => None
  end.

Definition get_str (data : gmap string Json) (k : string) (default : string)
  : option string :=
  match data !! k with
  | None => Some default
  | Some (JStr s) => Some s
  | Some _ => None
  end.

Definition get_opt_str (data : gmap string Json) (k : string) : option (option string) :=
  match data !! k with
  | None | Some JNull => Some None
  | Some (JStr s) => Some (Some s)
  | Some _ => None
  end.

Definition get_int (data : gmap string Json) (k : string) (default : Z) : option Z :=
  match data !! k with
  | None => Some default
  | Some (JNum q) => if Qeq_bool q (inject_Z (Qfloor q)) then Some (Qfloor q) else None
  | Some _ => None
  end.

(** [int(data.get("track", 0))], [None] when it raises. *)
Definition get_track (data : gmap string Json) : option Z :=
  match data !! "track" with
  | None => Some 0%Z
  | Some (JNum q) => Some (Py.int_float q)
  | Some (JBool b) => Some (if b then 1 else 0)%Z
  | Some (JStr s) => Py.int_of_str s
  | Some JNull => None
  end.

(** The assignments of [from_dict] after the media is found. *)
Definition clip_of_record (o : nat) (media : MediaItem) (data : gmap string Json)
  : FromDict :=
  match get_float data "start" 0.0, get_opt_float data "end",
        get_str data "title" "", get_int data "title_size" 36,
        get_str data "title_pos" "(w-text_w)/2",
        get_str data "lut" "none", get_str data "transition" "none",
        get_opt_str data "proxy_path" with
  | Some start, Some end_, Some title, Some title_size, Some title_pos,
    Some lut, Some transition, Some proxy_path =>
      match get_track data with
      | None => FdRaises
      | Some track =>
          let speed :=
            match float_of_json (default (JNum 1.0) (data !! "speed")) with
            | Some v => v
            | None => 1.0
            end in
          FdClip {| oid := o; media := media;
                    start := start; end_ := end_;
                    title := title; title_size := title_size; title_pos := title_pos;
                    lut := lut; transition := transition; track := track;
                    speed := speed;
                    preview_dir := None; thumb_paths := []; waveform_path := None;
                    proxy_path := proxy_path; effect_preview_path := None |}
      end
  | _, _, _, _, _, _, _, _ => FdUntyped
  end.

(** [TimelineClip.from_dict(data, media_items)], the new clip being the
    object of identity [o]. *)
Definition from_dict (o : nat) (data : gmap string Json) (media_items : list MediaItem)
    (w : World) : FromDict * World :=
  match data !! "media_path" with
  | Some (JStr media_path) =>
      match List.find (fun m => String.eqb (path m) media_path) media_items with
      | Some media => (clip_of_record o media data, w)
      | None =>
          if os_path_exists media_path w
          then
            let '(media, w') := MediaItem_init media_path w in
            (clip_of_record o media data, w')
          else (FdNone, w)
      end
  | None | Some JNull => (FdRaises, w)
  | Some _ => (FdUntyped, w)
  end.

End FromDict.
End Models.

(* ===================================================================== *)
(** * utils.py                                                            *)
(* ===================================================================== *)

Module Utils.
Section Utils.
Context `{Runtime}.

(** [run_cmd(cmd, timeout)]: exit code, stdout, stderr. *)
Definition run_cmd (cmd : list string) (timeout : Z) (w : World)
  : (Z * string * string) * World :=
  match subprocess_run cmd timeout w with
  | (Completed returncode stdout stderr, w') => ((returncode, stdout, stderr), w')
  | (TimeoutExpired, w') => ((-1, "", "Command timeout")%Z, w')
  | (Raised e, w') => ((-1, "", e)%Z, w')
  end.

(** [ensure_dir(path)]. *)
Definition ensure_dir (p : string) (w : World) : string * World :=
  (p, os_makedirs p w).

(** [safe_path_for_concat(path)]. *)
Definition safe_path_for_concat (p : string) : string :=
  let p := Py.replace_char "\" "/" p in
  let p := Py.replace_char "'" "'\''" p in
  p.

(** The loop of [generate_thumbnails]: [n] more thumbnails from index [i]. *)
Fixpoint thumbnails_loop (video_path output_dir : string) (start interval : Q)
    (width : Z) (i n : nat) (thumb_paths : list string) (w : World)
  : list string * World :=
  match n with
  | O => (thumb_paths, w)
  | S n' =>
      let timestamp := start + inject_Z (Z.of_nat i) * interval in
      let output_path :=
        os_path_join output_dir ("thumb_" +:+ Fmt.zero_pad 2 (pretty i) +:+ ".jpg") in
      let cmd := ["ffmpeg"; "-y";
                  "-ss"; str_float timestamp;
                  "-i"; video_path;
                  "-frames:v"; "1";
                  "-vf"; "scale=" +:+ Py.str_int width +:+ ":-2";
                  output_path] in
      let '((code, _, _), w1) := run_cmd cmd 10 w in
      let thumb_paths :=
        if Z.eqb code 0 && os_path_exists output_path w1
        then thumb_paths ++ [output_path] else thumb_paths in
      thumbnails_loop video_path output_dir start interval width (S i) n' thumb_paths w1
  end.

(** [generate_thumbnails(video_path, output_dir, start, duration, count, width)]. *)
Definition generate_thumbnails (video_path output_dir : string) (start duration : Q)
    (count width : Z) (w : World) : list string * World :=
  if Py.leb duration 0 || (count <=? 0)%Z then ([], w)
  else
    let interval := duration / inject_Z (Z.max count 1) in
    thumbnails_loop video_path output_dir start interval width 0 (Z.to_nat count) [] w.

(** [generate_waveform(media_path, output_path, start, duration, size)]. *)
Definition generate_waveform (media_path output_path : string) (start duration : Q)
    (size : Z * Z) (w : World) : bool * World :=
  let '(width, height) := size in
  let dims := Py.str_int width +:+ "x" +:+ Py.str_int height in
  let cmd := ["ffmpeg"; "-y";
              "-ss"; str_float start;
              "-t"; str_float duration;
              "-i"; media_path;
              "-filter_complex";
              "[0:a]showwavespic=s=" +:+ dims +:+ ":colors=0x4488ff[fg];color=s="
                +:+ dims +:+ ":color=0x161616[bg];[bg][fg]overlay=format=auto";
              "-frames:v"; "1";
              output_path] in
  let '((code, _, _), w1) := run_cmd cmd 30 w in
  (Z.eqb code 0 && os_path_exists output_path w1, w1).

(** [generate_proxy(media_path, output_dir, width)]. *)
Definition generate_proxy (media_path output_dir : string) (width : Z) (w : World)
  : string * World :=
  let audio_bitrate := "128k" in
  let '(_, w) := ensure_dir output_dir w in
  let base := os_path_basename media_path in
  let name := (os_path_splitext base).1 in
  let proxy_path :=
    os_path_join output_dir (name +:+ "_proxy_" +:+ Py.str_int width +:+ "w.mp4") in
  if os_path_exists proxy_path w then (proxy_path, w)
  else
    let cmd := ["ffmpeg"; "-y";
                "-i"; media_path;
                "-vf"; "scale=" +:+ Py.str_int width +:+ ":-2";
                "-c:v"; "libx264";
                "-preset"; "veryfast";
                "-crf"; "28";
                "-c:a"; "aac";
                "-b:a"; audio_bitrate;
                proxy_path] in
    let '((code, _, _), w1) := run_cmd cmd 300 w in
    if Z.eqb code 0 && os_path_exists proxy_path w1 then (proxy_path, w1)
    else ("", w1).

End Utils.
End Utils.

(* ===================================================================== *)
(** * preview_worker.py                                                   *)
(* ===================================================================== *)

(** The signals of a preview worker, each with the clip it carries. *)
Inductive Signal :=
| started (c : TimelineClip)
| done (c : TimelineClip).

Module PreviewWorker.
Section PreviewWorker.
Context `{Runtime}.

(** The worker: its clip, the caches it shares with the window, and the
    signals it has emitted.  [worker_proxy_path] is its attribute
    [proxy_path]. *)
Record Worker := {
  clip : TimelineClip;
  temp_root : string;
  thumbs_cache : gmap string (list string);
  wave_cache : gmap string string;
  worker_proxy_path : string;
  proxy_width : Z;
  proxy_enabled : bool;
  signals : list Signal;
}.

Definition set_clip (self : Worker) (c : TimelineClip) : Worker :=
  {| clip := c; temp_root := temp_root self;
     thumbs_cache := thumbs_cache self; wave_cache := wave_cache self;
     worker_proxy_path := worker_proxy_path self;
     proxy_width := proxy_width self; proxy_enabled := proxy_enabled self;
     signals := signals self |}.

Definition set_thumbs_cache (self : Worker) (m : gmap string (list string)) : Worker :=
  {| clip := clip self; temp_root := temp_root self;
     thumbs_cache := m; wave_cache := wave_cache self;
     worker_proxy_path := worker_proxy_path self;
     proxy_width := proxy_width self; proxy_enabled := proxy_enabled self;
     signals := signals self |}.

Definition set_wave_cache (self : Worker) (m : gmap string string) : Worker :=
  {| clip := clip self; temp_root := temp_root self;
     thumbs_cache := thumbs_cache self; wave_cache := m;
     worker_proxy_path := worker_proxy_path self;
     proxy_width := proxy_width self; proxy_enabled := proxy_enabled self;
     signals := signals self |}.

Definition set_worker_proxy_path (self : Worker) (p : string) : Worker :=
  {| clip := clip self; temp_root := temp_root self;
     thumbs_cache := thumbs_cache self; wave_cache := wave_cache self;
     worker_proxy_path := p;
     proxy_width := proxy_width self; proxy_enabled := proxy_enabled self;
     signals := signals self |}.

Definition emit (self : Worker) (s : Signal) : Worker :=
  {| clip := clip self; temp_root := temp_root self;
     thumbs_cache := thumbs_cache self; wave_cache := wave_cache self;
     worker_proxy_path := worker_proxy_path self;
     proxy_width := proxy_width self; proxy_enabled := proxy_enabled self;
     signals := signals self ++ [s] |}.

(** Truthiness of an optional path. *)
Definition truthy_path (p : option string) : bool :=
  match p with Some s => Py.truthy_str s | None => false end.

(** [_generate_thumbs_from_source(source_path, output_dir, start, duration)]. *)
Definition _generate_thumbs_from_source (self : Worker)
    (source_path output_dir : string) (start duration : Q) (w : World)
  : list string * World :=
  let media := media (clip self) in
  match type media with
  | video =>
      Utils.generate_thumbnails source_path output_dir start duration
        UIConfig.THUMBNAIL_COUNT UIConfig.THUMBNAIL_WIDTH w
  | image =>
      let output_path := os_path_join output_dir "thumb_00.jpg" in
      let cmd := ["ffmpeg"; "-y"; "-loop"; "1";
                  "-i"; path media;
                  "-frames:v"; "1";
                  "-vf"; "scale=" +:+ Py.str_int UIConfig.THUMBNAIL_WIDTH +:+ ":-2";
                  output_path] in
      let '((code, _, _), w1) := Utils.run_cmd cmd 300 w in
      if Z.eqb code 0 && os_path_exists output_path w1 then ([output_path], w1)
      else ([], w1)
  | _ => ([], w)
  end.

(** [_generate_wave_from_source(source_path, output_dir, start, duration)]. *)
Definition _generate_wave_from_source (self : Worker)
    (source_path output_dir : string) (start duration : Q) (w : World)
  : option string * World :=
  let wave_path := os_path_join output_dir "wave.png" in
  let '(success, w1) :=
    Utils.generate_waveform source_path wave_path start duration
      UIConfig.WAVEFORM_SIZE w in
  (if success then Some wave_path else None, w1).

(** The two cache lookups of [run]. *)
Definition check_wave_cache (self : Worker) (w : World) : Worker :=
  let media := media (clip self) in
  match wave_cache self !! path media with
  | Some cached_wave =>
      if os_path_exists cached_wave w
      then set_clip self (set_waveform_path (clip self) (Some cached_wave))
      else self
  | None => self
  end.

Definition check_thumbs_cache (self : Worker) (w : World) : Worker :=
  let media := media (clip self) in
  match thumbs_cache self !! path media with
  | Some cached_thumbs =>
      if forallb (fun p => os_path_exists p w) cached_thumbs
      then set_clip self (set_thumb_paths (clip self) cached_thumbs)
      else self
  | None => self
  end.

(** The time window of [run]. *)
Definition window_start (c : TimelineClip) : Q := Py.or_float (start c) 0.0.

Definition duration_or_0 (m : MediaItem) : Q :=
  match duration m with Some d => Py.or_float d 0.0 | None => 0.0 end.

Definition effective_dur (c : TimelineClip) : Q :=
  let start := window_start c in
  let end_ := match end_ c with Some e => e | None => duration_or_0 (media c) end in
  Py.max 0.2 (if Py.ltb start end_ then end_ - start else duration_or_0 (media c)).

(** The proxy step of [run]. *)
Definition proxy_step (self : Worker) (w : World) : Worker * World :=
  if proxy_enabled self
  then
    let '(p, w1) :=
      Utils.generate_proxy (path (media (clip self))) (temp_root self)
        (proxy_width self) w in
    (if Py.truthy_str p then set_worker_proxy_path self p else self, w1)
  else (self, w).

Definition source_for (self : Worker) : string :=
  Py.or_str (worker_proxy_path self) (path (media (clip self))).

(** The thumbnail step of [run]. *)
Definition thumbs_step (self : Worker) (clip_dir : string) (w : World)
  : Worker * World :=
  if negb (Py.truthy_list (thumb_paths (clip self)))
  then
    let '(new_thumbs, w1) :=
      _generate_thumbs_from_source self (source_for self) clip_dir
        (window_start (clip self)) (effective_dur (clip self)) w in
    let self := set_clip self (set_thumb_paths (clip self) new_thumbs) in
    (if Py.truthy_list new_thumbs
     then set_thumbs_cache self (<[path (media (clip self)) := new_thumbs]> (thumbs_cache self))
     else self, w1)
  else (self, w).

(** The waveform step of [run]. *)
Definition wave_step (self : Worker) (clip_dir : string) (w : World)
  : Worker * World :=
  if negb (truthy_path (waveform_path (clip self)))
     && match type (media (clip self)) with video | audio => true | _ => false end
  then
    let '(wave_path, w1) :=
      _generate_wave_from_source self (source_for self) clip_dir
        (window_start (clip self)) (effective_dur (clip self)) w in
    (if truthy_path wave_path
     then
       let self := set_clip self (set_waveform_path (clip self) wave_path) in
       set_wave_cache self
         (<[path (media (clip self)) := default "" wave_path]> (wave_cache self))
     else self, w1)
  else (self, w).

(** The directory [run] makes for the clip. *)
Definition make_clip_dir (self : Worker) (w : World) : string * World :=
  let '(hex, w1) := uuid4_hex w in
  Utils.ensure_dir (os_path_join (temp_root self) ("clip_" +:+ hex)) w1.

(** The rest of [run] after the cache lookups missed. *)
Definition generate (self : Worker) (w : World) : Worker * World :=
  let '(clip_dir, w) := make_clip_dir self w in
  let self := set_clip self (set_preview_dir (clip self) (Some clip_dir)) in
  let '(self, w) := proxy_step self w in
  let '(self, w) := thumbs_step self clip_dir w in
  let '(self, w) := wave_step self clip_dir w in
  let self :=
    if Py.truthy_str (worker_proxy_path self)
    then set_clip self (set_proxy_path (clip self) (Some (worker_proxy_path self)))
    else self in
  (emit self (done (clip self)), w).

(** [PreviewWorker.run()]. *)
Definition run (self : Worker) (w : World) : Worker * World :=
  let self := emit self (started (clip self)) in
  let self := check_wave_cache self w in
  let self := check_thumbs_cache self w in
  if truthy_path (waveform_path (clip self)) && Py.truthy_list (thumb_paths (clip self))
  then (emit self (done (clip self)), w)
  else generate self w.

End PreviewWorker.
End PreviewWorker.

(* ===================================================================== *)
(** * export.py                                                           *)
(* ===================================================================== *)

(** The audio tempo chain, for a finite speed (an exact rational here; the
    same function on every float, the infinities and NaN included, is
    [AtempoFloat] below).  A stage is kept with the number it was built
    from; [render_stage] is the text the code appends. *)
Inductive AtempoStage :=
| atempo_2_0                       (* the literal atempo=2.0 *)
| atempo_0_5                       (* the literal atempo=0.5 *)
| atempo_fmt (remaining : Q).      (* atempo= followed by remaining to 6 decimals *)


Module Atempo.

Definition render_stage (s : AtempoStage) : string :=
  match s with
  | atempo_2_0 => "atempo=2.0"
  | atempo_0_5 => "atempo=0.5"
  | atempo_fmt remaining => "atempo=" +:+ Fmt.format_6f remaining
  end.

(** [while remaining > 2.0: chain.append("atempo=2.0"); remaining /= 2.0],
    at most [fuel] tests of the condition. *)
Fixpoint while_gt_2 (fuel : nat) (chain : list AtempoStage) (remaining : Q)
  : option (list AtempoStage * Q) :=
  match fuel with
  | O => None
  | S fuel' =>
      if Py.ltb 2.0 remaining
      then while_gt_2 fuel' (chain ++ [atempo_2_0]) (remaining / 2.0)
      else Some (chain, remaining)
  end.

(** [while remaining < 0.5: chain.append("atempo=0.5"); remaining *= 2.0]. *)
Fixpoint while_lt_half (fuel : nat) (chain : list AtempoStage) (remaining : Q)
  : option (list AtempoStage * Q) :=
  match fuel with
  | O => None
  | S fuel' =>
      if Py.ltb remaining 0.5
      then while_lt_half fuel' (chain ++ [atempo_0_5]) (remaining * 2.0)
      else Some (chain, remaining)
  end.

(** The body of [atempo_chain] up to the join, with [fuel] for each loop. *)
Definition stages_fuel (fuel : nat) (v : Q) : option (list AtempoStage) :=
  let v := if Py.leb v 0 then 1.0 else v in
  let chain := [] in
  let remaining := v in
  match while_gt_2 fuel chain remaining with
  | None => None
  | Some (chain, remaining) =>
      match while_lt_half fuel chain remaining with
      | None => None
      | Some (chain, remaining) => Some (chain ++ [atempo_fmt remaining])
      end
  end.

(** Fuel that suffices for [v]: the bit sizes of its numerator and
    denominator bound the numbers of halvings and doublings. *)
Definition enough_fuel (v : Q) : nat :=
  S (Pos.size_nat (Z.to_pos (Qnum v)) + Pos.size_nat (Qden v)).

(** The stages of [atempo_chain(v)]. *)
Definition stages (v : Q) : list AtempoStage :=
  match stages_fuel (enough_fuel v) v with
  | Some chain => chain
  | None => []
  end.

(** [atempo_chain(v)], the same function in [export.py] and in
    [effect_preview_worker.py]. *)
Definition atempo_chain (v : Q) : string :=
  Py.join "," (map render_stage (stages v)).

(** The ratio a stage asks of the tool (the number its text denotes), and
    the ratio it was built from. *)
Definition emitted_ratio (s : AtempoStage) : Q :=
  match s with
  | atempo_2_0 => 2.0
  | atempo_0_5 => 0.5
  | atempo_fmt remaining => Fmt.value_6f remaining
  end.

Definition exact_ratio (s : AtempoStage) : Q :=
  match s with
  | atempo_2_0 => 2.0
  | atempo_0_5 => 0.5
  | atempo_fmt remaining => remaining
  end.

Definition product (l : list Q) : Q := fold_right Qmult 1 l.

End Atempo.

(** ** The tempo chain on floats that need not be finite *)

(** A Python float: a finite value (an exact rational in this model), an
    infinity or NaN.  [json.load] reads [1e999] as [inf] and [NaN] as
    [nan], and [float()] keeps both. *)
Inductive PyFloat :=
| finite (q : Q)
| inf
| neg_inf
| nan.

Module Flt.

(** [x < y] and [x <= y]: a comparison with [nan] is false. *)
Definition ltb (x y : PyFloat) : bool :=
  match x with
  | nan => false
  | finite a =>
      match y with finite b => Py.ltb a b | inf => true | neg_inf => false | nan => false end
  | inf => false
  | neg_inf =>
      match y with finite _ => true | inf => true | neg_inf => false | nan => false end
  end.

Definition leb (x y : PyFloat) : bool :=
  match x with
  | nan => false
  | finite a =>
      match y with finite b => Py.leb a b | inf => true | neg_inf => false | nan => false end
  | inf => match y with inf => true | _ => false end
  | neg_inf => match y with nan => false | _ => true end
  end.

(** [x / d] and [x * d] for a finite positive [d]: an infinity and [nan]
    stay what they are. *)
Definition div (x : PyFloat) (d : Q) : PyFloat :=
  match x with finite a => finite (a / d) | other => other end.

Definition mul (x : PyFloat) (d : Q) : PyFloat :=
  match x with finite a => finite (a * d) | other => other end.

(** [f"{x:.6f}"]. *)
Definition format_6f (x : PyFloat) : string :=
  match x with
  | finite a => Fmt.format_6f a
  | inf => "inf"
  | neg_inf => "-inf"
  | nan => "nan"
  end.

End Flt.

Inductive AtempoFloatStage :=
| f_atempo_2_0
| f_atempo_0_5
| f_atempo_fmt (remaining : PyFloat).

(** [atempo_chain(v)] as [Atempo] has it, for every float [v]. *)
Module AtempoFloat.

Definition render_stage (s : AtempoFloatStage) : string :=
  match s with
  | f_atempo_2_0 => "atempo=2.0"
  | f_atempo_0_5 => "atempo=0.5"
  | f_atempo_fmt remaining => "atempo=" +:+ Flt.format_6f remaining
  end.

(** [while remaining > 2.0: chain.append("atempo=2.0"); remaining /= 2.0],
    at most [fuel] tests of the condition. *)
Fixpoint while_gt_2 (fuel : nat) (chain : list AtempoFloatStage) (remaining : PyFloat)
  : option (list AtempoFloatStage * PyFloat) :=
  match fuel with
  | O => None
  | S fuel' =>
      if Flt.ltb (finite 2.0) remaining
      then while_gt_2 fuel' (chain ++ [f_atempo_2_0]) (Flt.div remaining 2.0)
      else Some (chain, remaining)
  end.

(** [while remaining < 0.5: chain.append("atempo=0.5"); remaining *= 2.0]. *)
Fixpoint while_lt_half (fuel : nat) (chain : list AtempoFloatStage) (remaining : PyFloat)
  : option (list AtempoFloatStage * PyFloat) :=
  match fuel with
  | O => None
  | S fuel' =>
      if Flt.ltb remaining (finite 0.5)
      then while_lt_half fuel' (chain ++ [f_atempo_0_5]) (Flt.mul remaining 2.0)
      else Some (chain, remaining)
  end.

(** The body of [atempo_chain] up to the join, with [fuel] for each loop:
    [None] when a loop has not finished within [fuel] tests. *)
Definition stages_fuel (fuel : nat) (v : PyFloat) : option (list AtempoFloatStage) :=
  let v := if Flt.leb v (finite 0) then finite 1.0 else v in
  let chain := [] in
  let remaining := v in
  match while_gt_2 fuel chain remaining with
  | None => None
  | Some (chain, remaining) =>
      match while_lt_half fuel chain remaining with
      | None => None
      | Some (chain, remaining) => Some (chain ++ [f_atempo_fmt remaining])
      end
  end.

(** [atempo_chain(v)], when the loops finish within [fuel] tests. *)
Definition atempo_chain_fuel (fuel : nat) (v : PyFloat) : option string :=
  match stages_fuel fuel v with
  | Some chain => Some (Py.join "," (map render_stage chain))
  | None => None
  end.

(** A stage of a finite speed, as a stage of a float. *)
Definition of_stage (s : AtempoStage) : AtempoFloatStage :=
  match s with
  | atempo_2_0 => f_atempo_2_0
  | atempo_0_5 => f_atempo_0_5
  | atempo_fmt remaining => f_atempo_fmt (finite remaining)
  end.

(** The ratio a stage was built from, and whether it is in [0.5, 2.0]. *)
Definition ratio (s : AtempoFloatStage) : PyFloat :=
  match s with
  | f_atempo_2_0 => finite 2.0
  | f_atempo_0_5 => finite 0.5
  | f_atempo_fmt remaining => remaining
  end.

Definition in_range (s : AtempoFloatStage) : bool :=
  Flt.leb (finite 0.5) (ratio s) && Flt.leb (ratio s) (finite 2.0).

End AtempoFloat.

(** The exporter object. *)
Record ProjectExporter := {
  timeline : list TimelineClip;
  bg_music : option string;
  lut_dir : string;
}.

(** What an export does to the outside, in order: each run of the external
    tool with its exit code and stderr, and each [os.replace] with whether
    it succeeded. *)
Inductive Event :=
| EvRun (cmd : list string) (code : Z) (stderr : string)
| EvReplace (src dst : string) (ok : bool).

(** A call either returns or raises an exception of text [msg]. *)
Inductive Result (A : Type) :=
| Ok (a : A)
| Raise (msg : string).
Arguments Ok {A} a.
Arguments Raise {A} msg.

Module ExportPy.
Section ExportPy.
Context `{Runtime}.

Record State := {
  self : ProjectExporter;
  world : World;
  trace : list Event;
}.

(** A method of the exporter: it reads and updates the state and returns
    or raises. *)
Definition M (A : Type) : Type := State -> Result A * State.

#[export] Instance M_ret : MRet M := fun A a st => (Ok a, st).
#[export] Instance M_bind : MBind M := fun A B f m st =>
  match m st with
  | (Ok a, st') => f a st'
  | (Raise msg, st') => (Raise msg, st')
  end.

Definition raise {A} (msg : string) : M A := fun st => (Raise msg, st).

(** [try: body  except Exception as e: handler(str(e))]. *)
Definition try_except {A} (body : M A) (handler : string -> M A) : M A :=
  fun st =>
    match body st with
    | (Ok a, st') => (Ok a, st')
    | (Raise msg, st') => handler msg st'
    end.

Definition get_self : M ProjectExporter := fun st => (Ok (self st), st).

(** An operation on the world that cannot raise. *)
Definition lift_world {A} (f : World -> A * World) : M A := fun st =>
  let '(a, w) := f (world st) in
  (Ok a, {| self := self st; world := w; trace := trace st |}).

Definition read_world {A} (f : World -> A) : M A := fun st => (Ok (f (world st)), st).

(** [run_cmd(cmd)] with the default timeout. *)
Definition run_cmd (cmd : list string) : M (Z * string * string) := fun st =>
  let '((code, out, err), w) := Utils.run_cmd cmd 300 (world st) in
  (Ok (code, out, err),
   {| self := self st; world := w; trace := trace st ++ [EvRun cmd code err] |}).

(** [os.replace(src, dst)], raising when it fails. *)
Definition replace (src dst : string) : M unit := fun st =>
  let '(ok, w) := os_replace src dst (world st) in
  let st' := {| self := self st; world := w;
                trace := trace st ++ [EvReplace src dst ok] |} in
  if ok then (Ok tt, st') else (Raise "os.replace failed", st').

Definition code_ne_0 (code : Z) : bool := negb (Z.eqb code 0).

(** The trim arguments of [_render_single_clip]. *)
Definition start_args (clip : TimelineClip) : list string :=
  if Py.truthy_float (start clip) && Py.ltb 0 (start clip)
  then ["-ss"; str_float (start clip)] else [].

Definition duration_args (clip : TimelineClip) : list string :=
  match end_ clip with
  | Some e =>
      if Py.truthy_float e && Py.ltb (Py.or_float (start clip) 0.0) e
      then ["-t"; str_float (e - Py.or_float (start clip) 0.0)] else []
  | None => []
  end.

(** The lists [filters] and [a_filters] of [_render_single_clip]. *)
Definition lut_filters (lut_dir : string) (w : World) (clip : TimelineClip) : list string :=
  if Py.truthy_str (lut clip) && negb (String.eqb (lut clip) "none")
  then
    let lut_path := os_path_join lut_dir (lut clip) in
    if os_path_exists lut_path w
    then ["lut3d=file='" +:+ lut_path +:+ "'"] else []
  else [].

Definition title_filters (clip : TimelineClip) : list string :=
  if Py.truthy_str (title clip)
  then
    let text_esc := Py.replace_char "'" "\'" (title clip) in
    ["drawtext=text='" +:+ text_esc +:+ "':fontcolor=white:"
     +:+ "fontsize=" +:+ Py.str_int (title_size clip) +:+ ":x=" +:+ title_pos clip +:+ ":"
     +:+ "y=(h-" +:+ Py.str_int (title_size clip)
     +:+ "-40):shadowcolor=black:shadowx=2:shadowy=2"]
  else [].

Definition render_speed (clip : TimelineClip) : Q := Py.or_float (speed clip) 1.0.

Definition speed_filters (clip : TimelineClip) : list string :=
  let spd := render_speed clip in
  if negb (Qeq_bool spd 1.0) then ["setpts=PTS/" +:+ str_float spd] else [].

Definition speed_a_filters (clip : TimelineClip) : list string :=
  let spd := render_speed clip in
  if negb (Qeq_bool spd 1.0) then [Atempo.atempo_chain spd] else [].

Definition filters (lut_dir : string) (w : World) (clip : TimelineClip) : list string :=
  lut_filters lut_dir w clip ++ title_filters clip ++ speed_filters clip.

Definition a_filters (clip : TimelineClip) : list string := speed_a_filters clip.

Definition filter_args (lut_dir : string) (w : World) (clip : TimelineClip) : list string :=
  (if Py.truthy_list (filters lut_dir w clip)
   then ["-vf"; Py.join "," (filters lut_dir w clip)] else [])
  ++ (if Py.truthy_list (a_filters clip)
      then ["-af"; Py.join "," (a_filters clip)] else []).

Definition codec_args (output_path : string) : list string :=
  ["-c:v"; "libx264";
   "-preset"; FFmpegConfig.PRESET;
   "-crf"; Py.str_int FFmpegConfig.CRF;
   "-c:a"; "aac";
   "-b:a"; FFmpegConfig.AUDIO_BITRATE;
   output_path].

(** The command of [_render_single_clip]. *)
Definition render_cmd (lut_dir : string) (w : World) (clip : TimelineClip)
    (output_path : string) : list string :=
  let src := path (media clip) in
  ["ffmpeg"; "-y"] ++ start_args clip ++ ["-i"; src] ++ duration_args clip
  ++ filter_args lut_dir w clip
  ++ codec_args output_path.

(** [_render_single_clip(clip, output_path)]. *)
Definition _render_single_clip (clip : TimelineClip) (output_path : string) : M unit :=
  this ← get_self;
  cmd ← read_world (fun w => render_cmd (lut_dir this) w clip output_path);
  '(code, _, err) ← run_cmd cmd;
  if code_ne_0 code then raise ("Failed to render clip: " +:+ err)
  else mret tt.

(** The loop of [_render_all_clips], from index [idx]. *)
Fixpoint render_loop (temp_dir : string) (idx : nat) (clips : list TimelineClip)
    (rendered_clips : list string) : M (list string) :=
  match clips with
  | [] => mret rendered_clips
  | clip :: rest =>
      let rendered_path :=
        os_path_join temp_dir ("clip_" +:+ pretty idx +:+ ".mp4") in
      _ ← _render_single_clip clip rendered_path;
      render_loop temp_dir (S idx) rest (rendered_clips ++ [rendered_path])
  end.

(** [_render_all_clips(temp_dir)]. *)
Definition _render_all_clips (temp_dir : string) : M (list string) :=
  this ← get_self;
  render_loop temp_dir 0 (timeline this) [].

(** The double quote and the newline, as one-character strings. *)
Definition dquote : string := String "034"%char "".
Definition newline : string := String "010"%char "".

(** The manifest of [_concatenate_simple]: one line per clip. *)
Definition manifest (clips : list string) : string :=
  String.concat ""
    (map (fun p => "file " +:+ dquote +:+ Utils.safe_path_for_concat p +:+ dquote +:+ newline)
         clips).

Definition concat_cmd (concat_list concat_out : string) : list string :=
  ["ffmpeg"; "-y";
   "-f"; "concat";
   "-safe"; "0";
   "-i"; concat_list;
   "-c"; "copy";
   concat_out].

(** [_concatenate_simple(clips, temp_dir)]. *)
Definition _concatenate_simple (clips : list string) (temp_dir : string) : M string :=
  let concat_list := os_path_join temp_dir "concat_list.txt" in
  _ ← lift_world (fun w => (tt, write_text concat_list (manifest clips) w));
  let concat_out := os_path_join temp_dir "concatenated.mp4" in
  let cmd := concat_cmd concat_list concat_out in
  '(code, _, err) ← run_cmd cmd;
  if code_ne_0 code then raise ("Failed to concatenate clips: " +:+ err)
  else mret concat_out.

(** The transition of the clip at index [i - 1], with the friendly name
    mapped: [tr] as the loop of [_concatenate_with_transitions] uses it. *)
Definition transition_name (tl : list TimelineClip) (i : nat) : string :=
  let tr :=
    match nth_error tl (i - 1) with
    | Some c => Py.or_str (transition c) "none"
    | None => "none"
    end in
  if String.eqb tr "crossfade" then "fade" else tr.

Definition pair_concat_cmd (current next_clip out_chain : string) : list string :=
  ["ffmpeg"; "-y";
   "-i"; current;
   "-i"; next_clip;
   "-filter_complex";
   "[0:v][0:a][1:v][1:a]concat=n=2:v=1:a=1[v][a]";
   "-map"; "[v]";
   "-map"; "[a]";
   "-c:v"; "libx264";
   "-preset"; FFmpegConfig.PRESET;
   "-crf"; Py.str_int FFmpegConfig.CRF;
   "-c:a"; "aac";
   "-b:a"; FFmpegConfig.AUDIO_BITRATE;
   out_chain].

Definition xfade_cmd (tr current next_clip out_chain : string) : list string :=
  ["ffmpeg"; "-y";
   "-i"; current;
   "-i"; next_clip;
   "-filter_complex";
   "[0:v][1:v]xfade=transition=" +:+ tr +:+ ":duration="
     +:+ str_float FFmpegConfig.CROSSFADE_DURATION +:+ ":offset=1,format=yuv420p";
   "-c:v"; "libx264";
   "-preset"; FFmpegConfig.PRESET;
   "-crf"; Py.str_int FFmpegConfig.CRF;
   "-c:a"; "aac";
   "-b:a"; FFmpegConfig.AUDIO_BITRATE;
   out_chain].

(** The command of one step of the fold. *)
Definition step_cmd (tr current next_clip out_chain : string) : list string :=
  if String.eqb tr "none"
  then pair_concat_cmd current next_clip out_chain
  else xfade_cmd tr current next_clip out_chain.

(** The loop of [_concatenate_with_transitions] from index [i], over the
    clips [clips[i:]]. *)
Fixpoint transitions_loop (temp_dir : string) (i : nat) (rest : list string)
    (current : string) : M string :=
  match rest with
  | [] => mret current
  | next_clip :: rest' =>
      let out_chain :=
        os_path_join temp_dir ("xfade_" +:+ pretty (i - 1)%nat +:+ ".mp4") in
      this ← get_self;
      let tr := transition_name (timeline this) i in
      let cmd := step_cmd tr current next_clip out_chain in
      '(code, _, err) ← run_cmd cmd;
      if code_ne_0 code then raise ("Failed transition step: " +:+ err)
      else transitions_loop temp_dir (S i) rest' out_chain
  end.

(** [_concatenate_with_transitions(clips, temp_dir)]. *)
Definition _concatenate_with_transitions (clips : list string) (temp_dir : string)
  : M string :=
  match clips with
  | [] => raise "list index out of range"
  | current :: rest => transitions_loop temp_dir 1 rest current
  end.

Definition music_cmd (bg music_adj : string) : list string :=
  ["ffmpeg"; "-y";
   "-i"; bg;
   "-filter:a"; "volume=" +:+ str_float FFmpegConfig.VOLUME_BG_MUSIC;
   "-c:a"; "aac";
   "-b:a"; FFmpegConfig.AUDIO_BITRATE;
   music_adj].

Definition mix_cmd (video_path music_adj output_path : string) : list string :=
  ["ffmpeg"; "-y";
   "-i"; video_path;
   "-i"; music_adj;
   "-filter_complex";
   "[0:a]volume=1[a0];[1:a]volume=1[a1];[a0][a1]amix=inputs=2:duration=longest:dropout_transition=2[aout]";
   "-map"; "0:v";
   "-map"; "[aout]";
   "-c:v"; "copy";
   "-c:a"; "aac";
   "-b:a"; FFmpegConfig.AUDIO_BITRATE;
   output_path].

(** [_add_background_music(video_path, output_path, temp_dir)], for the
    music path [bg] of the exporter. *)
Definition _add_background_music (bg video_path output_path temp_dir : string) : M unit :=
  let music_adj := os_path_join temp_dir "bg.aac" in
  '(code, _, err) ← run_cmd (music_cmd bg music_adj);
  if code_ne_0 code then raise ("Failed to process music: " +:+ err)
  else
    '(code, _, err) ← run_cmd (mix_cmd video_path music_adj output_path);
    if code_ne_0 code then raise ("Failed to mix background music: " +:+ err)
    else mret tt.

Definition copy_cmd (source destination : string) : list string :=
  ["ffmpeg"; "-y";
   "-i"; source;
   "-c"; "copy";
   destination].

(** [_copy_to_output(source, destination)]. *)
Definition _copy_to_output (source destination : string) : M unit :=
  try_except (replace source destination)
    (fun _ =>
       '(code, _, err) ← run_cmd (copy_cmd source destination);
       if code_ne_0 code then raise ("Failed to produce final output: " +:+ err)
       else mret tt).

(** [use_transitions] of [export]. *)
Definition use_transitions (tl : list TimelineClip) : bool :=
  existsb (fun c => String.eqb (transition c) "crossfade") tl.

(** The sequence assembly of [export]. *)
Definition assemble (rendered_clips : list string) (temp_dir : string) : M string :=
  this ← get_self;
  if use_transitions (timeline this)
  then _concatenate_with_transitions rendered_clips temp_dir
  else _concatenate_simple rendered_clips temp_dir.

(** The body of the [try] of [export]. *)
Definition export_body (output_path temp_dir : string) : M unit :=
  rendered_clips ← _render_all_clips temp_dir;
  final_video ← assemble rendered_clips temp_dir;
  this ← get_self;
  match bg_music this with
  | Some bg =>
      if Py.truthy_str bg
      then _add_background_music bg final_video output_path temp_dir
      else _copy_to_output final_video output_path
  | None => _copy_to_output final_video output_path
  end.

(** [export(output_path)]. *)
Definition export (output_path : string) : M unit :=
  hex ← lift_world uuid4_hex;
  let temp_dir := os_path_join gettempdir ("pyeditor_" +:+ hex) in
  _ ← lift_world (fun w => (tt, os_makedirs temp_dir w));
  try_except (export_body output_path temp_dir)
    (fun e => raise ("Export failed: " +:+ e)).

End ExportPy.
End ExportPy.

(* ===================================================================== *)
(** * main_window.py                                                      *)
(* ===================================================================== *)

(** A job started on the thread pool. *)
Inductive Job :=
| PreviewJob (clip : nat) (proxy_width : Z) (proxy_enabled : bool)
| EffectPreviewJob (clip : nat).

Module MainWindow.

(** The part of the window the sequencer and the clip operations read and
    write.  [items_list] holds the clips of the items of the visual
    timeline, in order; a clip object is in the lists by value and is told
    apart by its [oid]. *)
Record State := {
  timeline : list TimelineClip;
  items_list : list TimelineClip;
  playhead_sec : Q;
  tl_list_current : option nat;      (* the clip of the current row of the list *)
  selected : list nat;               (* the clips of the selected items *)
  speed_spin : Q;                    (* the value of the speed spin box *)
  preview_res : option nat;          (* the index of the preview resolution *)
  proxy_checked : bool;
  pool : list Job;
  next_oid : nat;                    (* the identity the next object gets *)
}.

Definition set_lists (self : State) (tl items : list TimelineClip) : State :=
  {| timeline := tl; items_list := items;
     playhead_sec := playhead_sec self; tl_list_current := tl_list_current self;
     selected := selected self; speed_spin := speed_spin self;
     preview_res := preview_res self; proxy_checked := proxy_checked self;
     pool := pool self; next_oid := next_oid self |}.

Definition start_job (self : State) (j : Job) : State :=
  {| timeline := timeline self; items_list := items_list self;
     playhead_sec := playhead_sec self; tl_list_current := tl_list_current self;
     selected := selected self; speed_spin := speed_spin self;
     preview_res := preview_res self; proxy_checked := proxy_checked self;
     pool := pool self ++ [j]; next_oid := next_oid self |}.

(** Allocation of [n] object identities. *)
Definition allocate (self : State) (n : nat) : State :=
  {| timeline := timeline self; items_list := items_list self;
     playhead_sec := playhead_sec self; tl_list_current := tl_list_current self;
     selected := selected self; speed_spin := speed_spin self;
     preview_res := preview_res self; proxy_checked := proxy_checked self;
     pool := pool self; next_oid := (next_oid self + n)%nat |}.

(** [a is b] on clips. *)
Definition is_ (a b : TimelineClip) : bool := Nat.eqb (oid a) (oid b).

(** The loop of [_clip_at_global_time], [t] being the time accumulated. *)
Fixpoint clip_at_loop (items : list TimelineClip) (t sec : Q)
  : option (TimelineClip * Q) :=
  match items with
  | [] => None
  | clip :: rest =>
      let duration := Models.duration_effective clip in
      if Py.ltb sec (t + duration) then Some (clip, sec - t)
      else clip_at_loop rest (t + duration) sec
  end.

(** [_clip_at_global_time(sec)]. *)
Definition _clip_at_global_time (self : State) (sec : Q) : option (TimelineClip * Q) :=
  clip_at_loop (items_list self) 0.0 sec.

(** The loop of [_cumulative_start_of]. *)
Fixpoint cumulative_loop (items : list TimelineClip) (t : Q) (clip : TimelineClip) : Q :=
  match items with
  | [] => 0.0
  | item :: rest =>
      if is_ item clip then t
      else cumulative_loop rest (t + Models.duration_effective item) clip
  end.

(** [_cumulative_start_of(clip)]. *)
Definition _cumulative_start_of (self : State) (clip : TimelineClip) : Q :=
  cumulative_loop (items_list self) 0.0 clip.

(** [_prepare_clip_previews(clip)]. *)
Definition _prepare_clip_previews (self : State) (clip : TimelineClip) : State :=
  let has s := match s with Some p => Py.truthy_str p | None => false end in
  if has (preview_dir clip)
     && (Py.truthy_list (thumb_paths clip) || has (waveform_path clip))
  then self
  else
    let sel := match preview_res self with Some i => i | None => 2%nat end in
    let proxy_width :=
      match sel with
      | 0%nat => 360 | 1%nat => 480 | 2%nat => 640 | 3%nat => 720 | _ => 640
      end%Z in
    start_job self (PreviewJob (oid clip) proxy_width (proxy_checked self)).

(** [_rebuild_effect_preview_for(clip)]. *)
Definition _rebuild_effect_preview_for (self : State) (clip : TimelineClip) : State :=
  start_job self (EffectPreviewJob (oid clip)).

(** [self.timeline.index(clip)]: the first position of the object, [None]
    when [index] raises [ValueError]. *)
Fixpoint index (tl : list TimelineClip) (clip : TimelineClip) : option nat :=
  match tl with
  | [] => None
  | c :: rest => if is_ c clip then Some 0%nat else option_map S (index rest clip)
  end.

(** The two clips [split_at_playhead] builds from [clip], as the objects of
    identities [o] and [S o]. *)
Definition split_left (o : nat) (clip : TimelineClip) (split_abs : Q) : TimelineClip :=
  let left := Models.TimelineClip_init o (media clip) in
  {| oid := oid left; media := media left;
     start := start clip; end_ := Some split_abs;
     title := title clip; title_size := title_size clip; title_pos := title_pos left;
     lut := lut clip; transition := "none"; track := track left;
     speed := speed left;
     preview_dir := preview_dir left; thumb_paths := thumb_paths left;
     waveform_path := waveform_path left; proxy_path := proxy_path left;
     effect_preview_path := effect_preview_path left |}.

Definition split_right (o : nat) (clip : TimelineClip) (split_abs : Q) : TimelineClip :=
  let right := Models.TimelineClip_init o (media clip) in
  {| oid := oid right; media := media right;
     start := split_abs; end_ := end_ clip;
     title := title clip; title_size := title_size clip; title_pos := title_pos right;
     lut := lut clip; transition := transition clip; track := track right;
     speed := speed right;
     preview_dir := preview_dir right; thumb_paths := thumb_paths right;
     waveform_path := waveform_path right; proxy_path := proxy_path right;
     effect_preview_path := effect_preview_path right |}.

(** [split_at_playhead()] up to the update of the window's list and of the
    list of the items.  The method ends with [repack_by_order()], which
    orders the items by their position and hands that order back to the
    window: the whole method, with the positions of the items, is
    [Canvas.split_at_playhead]. *)
Definition split_at_playhead (self : State) : Result unit * State :=
  let gsec := playhead_sec self in
  match _clip_at_global_time self gsec with
  | None => (Ok tt, self)
  | Some (clip, local_sec) =>
      if Py.leb local_sec 0.05
         || Py.leb (Models.duration_effective clip - 0.05) local_sec
      then (Ok tt, self)
      else
        let split_abs := start clip + local_sec in
        let left := split_left (next_oid self) clip split_abs in
        let right := split_right (S (next_oid self)) clip split_abs in
        let self := allocate self 2 in
        let self := _prepare_clip_previews self left in
        let self := _prepare_clip_previews self right in
        match index (timeline self) clip with
        | None => (Raise "ValueError", self)
        | Some idx =>
            let tl := take idx (timeline self) ++ [left; right]
                      ++ drop (S idx) (timeline self) in
            let new_items :=
              flat_map (fun item => if is_ item clip then [left; right] else [item])
                       (items_list self) in
            (Ok tt, set_lists self tl new_items)
        end
  end.

(** [_current_clip()]. *)
Definition _current_clip (self : State) : option TimelineClip :=
  match tl_list_current self with
  | Some o => List.find (fun c => Nat.eqb (oid c) o) (timeline self)
  | None =>
      List.find (fun c => existsb (Nat.eqb (oid c)) (selected self)) (items_list self)
  end.

(** The assignment [clip.speed = v] to the object [clip]. *)
Definition assign_speed (o : nat) (v : Q) (l : list TimelineClip) : list TimelineClip :=
  map (fun c =>
         if Nat.eqb (oid c) o
         then {| oid := oid c; media := media c; start := start c; end_ := end_ c;
                 title := title c; title_size := title_size c; title_pos := title_pos c;
                 lut := lut c; transition := transition c; track := track c;
                 speed := v;
                 preview_dir := preview_dir c; thumb_paths := thumb_paths c;
                 waveform_path := waveform_path c; proxy_path := proxy_path c;
                 effect_preview_path := effect_preview_path c |}
         else c) l.

(** [apply_speed_to_clip()]. *)
Definition apply_speed_to_clip (self : State) : State :=
  match _current_clip self with
  | None => self
  | Some clip =>
      let val := speed_spin self in
      let val := if Py.leb val 0 then 1.0 else val in
      let self :=
        set_lists self (assign_speed (oid clip) val (timeline self))
                  (assign_speed (oid clip) val (items_list self)) in
      _rebuild_effect_preview_for self clip
  end.

End MainWindow.

(* ===================================================================== *)
(** * Vocabulary of the statements                                        *)
(* ===================================================================== *)

(** The clip [c] with its speed replaced by [v], trim window unchanged. *)
Definition with_speed (c : TimelineClip) (v : Q) : TimelineClip :=
  {| oid := oid c; media := media c; start := start c; end_ := end_ c;
     title := title c; title_size := title_size c; title_pos := title_pos c;
     lut := lut c; transition := transition c; track := track c;
     speed := v;
     preview_dir := preview_dir c; thumb_paths := thumb_paths c;
     waveform_path := waveform_path c; proxy_path := proxy_path c;
     effect_preview_path := effect_preview_path c |}.

(** The base duration of a clip, as the specification words it. *)
Definition base_duration (c : TimelineClip) : Q :=
  match duration (media c) with
  | None => 5.0
  | Some d => Qmax 0.2 (match end_ c with Some e => e | None => d end - start c)
  end.

(** Two to the power [k], as a float. *)
Definition pow2 (k : nat) : Q := inject_Z (two_power_nat k).

(** A runtime to run the model on: the world is the list of the paths
    that exist; the tool fails on the commands [fails] selects and otherwise
    creates its last argument; floats print with six decimals. *)
Definition demo_runtime (fails : list string -> bool) : Runtime :=
  {| World := list string;
     str_float := Fmt.format_6f;
     os_path_join := fun a b => a +:+ "/" +:+ b;
     os_path_basename := fun p => p;
     os_path_splitext := fun p => (p, "");
     os_path_exists := fun p w => existsb (String.eqb p) w;
     os_makedirs := fun p w => p :: w;
     os_replace := fun src dst w => (true, dst :: w);
     write_text := fun p _ w => p :: w;
     uuid4_hex := fun w => (pretty (length w), w);
     gettempdir := "/tmp";
     subprocess_run := fun cmd _ w =>
       if fails cmd then (Completed 1 "" "tool error", w)
       else (Completed 0 "" "", match last cmd with Some o => o :: w | None => w end);
     float_of_str := fun _ => None |}.

(** A ten-second video and a clip of it trimmed to [2, 8) at double speed. *)
Definition demo_media : MediaItem :=
  {| path := "a.mp4"; name := "a.mp4"; type := video; duration := Some 10.0 |}.

Definition demo_clip : TimelineClip :=
  {| oid := 0; media := demo_media; start := 2.0; end_ := Some 8.0;
     title := ""; title_size := 36; title_pos := "(w-text_w)/2";
     lut := "none"; transition := "none"; track := 0; speed := 2.0;
     preview_dir := None; thumb_paths := []; waveform_path := None;
     proxy_path := None; effect_preview_path := None |}.






(** The commands of the runs among the events. *)
Definition ev_cmds (evs : list Event) : list (list string) :=
  omap (fun e => match e with EvRun cmd _ _ => Some cmd | EvReplace _ _ _ => None end) evs.

(** The transition styles the main window offers besides [none] and
    [crossfade]. *)
Definition named_styles : list string :=
  ["fade"; "wipeleft"; "wiperight"; "wipeup"; "wipedown";
   "slideleft"; "slideright"; "circleopen"; "circleclose"].

(** The commands of the pairwise fold over the rendered clips [rest] from
    index [i], the accumulated file being [current]. *)
Fixpoint fold_cmds `{Runtime} (temp_dir : string) (tl : list TimelineClip) (i : nat)
    (rest : list string) (current : string) : list (list string) :=
  match rest with
  | [] => []
  | next_clip :: rest' =>
      let out_chain :=
        os_path_join temp_dir ("xfade_" +:+ pretty (i - 1)%nat +:+ ".mp4") in
      ExportPy.step_cmd (ExportPy.transition_name tl i) current next_clip out_chain
      :: fold_cmds temp_dir tl (S i) rest' out_chain
  end.

(** The contract of the methods of the exporter. *)
Section ExportContract.
Context `{Runtime}.
Import ExportPy.



End ExportContract.



(** The sum of the effective durations of the clips of a list. *)
Definition total_duration (l : list TimelineClip) : Q :=
  fold_right (fun c acc => Models.duration_effective c + acc) 0 l.

(** A window whose timeline is one clip of a ten-second video, the whole
    of it, at speed [v] on track 1, with the playhead at [at_]. *)
Definition whole_clip (v : Q) : TimelineClip :=
  {| oid := 0; media := demo_media; start := 0.0; end_ := Some 10.0;
     title := "Intro"; title_size := 48; title_pos := "(w-text_w)/2";
     lut := "warm.cube"; transition := "crossfade"; track := 1; speed := v;
     preview_dir := Some "/tmp/clip_0"; thumb_paths := ["/tmp/clip_0/thumb_00.jpg"];
     waveform_path := Some "/tmp/clip_0/wave.png";
     proxy_path := None; effect_preview_path := None |}.

Definition one_clip_window (v at_ : Q) : MainWindow.State :=
  {| MainWindow.timeline := [whole_clip v];
     MainWindow.items_list := [whole_clip v];
     MainWindow.playhead_sec := at_;
     MainWindow.tl_list_current := None;
     MainWindow.selected := [];
     MainWindow.speed_spin := 1.0;
     MainWindow.preview_res := None;
     MainWindow.proxy_checked := false;
     MainWindow.pool := [];
     MainWindow.next_oid := 1 |}.

(** The trim windows of the clips of a timeline. *)
Definition windows (tl : list TimelineClip) : list (Q * option Q) :=
  map (fun c => (start c, end_ c)) tl.

Definition same_window (a b : Q * option Q) : Prop :=
  a.1 == b.1 /\ match a.2, b.2 with
                | Some x, Some y => x == y
                | None, None => True
                | _, _ => False
                end.

(** A clip record of a project file whose stored speed is -2.0, for the
    media [demo_media]. *)
Definition negative_speed_record : gmap string Json :=
  {[ "media_path" := JStr "a.mp4"; "speed" := JNum (-2.0) ]}.

(** The stages of a run of the preview worker: the worker after the two
    cache lookups, and, when it goes on to generate, the directory it makes,
    the worker and world after the proxy step and after the thumbnail
    step. *)
Section PreviewStages.
Context `{Runtime}.
Import PreviewWorker.

Definition looked_up (self : Worker) (w : World) : Worker :=
  check_thumbs_cache (check_wave_cache (emit self (started (clip self))) w) w.

Definition clip_dir_of (self : Worker) (w : World) : string :=
  (make_clip_dir self w).1.

Definition proxied (self : Worker) (w : World) : Worker * World :=
  proxy_step (set_clip self (set_preview_dir (clip self) (Some (clip_dir_of self w))))
             (make_clip_dir self w).2.

Definition thumbed (self : Worker) (w : World) : Worker * World :=
  thumbs_step (proxied self w).1 (clip_dir_of self w) (proxied self w).2.

(** What the generators return at the point where [run] calls them. *)
Definition new_thumbs_of (self : Worker) (w : World) : list string :=
  (_generate_thumbs_from_source (proxied self w).1 (source_for (proxied self w).1)
     (clip_dir_of self w) (window_start (clip self)) (effective_dur (clip self))
     (proxied self w).2).1.

Definition new_wave_of (self : Worker) (w : World) : option string :=
  (_generate_wave_from_source (thumbed self w).1 (source_for (thumbed self w).1)
     (clip_dir_of self w) (window_start (clip self)) (effective_dur (clip self))
     (thumbed self w).2).1.

End PreviewStages.

(** The runtime whose tool never fails. *)
Definition quiet_runtime : Runtime := demo_runtime (fun _ => false).

(** A worker for a fresh clip of [demo_media] whose caches name a
    thumbnail and a waveform that are no longer on disk. *)
Definition stale_worker : PreviewWorker.Worker :=
  {| PreviewWorker.clip := Models.TimelineClip_init 3 demo_media;
     PreviewWorker.temp_root := "/tmp/previews";
     PreviewWorker.thumbs_cache := {[ "a.mp4" := ["/tmp/old/thumb_00.jpg"] ]};
     PreviewWorker.wave_cache := {[ "a.mp4" := "/tmp/old/wave.png" ]};
     PreviewWorker.worker_proxy_path := "";
     PreviewWorker.proxy_width := 640;
     PreviewWorker.proxy_enabled := false;
     PreviewWorker.signals := [] |}.


(* ===================================================================== *)
(** * models.py and utils.py, the other functions                         *)
(* ===================================================================== *)

Module Persist.

Definition json_of_opt_float (x : option Q) : Json :=
  match x with Some q => JNum q | None => JNull end.

Definition json_of_opt_str (x : option string) : Json :=
  match x with Some s => JStr s | None => JNull end.

(** [TimelineClip.to_dict]. *)
Definition to_dict (self : TimelineClip) : gmap string Json :=
  {[ "media_path" := JStr (path (media self));
     "start" := JNum (start self);
     "end" := json_of_opt_float (end_ self);
     "title" := JStr (title self);
     "title_size" := JNum (inject_Z (title_size self));
     "title_pos" := JStr (title_pos self);
     "track" := JNum (inject_Z (track self));
     "lut" := JStr (lut self);
     "transition" := JStr (transition self);
     "proxy_path" := json_of_opt_str (proxy_path self);
     "speed" := JNum (speed self) ]}.

End Persist.

Module FormatTime.

(** [seconds // 60] and [seconds % 60] on floats: the floored quotient and
    the remainder of the sign of the divisor. *)
Definition floordiv (x y : Q) : Q := inject_Z (Qfloor (x / y)).
Definition pymod (x y : Q) : Q := x - y * floordiv x y.

Definition minutes (seconds : Q) : Z := Py.int_float (floordiv seconds 60).
Definition secs (seconds : Q) : Z := Py.int_float (pymod seconds 60).

(** [format_time(seconds)]. *)
Definition format_time (seconds : Q) : string :=
  Fmt.zero_pad 2 (pretty (minutes seconds)) +:+ ":"
  +:+ Fmt.zero_pad 2 (pretty (secs seconds)).

End FormatTime.

(** Counting and escaping of characters, to state what the escapes do. *)
Fixpoint count_char (c : ascii) (s : string) : nat :=
  match s with
  | EmptyString => 0
  | String a rest => (if Ascii.eqb a c then 1 else 0) + count_char c rest
  end.

(** Every apostrophe of [s] comes right after a backslash, [prev] being
    the character before [s]. *)
Fixpoint quotes_escaped (prev : ascii) (s : string) : bool :=
  match s with
  | EmptyString => true
  | String a rest =>
      (if Ascii.eqb a "'" then Ascii.eqb prev "\" else true)
      && quotes_escaped a rest
  end.

(** The file [_render_all_clips] renders the clip of index [i] to, and
    the events that put a file at [output_path]: a run of the tool that
    exits 0 with [output_path] as its last argument, or an [os.replace] to
    it that succeeds. *)
Definition clip_file `{Runtime} (temp_dir : string) (i : nat) : string :=
  os_path_join temp_dir ("clip_" +:+ pretty i +:+ ".mp4").

Definition runs_to (output_path : string) (e : Event) : Prop :=
  match e with
  | EvRun cmd code _ => code = 0%Z /\ last cmd = Some output_path
  | EvReplace _ _ _ => False
  end.


(** An exporter of two clips on the runtime whose tool never fails,
    with and without background music. *)
Definition two_clip_export (music : option string) : @ExportPy.State quiet_runtime :=
  {| ExportPy.self :=
       {| timeline := [demo_clip; with_speed demo_clip 1.0];
          bg_music := music; lut_dir := "luts" |};
     ExportPy.world := (@nil string : @World quiet_runtime);
     ExportPy.trace := [] |}.

(* ===================================================================== *)
(** * graphics.py and main_window.py: the visual timeline                 *)
(* ===================================================================== *)

(** The clip operations of the window end by repacking the visual
    timeline, which sorts the items by their position and hands the
    resulting order back to the window.  This part models the items with
    their positions, and the operations as a whole. *)
Module Canvas.

(** [UIConfig.GAP]. *)
Definition GAP : Q := 0.

(** A [ClipGraphicsItem]: its clip, its position [x()] and its [width]. *)
Record Item := {
  clip : TimelineClip;
  x : Q;
  width : Q;
}.

(** The window and its visual timeline.  [px_per_sec] is the value of
    [visual_timeline.px_per_sec()]. *)
Record State := {
  timeline : list TimelineClip;
  items_list : list Item;
  px_per_sec : Q;
  playhead_sec : Q;
  speed_spin : Q;
  preview_res : option nat;
  proxy_checked : bool;
  pool : list Job;
  next_oid : nat;
}.

Definition set_timeline (self : State) (tl : list TimelineClip) : State :=
  {| timeline := tl; items_list := items_list self;
     px_per_sec := px_per_sec self; playhead_sec := playhead_sec self;
     speed_spin := speed_spin self; preview_res := preview_res self;
     proxy_checked := proxy_checked self; pool := pool self;
     next_oid := next_oid self |}.

Definition set_items (self : State) (items : list Item) : State :=
  {| timeline := timeline self; items_list := items;
     px_per_sec := px_per_sec self; playhead_sec := playhead_sec self;
     speed_spin := speed_spin self; preview_res := preview_res self;
     proxy_checked := proxy_checked self; pool := pool self;
     next_oid := next_oid self |}.

Definition start_job (self : State) (j : Job) : State :=
  {| timeline := timeline self; items_list := items_list self;
     px_per_sec := px_per_sec self; playhead_sec := playhead_sec self;
     speed_spin := speed_spin self; preview_res := preview_res self;
     proxy_checked := proxy_checked self; pool := pool self ++ [j];
     next_oid := next_oid self |}.

Definition allocate (self : State) (n : nat) : State :=
  {| timeline := timeline self; items_list := items_list self;
     px_per_sec := px_per_sec self; playhead_sec := playhead_sec self;
     speed_spin := speed_spin self; preview_res := preview_res self;
     proxy_checked := proxy_checked self; pool := pool self;
     next_oid := (next_oid self + n)%nat |}.

(** [ClipGraphicsItem._update_rect_width]: the width for the clip. *)
Definition rect_width (c : TimelineClip) (pps : Q) : Q :=
  let duration := Py.max (Models.duration_effective c) UIConfig.MIN_CLIP_DURATION in
  Py.max 120 (duration * pps).

(** [ClipGraphicsItem(clip, px_per_sec, ...)]: a new item is at position 0
    until [setPos] moves it. *)
Definition ClipGraphicsItem_init (c : TimelineClip) (pps : Q) : Item :=
  {| clip := c; x := 0.0; width := rect_width c pps |}.

(** [sorted(items, key=lambda it: it.x())]: the sort is stable, an item
    goes before the items after it that have the same position. *)
Fixpoint insert_by_x (it : Item) (sorted : list Item) : list Item :=
  match sorted with
  | [] => [it]
  | h :: t => if Py.ltb (x h) (x it) then h :: insert_by_x it t else it :: h :: t
  end.

Definition sorted_by_x (items : list Item) : list Item :=
  fold_right insert_by_x [] items.

(** The loop of [repack_by_order]: [item.setPos(x, ...); x += item.width + GAP]. *)
Fixpoint place (xpos : Q) (ordered : list Item) : list Item :=
  match ordered with
  | [] => []
  | item :: rest =>
      {| clip := clip item; x := xpos; width := width item |}
      :: place (xpos + (width item + GAP)) rest
  end.

(** [_on_visual_order_changed(new_order_clips)]: the window takes the
    order of the visual timeline. *)
Definition _on_visual_order_changed (self : State) (new_order_clips : list TimelineClip)
  : State :=
  set_timeline self new_order_clips.

(** [VisualTimeline.repack_by_order()], with the [orderChanged] signal it
    emits to the window. *)
Definition repack_by_order (self : State) : State :=
  let ordered := place 0.0 (sorted_by_x (items_list self)) in
  let self := set_items self ordered in
  _on_visual_order_changed self (map clip ordered).

(** [VisualTimeline.rebuild(clips)]: the items of the clips, each placed
    where the one before it ends; [clear_all] puts the playhead at 0. *)
Definition rebuild (self : State) (clips : list TimelineClip) : State :=
  let pps := px_per_sec self in
  {| timeline := timeline self;
     items_list := place 0.0 (map (fun c => ClipGraphicsItem_init c pps) clips);
     px_per_sec := px_per_sec self; playhead_sec := 0.0;
     speed_spin := speed_spin self; preview_res := preview_res self;
     proxy_checked := proxy_checked self; pool := pool self;
     next_oid := next_oid self |}.

(** [VisualTimeline.append_clip(clip)]: the item of the clip goes where the
    last item ends, at 0 on an empty timeline. *)
Definition append_clip (self : State) (c : TimelineClip) : State :=
  let item := ClipGraphicsItem_init c (px_per_sec self) in
  let xpos :=
    match last (items_list self) with
    | Some last_item => x last_item + width last_item + GAP
    | None => 0
    end in
  set_items self
    (items_list self ++ [{| clip := clip item; x := xpos; width := width item |}]).

(** [a is b] on clips. *)
Definition is_ (a b : TimelineClip) : bool := Nat.eqb (oid a) (oid b).

(** [VisualTimeline.ripple_delete(clip)]. *)
Definition ripple_delete (self : State) (target : TimelineClip) : State :=
  let self :=
    set_items self
      (List.filter (fun it => negb (is_ (clip it) target)) (items_list self)) in
  repack_by_order self.

(** The operations below act on the selected clip; [current] is what
    [_current_clip()] returns (in [remove_selected_clip], the same
    selection written out). *)

(** [remove_selected_clip()]. *)
Definition remove_selected_clip (self : State) (current : option TimelineClip) : State :=
  match current with
  | None => self
  | Some target_clip =>
      let self :=
        set_timeline self
          (List.filter (fun c => negb (is_ c target_clip)) (timeline self)) in
      ripple_delete self target_clip
  end.

(** [_prepare_clip_previews(clip)]. *)
Definition _prepare_clip_previews (self : State) (c : TimelineClip) : State :=
  let has s := match s with Some p => Py.truthy_str p | None => false end in
  if has (preview_dir c)
     && (Py.truthy_list (thumb_paths c) || has (waveform_path c))
  then self
  else
    let sel := match preview_res self with Some i => i | None => 2%nat end in
    let proxy_width :=
      match sel with
      | 0%nat => 360 | 1%nat => 480 | 2%nat => 640 | 3%nat => 720 | _ => 640
      end%Z in
    start_job self (PreviewJob (oid c) proxy_width (proxy_checked self)).

(** The clip [duplicate_selected_clip] builds, as the object [o]. *)
Definition duplicate_of (o : nat) (c : TimelineClip) : TimelineClip :=
  let new_clip := Models.TimelineClip_init o (media c) in
  {| oid := oid new_clip; media := media new_clip;
     start := start c; end_ := end_ c;
     title := title c; title_size := title_size c; title_pos := title_pos new_clip;
     lut := lut c; transition := transition c; track := track new_clip;
     speed := Py.or_float (speed c) 1.0;
     preview_dir := preview_dir new_clip; thumb_paths := thumb_paths new_clip;
     waveform_path := waveform_path new_clip; proxy_path := proxy_path new_clip;
     effect_preview_path := effect_preview_path new_clip |}.

(** [l.insert(i, v)]. *)
Definition list_insert {A} (i : nat) (v : A) (l : list A) : list A :=
  take i l ++ v :: drop i l.

(** [duplicate_selected_clip()]. *)
Definition duplicate_selected_clip (self : State) (current : option TimelineClip)
  : Result unit * State :=
  match current with
  | None => (Ok tt, self)
  | Some c =>
      let new_clip := duplicate_of (next_oid self) c in
      let self := allocate self 1 in
      let self := _prepare_clip_previews self new_clip in
      match MainWindow.index (timeline self) c with
      | None => (Raise "ValueError", self)
      | Some idx =>
          let self := set_timeline self (list_insert (idx + 1) new_clip (timeline self)) in
          let item := ClipGraphicsItem_init new_clip (px_per_sec self) in
          let self := set_items self (list_insert (idx + 1) item (items_list self)) in
          (Ok tt, repack_by_order self)
      end
  end.

(** [_clip_at_global_time(sec)], over the clips of the items. *)
Definition _clip_at_global_time (self : State) (sec : Q) : option (TimelineClip * Q) :=
  MainWindow.clip_at_loop (map clip (items_list self)) 0.0 sec.

(** [split_at_playhead()], the whole of it. *)
Definition split_at_playhead (self : State) : Result unit * State :=
  let gsec := playhead_sec self in
  match _clip_at_global_time self gsec with
  | None => (Ok tt, self)
  | Some (c, local_sec) =>
      if Py.leb local_sec 0.05
         || Py.leb (Models.duration_effective c - 0.05) local_sec
      then (Ok tt, self)
      else
        let split_abs := start c + local_sec in
        let left := MainWindow.split_left (next_oid self) c split_abs in
        let right := MainWindow.split_right (S (next_oid self)) c split_abs in
        let self := allocate self 2 in
        let self := _prepare_clip_previews self left in
        let self := _prepare_clip_previews self right in
        match MainWindow.index (timeline self) c with
        | None => (Raise "ValueError", self)
        | Some idx =>
            let self :=
              set_timeline self
                (take idx (timeline self) ++ [left; right]
                 ++ drop (S idx) (timeline self)) in
            let new_items :=
              flat_map
                (fun item =>
                   if is_ (clip item) c
                   then [ClipGraphicsItem_init left (px_per_sec self);
                         ClipGraphicsItem_init right (px_per_sec self)]
                   else [item])
                (items_list self) in
            let self := set_items self new_items in
            (Ok tt, repack_by_order self)
        end
  end.

(** The assignment of attributes to the clip object [o]: [f] applied to
    the clip in the timeline and in the items. *)
Definition assign (o : nat) (f : TimelineClip -> TimelineClip) (self : State) : State :=
  let upd c := if Nat.eqb (oid c) o then f c else c in
  set_items (set_timeline self (map upd (timeline self)))
    (map (fun it => {| clip := upd (clip it); x := x it; width := width it |})
         (items_list self)).

(** The loop of [_refresh_visual_width_for]: the first item of the clip
    updates its width. *)
Fixpoint update_first_width (pps : Q) (c : TimelineClip) (items : list Item) : list Item :=
  match items with
  | [] => []
  | item :: rest =>
      if is_ (clip item) c
      then {| clip := clip item; x := x item; width := rect_width (clip item) pps |} :: rest
      else item :: update_first_width pps c rest
  end.

(** [_refresh_visual_width_for(clip)]. *)
Definition _refresh_visual_width_for (self : State) (c : TimelineClip) : State :=
  let self := set_items self (update_first_width (px_per_sec self) c (items_list self)) in
  repack_by_order self.

(** [_rebuild_effect_preview_for(clip)]. *)
Definition _rebuild_effect_preview_for (self : State) (c : TimelineClip) : State :=
  start_job self (EffectPreviewJob (oid c)).

(** [apply_speed_to_clip()]. *)
Definition apply_speed_to_clip (self : State) (current : option TimelineClip) : State :=
  match current with
  | None => self
  | Some c =>
      let val := speed_spin self in
      let val := if Py.leb val 0 then 1.0 else val in
      let self := assign (oid c) (fun c => with_speed c val) self in
      let self := _refresh_visual_width_for self c in
      _rebuild_effect_preview_for self c
  end.

(** [min(a, b)] of two arguments: [b] when [b < a], else [a]. *)
Definition pymin (a b : Q) : Q := if Py.ltb b a then b else a.

(** The trim [apply_trim_to_clip] gives a clip, for the start and the end
    read from the fields. *)
Definition trimmed (c : TimelineClip) (start_v : Q) (end_v : option Q) : TimelineClip :=
  let new_start := Py.max 0.0 start_v in
  let end_v :=
    match end_v, duration (media c) with
    | None, Some d => Some d
    | _, _ => end_v
    end in
  let new_end :=
    match end_v with
    | Some e =>
        let cap := match duration (media c) with
                   | Some d => Py.or_float d e
                   | None => e
                   end in
        Some (Py.max (new_start + 0.2) (pymin e cap))
    | None => None
    end in
  {| oid := oid c; media := media c; start := new_start; end_ := new_end;
     title := title c; title_size := title_size c; title_pos := title_pos c;
     lut := lut c; transition := transition c; track := track c; speed := speed c;
     preview_dir := preview_dir c; thumb_paths := thumb_paths c;
     waveform_path := waveform_path c; proxy_path := proxy_path c;
     effect_preview_path := effect_preview_path c |}.

Section Trim.
Context `{Runtime}.

(** [apply_trim_to_clip()], for the texts of the start and end fields. *)
Definition apply_trim_to_clip (self : State) (current : option TimelineClip)
    (start_text end_text : string) : State :=
  match current with
  | None => self
  | Some c =>
      match float_of_str start_text with
      | None => self
      | Some start_v =>
          let end_text := Py.strip end_text in
          let parsed_end :=
            if String.eqb end_text "" then Some None
            else option_map Some (float_of_str end_text) in
          match parsed_end with
          | None => self
          | Some end_v =>
              let self := assign (oid c) (fun c => trimmed c start_v end_v) self in
              let self := _refresh_visual_width_for self c in
              _rebuild_effect_preview_for self c
          end
      end
  end.

End Trim.

End Canvas.

(** The items are packed from [x0]: each starts where the one before it
    ends; and they are wide: each has a positive width. *)
Fixpoint packed_from (x0 : Q) (items : list Canvas.Item) : Prop :=
  match items with
  | [] => True
  | it :: rest =>
      Canvas.x it == x0
      /\ packed_from (x0 + (Canvas.width it + Canvas.GAP)) rest
  end.

Definition wide (items : list Canvas.Item) : Prop :=
  Forall (fun it => 0 < Canvas.width it) items.

(** The window and its visual timeline show the same clips in the same
    order, the items packed from 0. *)
Definition in_step (self : Canvas.State) : Prop :=
  Canvas.timeline self = map Canvas.clip (Canvas.items_list self)
  /\ packed_from 0 (Canvas.items_list self)
  /\ wide (Canvas.items_list self).

(** No item after it is left of an item. *)
Fixpoint ascending (items : list Canvas.Item) : Prop :=
  match items with
  | [] => True
  | a :: rest => Forall (fun b => Canvas.x a <= Canvas.x b) rest /\ ascending rest
  end.


(** A runtime whose [float] reads the texts [1.5] and [4]; the rest is the
    quiet runtime. *)
Definition typing_runtime : Runtime :=
  {| World := @World quiet_runtime;
     str_float := @str_float quiet_runtime;
     os_path_join := @os_path_join quiet_runtime;
     os_path_basename := @os_path_basename quiet_runtime;
     os_path_splitext := @os_path_splitext quiet_runtime;
     os_path_exists := @os_path_exists quiet_runtime;
     os_makedirs := @os_makedirs quiet_runtime;
     os_replace := @os_replace quiet_runtime;
     write_text := @write_text quiet_runtime;
     uuid4_hex := @uuid4_hex quiet_runtime;
     gettempdir := @gettempdir quiet_runtime;
     subprocess_run := @subprocess_run quiet_runtime;
     float_of_str := fun s =>
       if String.eqb s "1.5" then Some 1.5
       else if String.eqb s "4" then Some 4
       else None |}.

(** The demo clip as the object [o]. *)
Definition demo_clip_as (o : nat) : TimelineClip :=
  {| oid := o; media := media demo_clip; start := start demo_clip;
     end_ := end_ demo_clip; title := title demo_clip;
     title_size := title_size demo_clip; title_pos := title_pos demo_clip;
     lut := lut demo_clip; transition := transition demo_clip;
     track := track demo_clip; speed := speed demo_clip;
     preview_dir := preview_dir demo_clip; thumb_paths := thumb_paths demo_clip;
     waveform_path := waveform_path demo_clip; proxy_path := proxy_path demo_clip;
     effect_preview_path := effect_preview_path demo_clip |}.

(** A window of three clips of three seconds each, at 50 pixels per second,
    the speed field at 2; and the same window with the playhead at [sec]. *)
Definition demo_window : Canvas.State :=
  Canvas.rebuild
    {| Canvas.timeline := [demo_clip_as 0; demo_clip_as 1; demo_clip_as 2];
       Canvas.items_list := [];
       Canvas.px_per_sec := 50; Canvas.playhead_sec := 0.0;
       Canvas.speed_spin := 2.0; Canvas.preview_res := None;
       Canvas.proxy_checked := false; Canvas.pool := []; Canvas.next_oid := 3 |}
    [demo_clip_as 0; demo_clip_as 1; demo_clip_as 2].

Definition demo_window_at (sec : Q) : Canvas.State :=
  {| Canvas.timeline := Canvas.timeline demo_window;
     Canvas.items_list := Canvas.items_list demo_window;
     Canvas.px_per_sec := Canvas.px_per_sec demo_window;
     Canvas.playhead_sec := sec;
     Canvas.speed_spin := Canvas.speed_spin demo_window;
     Canvas.preview_res := Canvas.preview_res demo_window;
     Canvas.proxy_checked := Canvas.proxy_checked demo_window;
     Canvas.pool := Canvas.pool demo_window;
     Canvas.next_oid := Canvas.next_oid demo_window |}.

(** The items of the demo window, and the local time of second 7 in its
    third clip. *)
Definition demo_item (i : nat) : Canvas.Item :=
  nth i (Canvas.items_list demo_window)
      (Canvas.ClipGraphicsItem_init (demo_clip_as i) 50).

Definition demo_local : Q :=
  7.0 - (0.0 + Models.duration_effective (demo_clip_as 0)
         + Models.duration_effective (demo_clip_as 1)).

(* ===================================================================== *)
(** * effect_preview_worker.py                                            *)
(* ===================================================================== *)

(** The signals of an effect preview worker, with what they carry. *)
Inductive EffectSignal :=
| effect_started (c : TimelineClip)
| effect_done (c : TimelineClip)
| effect_failed (c : TimelineClip) (err : string).

Definition set_effect_preview_path (c : TimelineClip) (v : option string) : TimelineClip :=
  {| oid := oid c; media := media c; start := start c; end_ := end_ c;
     title := title c; title_size := title_size c; title_pos := title_pos c;
     lut := lut c; transition := transition c; track := track c; speed := speed c;
     preview_dir := preview_dir c; thumb_paths := thumb_paths c;
     waveform_path := waveform_path c; proxy_path := proxy_path c;
     effect_preview_path := v |}.

Module EffectPreviewWorker.
Section EffectPreviewWorker.
Context `{Runtime}.

Record Worker := {
  clip : TimelineClip;
  temp_root : string;
  lut_dir : string;
  signals : list EffectSignal;
}.

Definition set_clip (self : Worker) (c : TimelineClip) : Worker :=
  {| clip := c; temp_root := temp_root self; lut_dir := lut_dir self;
     signals := signals self |}.

Definition emit (self : Worker) (s : EffectSignal) : Worker :=
  {| clip := clip self; temp_root := temp_root self; lut_dir := lut_dir self;
     signals := signals self ++ [s] |}.

(** Where [run] stores the effect preview: the preview directory of the
    clip, or a new one that it gives the clip. *)
Definition clip_dir_step (self : Worker) (w : World) : string * Worker * World :=
  let fresh :=
    let '(hex, w1) := uuid4_hex w in
    let '(clip_dir, w2) :=
      Utils.ensure_dir (os_path_join (temp_root self) ("clip_" +:+ hex)) w1 in
    (clip_dir, set_clip self (set_preview_dir (clip self) (Some clip_dir)), w2) in
  match preview_dir (clip self) with
  | Some clip_dir => if Py.truthy_str clip_dir then (clip_dir, self, w) else fresh
  | None => fresh
  end.

(** The values [src], [start] and [dur] of [run]. *)
Definition src (c : TimelineClip) : string :=
  match proxy_path c with
  | Some p => if Py.truthy_str p then p else path (media c)
  | None => path (media c)
  end.

Definition start_v (c : TimelineClip) : Q := Py.or_float (start c) 0.0.

Definition dur (c : TimelineClip) : Q :=
  let start := start_v c in
  match end_ c with
  | Some e => Py.max 0.1 (e - start)
  | None =>
      Py.max 0.1
        (match duration (media c) with
         | Some media_dur =>
             if Py.truthy_float media_dur then media_dur - start else 5.0
         | None => 5.0
         end)
  end.

(** The lists [vf_filters] and [af_filters] of [run]. *)
Definition lut_filters (self : Worker) (w : World) : list string :=
  let c := clip self in
  if Py.truthy_str (lut c) && negb (String.eqb (lut c) "none")
  then
    let lut_path := os_path_join (lut_dir self) (lut c) in
    if os_path_exists lut_path w
    then ["lut3d=file='" +:+ lut_path +:+ "'"] else []
  else [].

Definition title_filters (c : TimelineClip) : list string :=
  if Py.truthy_str (title c)
  then
    let text_esc := Py.replace_char "'" "\'" (title c) in
    ["drawtext=text='" +:+ text_esc +:+ "':fontcolor=white:fontsize="
     +:+ Py.str_int (title_size c) +:+ ":x=" +:+ title_pos c +:+ ":y=(h-"
     +:+ Py.str_int (title_size c) +:+ "-40):shadowcolor=black:shadowx=2:shadowy=2"]
  else [].

Definition spd (c : TimelineClip) : Q := Py.or_float (speed c) 1.0.

Definition speed_filters (c : TimelineClip) : list string :=
  if negb (Qeq_bool (spd c) 1.0) then ["setpts=PTS/" +:+ str_float (spd c)] else [].

Definition vf_filters (self : Worker) (w : World) : list string :=
  lut_filters self w ++ title_filters (clip self) ++ speed_filters (clip self).

Definition af_filters (c : TimelineClip) : list string :=
  if negb (Qeq_bool (spd c) 1.0) then [Atempo.atempo_chain (spd c)] else [].

Definition filter_args (self : Worker) (w : World) : list string :=
  (if Py.truthy_list (vf_filters self w)
   then ["-vf"; Py.join "," (vf_filters self w)] else [])
  ++ (if Py.truthy_list (af_filters (clip self))
      then ["-af"; Py.join "," (af_filters (clip self))] else []).

(** The command of [run]. *)
Definition cmd (self : Worker) (out_path : string) (w : World) : list string :=
  ["ffmpeg"; "-y";
   "-ss"; str_float (start_v (clip self));
   "-t"; str_float (dur (clip self));
   "-i"; src (clip self)]
  ++ filter_args self w
  ++ ["-c:v"; "libx264";
      "-preset"; "veryfast";
      "-crf"; "25";
      "-c:a"; "aac";
      "-b:a"; "128k";
      out_path].

(** [EffectPreviewWorker.run()].  Nothing in the body raises in this
    model, so the outer handler is never entered. *)
Definition run (self : Worker) (w : World) : Worker * World :=
  let self := emit self (effect_started (clip self)) in
  let '(clip_dir, self, w) := clip_dir_step self w in
  let out_path := os_path_join clip_dir "effect_preview.mp4" in
  let '((code, _, err), w) := Utils.run_cmd (cmd self out_path w) 600 w in
  if negb (Z.eqb code 0) || negb (os_path_exists out_path w)
  then
    (emit self
       (effect_failed (clip self) (Py.or_str err "Failed to build effect preview")), w)
  else
    let self := set_clip self (set_effect_preview_path (clip self) (Some out_path)) in
    (emit self (effect_done (clip self)), w).

End EffectPreviewWorker.
End EffectPreviewWorker.

(* ===================================================================== *)
(** * main_window.py: scrubbing and the position of the player            *)
(* ===================================================================== *)

Module Playback.
Section Playback.
Context `{Runtime}.

(** What [_on_scrubbed] asks of the player: the source, the position of the
    pending seek in milliseconds and the playback rate. *)
Record Seek := {
  desired : string;
  pending_seek_ms : Z;
  playback_rate : Q;
}.

(** [spd if spd > 0 else 1.0] for [spd = float(clip.speed or 1.0)]. *)
Definition rate (c : TimelineClip) : Q :=
  let spd := Py.or_float (speed c) 1.0 in
  if Py.ltb 0 spd then spd else 1.0.

Definition set_selected (self : MainWindow.State) (sel : list nat) : MainWindow.State :=
  {| MainWindow.timeline := MainWindow.timeline self;
     MainWindow.items_list := MainWindow.items_list self;
     MainWindow.playhead_sec := MainWindow.playhead_sec self;
     MainWindow.tl_list_current := MainWindow.tl_list_current self;
     MainWindow.selected := sel;
     MainWindow.speed_spin := MainWindow.speed_spin self;
     MainWindow.preview_res := MainWindow.preview_res self;
     MainWindow.proxy_checked := MainWindow.proxy_checked self;
     MainWindow.pool := MainWindow.pool self;
     MainWindow.next_oid := MainWindow.next_oid self |}.

(** [VisualTimeline.set_playhead_seconds(sec)]. *)
Definition set_playhead_seconds (self : MainWindow.State) (sec : Q) : MainWindow.State :=
  {| MainWindow.timeline := MainWindow.timeline self;
     MainWindow.items_list := MainWindow.items_list self;
     MainWindow.playhead_sec := Py.max 0.0 sec;
     MainWindow.tl_list_current := MainWindow.tl_list_current self;
     MainWindow.selected := MainWindow.selected self;
     MainWindow.speed_spin := MainWindow.speed_spin self;
     MainWindow.preview_res := MainWindow.preview_res self;
     MainWindow.proxy_checked := MainWindow.proxy_checked self;
     MainWindow.pool := MainWindow.pool self;
     MainWindow.next_oid := MainWindow.next_oid self |}.

(** [clip.media.type in ("video", "audio")]. *)
Definition plays (m : MediaItem) : bool :=
  match type m with video | audio => true | _ => false end.

(** The source [_on_scrubbed] wants in the player. *)
Definition desired_source (self : MainWindow.State) (c : TimelineClip) (w : World)
  : string :=
  match effect_preview_path c with
  | Some p =>
      if Py.truthy_str p then p
      else
        match proxy_path c with
        | Some proxy =>
            if MainWindow.proxy_checked self && Py.truthy_str proxy
               && os_path_exists proxy w
            then proxy else path (media c)
        | None => path (media c)
        end
  | None =>
      match proxy_path c with
      | Some proxy =>
          if MainWindow.proxy_checked self && Py.truthy_str proxy
             && os_path_exists proxy w
          then proxy else path (media c)
      | None => path (media c)
      end
  end.

(** [_on_scrubbed(seconds)]: the items of the clip under [seconds] become
    the selected ones, and for a video or audio clip a seek is left pending. *)
Definition _on_scrubbed (self : MainWindow.State) (seconds : Q) (w : World)
  : MainWindow.State * option Seek :=
  match MainWindow._clip_at_global_time self seconds with
  | None => (self, None)
  | Some (c, local_sec) =>
      let media_local := local_sec * rate c in
      let self :=
        set_selected self
          (map oid (List.filter (fun k => MainWindow.is_ k c)
                                (MainWindow.items_list self))) in
      if plays (media c)
      then
        (self,
         Some {| desired := desired_source self c w;
                 pending_seek_ms :=
                   Z.max 0 (Py.int_float ((start c + media_local) * 1000));
                 playback_rate :=
                   if PreviewWorker.truthy_path (effect_preview_path c)
                   then 1.0 else rate c |})
      else (self, None)
  end.

(** [_on_player_position_changed(ms)]. *)
Definition _on_player_position_changed (self : MainWindow.State) (ms : Z)
  : MainWindow.State :=
  match List.find (fun k => existsb (Nat.eqb (oid k)) (MainWindow.selected self))
                  (MainWindow.items_list self) with
  | None => self
  | Some c =>
      let media_sec := inject_Z ms / 1000.0 - Py.or_float (start c) 0.0 in
      let local_sec := Py.max 0.0 (media_sec / rate c) in
      let global_sec := MainWindow._cumulative_start_of self c + local_sec in
      set_playhead_seconds self global_sec
  end.

End Playback.
End Playback.

(** The path of the thumbnail of index [i] in [output_dir]. *)
Definition thumb_path `{Runtime} (output_dir : string) (i : nat) : string :=
  os_path_join output_dir ("thumb_" +:+ Fmt.zero_pad 2 (pretty i) +:+ ".jpg").

(** An effect preview worker for the demo clip, and a window of three demo
    clips for the sequencer. *)
Definition demo_effect_worker : @EffectPreviewWorker.Worker :=
  {| EffectPreviewWorker.clip := demo_clip;
     EffectPreviewWorker.temp_root := "/tmp/previews";
     EffectPreviewWorker.lut_dir := "/luts";
     EffectPreviewWorker.signals := [] |}.

Definition demo_sequencer : MainWindow.State :=
  {| MainWindow.timeline := [demo_clip_as 0; demo_clip_as 1; demo_clip_as 2];
     MainWindow.items_list := [demo_clip_as 0; demo_clip_as 1; demo_clip_as 2];
     MainWindow.playhead_sec := 0.0;
     MainWindow.tl_list_current := None;
     MainWindow.selected := [];
     MainWindow.speed_spin := 1.0;
     MainWindow.preview_res := None;
     MainWindow.proxy_checked := false;
     MainWindow.pool := [];
     MainWindow.next_oid := 3 |}.

(* ===================================================================== *)
(** * graphics.py: the trim handles and the zoom                          *)
(* ===================================================================== *)

Definition set_start (c : TimelineClip) (v : Q) : TimelineClip :=
  {| oid := oid c; media := media c; start := v; end_ := end_ c;
     title := title c; title_size := title_size c; title_pos := title_pos c;
     lut := lut c; transition := transition c; track := track c; speed := speed c;
     preview_dir := preview_dir c; thumb_paths := thumb_paths c;
     waveform_path := waveform_path c; proxy_path := proxy_path c;
     effect_preview_path := effect_preview_path c |}.

Definition set_end (c : TimelineClip) (v : option Q) : TimelineClip :=
  {| oid := oid c; media := media c; start := start c; end_ := v;
     title := title c; title_size := title_size c; title_pos := title_pos c;
     lut := lut c; transition := transition c; track := track c; speed := speed c;
     preview_dir := preview_dir c; thumb_paths := thumb_paths c;
     waveform_path := waveform_path c; proxy_path := proxy_path c;
     effect_preview_path := effect_preview_path c |}.

Module Handles.

(** [self.clip.media.duration or 0.0]. *)
Definition duration_or_0 (m : MediaItem) : Q :=
  match duration m with Some d => Py.or_float d 0.0 | None => 0.0 end.

(** [ClipGraphicsItem._handle_trim_left(secs_delta)], for the start
    [orig_start] the clip had when the handle was pressed. *)
Definition _handle_trim_left (orig_start : Q) (c : TimelineClip) (secs_delta : Q)
  : TimelineClip :=
  let new_start := Py.max 0.0 (Py.or_float orig_start 0.0 + secs_delta) in
  let base_end :=
    match end_ c with Some e => e | None => duration_or_0 (media c) end in
  let new_start :=
    if Py.ltb (base_end - new_start) UIConfig.MIN_CLIP_DURATION
    then Py.max 0.0 (base_end - UIConfig.MIN_CLIP_DURATION)
    else new_start in
  set_start c new_start.

(** [ClipGraphicsItem._handle_trim_right(secs_delta)], for the end
    [orig_end] the clip had when the handle was pressed. *)
Definition _handle_trim_right (orig_end : option Q) (c : TimelineClip) (secs_delta : Q)
  : TimelineClip :=
  let base_end_orig :=
    match orig_end with Some e => e | None => duration_or_0 (media c) end in
  let new_end := base_end_orig + secs_delta in
  let max_end :=
    match duration (media c) with
    | Some d => Py.or_float d new_end
    | None => new_end
    end in
  let new_end := Canvas.pymin max_end new_end in
  let new_end :=
    if Py.ltb (new_end - Py.or_float (start c) 0.0) UIConfig.MIN_CLIP_DURATION
    then Py.or_float (start c) 0.0 + UIConfig.MIN_CLIP_DURATION
    else new_end in
  set_end c (Some new_end).

End Handles.

Module Zoom.

(** [UIConfig.BASE_PX_PER_SEC]. *)
Definition BASE_PX_PER_SEC : Q := 100.0.

(** [VisualTimeline.px_per_sec()], for the zoom [zoom]. *)
Definition px_per_sec (zoom : Q) : Q := Py.max 10.0 (BASE_PX_PER_SEC * zoom).

(** The zoom after [zoom_in()] and after [zoom_out()]. *)
Definition zoom_in (zoom : Q) : Q := Canvas.pymin 8.0 (zoom * 1.25).
Definition zoom_out (zoom : Q) : Q := Py.max 0.2 (zoom / 1.25).

(** The zoom after [fit_timeline()], for the sum of the widths of the
    items (gaps are 0) and the width of the viewport. *)
Definition fit_timeline (zoom width_sum : Q) (viewport : Z) : Q :=
  let viewport_width := Z.max viewport 1 in
  if Py.leb width_sum 0 then zoom
  else
    let target_zoom :=
      (inject_Z (viewport_width - 80) / Py.max width_sum 1) * zoom in
    Py.max 0.2 (Canvas.pymin 8.0 target_zoom).

End Zoom.

(** The attributes of a clip that hold the edit, as opposed to the preview
    assets: all but the preview directory, the thumbnails, the waveform and
    the proxy. *)
Definition edit_attributes (c : TimelineClip) :=
  (oid c, media c, start c, end_ c, title c, title_size c, title_pos c,
   lut c, transition c, track c, speed c, effect_preview_path c).

(** Between two states of a worker: no signal emitted, the edit of the clip
    kept, and the cache entries of the other media kept. *)
Definition frame_step (a b : PreviewWorker.Worker) : Prop :=
  PreviewWorker.signals b = PreviewWorker.signals a
  /\ edit_attributes (PreviewWorker.clip b) = edit_attributes (PreviewWorker.clip a)
  /\ forall k, k <> path (media (PreviewWorker.clip a)) ->
       PreviewWorker.thumbs_cache b !! k = PreviewWorker.thumbs_cache a !! k
       /\ PreviewWorker.wave_cache b !! k = PreviewWorker.wave_cache a !! k.

(* ===================================================================== *)
(** * Inputs of the statements that fail                                  *)
(* ===================================================================== *)

(** The demo clip with the transition [tr] into the next clip. *)
Definition with_transition (c : TimelineClip) (tr : string) : TimelineClip :=
  {| oid := oid c; media := media c; start := start c; end_ := end_ c;
     title := title c; title_size := title_size c; title_pos := title_pos c;
     lut := lut c; transition := tr; track := track c; speed := speed c;
     preview_dir := preview_dir c; thumb_paths := thumb_paths c;
     waveform_path := waveform_path c; proxy_path := proxy_path c;
     effect_preview_path := effect_preview_path c |}.

(** An exporter of two clips, the first with the empty transition, as a
    project file may give it, the second with [crossfade]; the tool never
    fails. *)
Definition empty_transition_export : @ExportPy.State quiet_runtime :=
  {| ExportPy.self :=
       {| timeline := [with_transition demo_clip ""; with_transition demo_clip "crossfade"];
          bg_music := None; lut_dir := "luts" |};
     ExportPy.world := (@nil string : @World quiet_runtime);
     ExportPy.trace := [] |}.




(** A worker for a clip of [demo_media] that got its thumbnail and its
    waveform from the caches in an earlier run (so it has no preview
    directory), the cached files having been deleted since. *)
Definition stale_clip : TimelineClip :=
  {| oid := 3; media := demo_media; start := 0.0; end_ := None;
     title := ""; title_size := 36; title_pos := "(w-text_w)/2";
     lut := "none"; transition := "none"; track := 0; speed := 1.0;
     preview_dir := None; thumb_paths := ["/tmp/old/thumb_00.jpg"];
     waveform_path := Some "/tmp/old/wave.png";
     proxy_path := None; effect_preview_path := None |}.

Definition stale_clip_worker : PreviewWorker.Worker :=
  {| PreviewWorker.clip := stale_clip;
     PreviewWorker.temp_root := "/tmp/previews";
     PreviewWorker.thumbs_cache := {[ "a.mp4" := ["/tmp/old/thumb_00.jpg"] ]};
     PreviewWorker.wave_cache := {[ "a.mp4" := "/tmp/old/wave.png" ]};
     PreviewWorker.worker_proxy_path := "";
     PreviewWorker.proxy_width := 640;
     PreviewWorker.proxy_enabled := false;
     PreviewWorker.signals := [] |}.

(** A window whose timeline is the one clip [whole_clip v], on track 1, laid
    out by [rebuild], with the playhead at [at_]. *)
Definition whole_clip_canvas (v at_ : Q) : Canvas.State :=
  {| Canvas.timeline := [whole_clip v];
     Canvas.items_list :=
       Canvas.place 0.0 [Canvas.ClipGraphicsItem_init (whole_clip v) 50];
     Canvas.px_per_sec := 50; Canvas.playhead_sec := at_;
     Canvas.speed_spin := 1.0; Canvas.preview_res := None;
     Canvas.proxy_checked := false; Canvas.pool := []; Canvas.next_oid := 1 |}.

(* ===================================================================== *)
(** * Facts about the Python values                                       *)
(* ===================================================================== *)

Lemma Py_ltb_lt x y : Py.ltb x y = true <-> x < y.
Proof.
  unfold Py.ltb. rewrite negb_true_iff, <- not_true_iff_false, Qle_bool_iff.
  split; [apply Qnot_le_lt | apply Qlt_not_le].
Qed.

Lemma Py_ltb_ge x y : Py.ltb x y = false <-> y <= x.
Proof.
  unfold Py.ltb. rewrite negb_false_iff, Qle_bool_iff. reflexivity.
Qed.

Lemma Py_leb_le x y : Py.leb x y = true <-> x <= y.
Proof. apply Qle_bool_iff. Qed.

Lemma Py_leb_gt x y : Py.leb x y = false <-> y < x.
Proof.
  unfold Py.leb. rewrite <- not_true_iff_false, Qle_bool_iff.
  split; [apply Qnot_le_lt | apply Qlt_not_le].
Qed.

Lemma Py_max_Qmax a b : Py.max a b == Qmax a b.
Proof.
  unfold Py.max. destruct (Py.ltb a b) eqn:E.
  - apply Py_ltb_lt in E. symmetry. apply Q.max_r. lra.
  - apply Py_ltb_ge in E. symmetry. apply Q.max_l. exact E.
Qed.

Lemma Py_max_lower a b : a <= Py.max a b.
Proof. rewrite Py_max_Qmax. apply Q.le_max_l. Qed.

Lemma Py_or_float_0 x : Py.or_float x 0.0 == x.
Proof.
  unfold Py.or_float. destruct (Qeq_bool x 0) eqn:E; [|reflexivity].
  apply Qeq_bool_iff in E. rewrite E. reflexivity.
Qed.

#[global] Instance Py_max_proper : Proper (Qeq ==> Qeq ==> Qeq) Py.max.
Proof. intros a a' Ha b b' Hb. rewrite !Py_max_Qmax, Ha, Hb. reflexivity. Qed.

(* ===================================================================== *)
(** * The duration model                                                  *)
(* ===================================================================== *)

Lemma duration_effective_base c :
  Models.duration_effective c
  == Qmax 0.2 (base_duration c / (if Py.leb (speed c) 0 then 1.0 else speed c)).
Proof.
  unfold Models.duration_effective, base_duration.
  rewrite Py_max_Qmax.
  destruct (duration (media c)) as [d|].
  - rewrite Py_max_Qmax, Py_or_float_0.
    destruct (Py.leb (speed c) 0); reflexivity.
  - destruct (Py.leb (speed c) 0); reflexivity.
Qed.

Lemma base_duration_lower c : 0.2 <= base_duration c.
Proof.
  unfold base_duration. destruct (duration (media c)).
  - apply Q.le_max_l.
  - lra.
Qed.

Lemma duration_effective_lower c : 0.2 <= Models.duration_effective c.
Proof. unfold Models.duration_effective. apply Py_max_lower. Qed.

(** C1. For a clip of positive speed, [duration_effective] is
    [max(0.2, base / speed)], where [base] is 5.0 when the media has no
    probed duration and otherwise [max(0.2, (end or media duration) - start)];
    and it equals the effective duration of the same trim at speed 1.0
    divided by the speed, floored at 0.2. *)
Theorem duration_effective_speed_scaling (c : TimelineClip) :
  0 < speed c ->
  Models.duration_effective c == Qmax 0.2 (base_duration c / speed c)
  /\ Models.duration_effective (with_speed c 1.0) == base_duration c
  /\ Models.duration_effective c
     == Qmax 0.2 (Models.duration_effective (with_speed c 1.0) / speed c).
Proof.
  intros Hs.
  assert (E : Py.leb (speed c) 0 = false) by (apply Py_leb_gt; exact Hs).
  assert (H1 : Models.duration_effective c == Qmax 0.2 (base_duration c / speed c)).
  { rewrite duration_effective_base, E. reflexivity. }
  assert (H2 : Models.duration_effective (with_speed c 1.0) == base_duration c).
  { rewrite duration_effective_base.
    change (base_duration (with_speed c 1.0)) with (base_duration c).
    change (speed (with_speed c 1.0)) with 1.0.
    change (Py.leb 1.0 0) with false. cbv iota.
    assert (D : base_duration c / 1.0 == base_duration c) by field.
    rewrite D. apply Q.max_r, base_duration_lower. }
  split; [exact H1 | split; [exact H2 |]].
  rewrite H1, H2. reflexivity.
Qed.

(* ===================================================================== *)
(** * The tempo chain                                                     *)
(* ===================================================================== *)

Section RoundHalfEven.

Lemma round_half_even_near q :
  Qabs (inject_Z (Fmt.round_half_even q) - q) <= 1 # 2.
Proof.
  unfold Fmt.round_half_even.
  pose proof (Qfloor_le q) as Hlo. pose proof (Qlt_floor q) as Hhi.
  rewrite inject_Z_plus in Hhi. change (inject_Z 1) with 1 in Hhi.
  apply Qabs_Qle_condition.
  destruct (Qcompare (q - inject_Z (Qfloor q)) (1 # 2)) eqn:E.
  - apply Qeq_alt in E. destruct (Z.even (Qfloor q)).
    + split; lra.
    + rewrite inject_Z_plus. change (inject_Z 1) with 1. split; lra.
  - apply Qlt_alt in E. split; lra.
  - apply Qgt_alt in E. rewrite inject_Z_plus. change (inject_Z 1) with 1.
    split; lra.
Qed.

Lemma round_half_even_between (a b : Z) q :
  inject_Z a <= q -> q <= inject_Z b ->
  (a <= Fmt.round_half_even q <= b)%Z.
Proof.
  intros Ha Hb.
  pose proof (Qfloor_le q) as Hlo. pose proof (Qlt_floor q) as Hhi.
  assert (Hfa : (a <= Qfloor q)%Z).
  { rewrite <- (Qfloor_Z a). apply Qfloor_resp_le, Ha. }
  assert (Hfb : (Qfloor q <= b)%Z).
  { rewrite Zle_Qle. lra. }
  unfold Fmt.round_half_even.
  destruct (Qcompare (q - inject_Z (Qfloor q)) (1 # 2)) eqn:E.
  - apply Qeq_alt in E. destruct (Z.even (Qfloor q)); [lia |].
    assert (Hlt : inject_Z (Qfloor q) < inject_Z b) by lra.
    rewrite <- Zlt_Qlt in Hlt. lia.
  - lia.
  - apply Qgt_alt in E.
    assert (Hlt : inject_Z (Qfloor q) < inject_Z b) by lra.
    rewrite <- Zlt_Qlt in Hlt. lia.
Qed.

(** Within the range of the tempo filter, the printed value stays in the
    range and is within half a millionth of the number printed. *)
Lemma value_6f_in_range r :
  0.5 <= r -> r <= 2.0 ->
  0.5 <= Fmt.value_6f r /\ Fmt.value_6f r <= 2.0
  /\ Qabs (Fmt.value_6f r - r) <= 1 # 2000000.
Proof.
  intros Hlo Hhi. unfold Fmt.value_6f, Fmt.millionths.
  assert (Hpos : Py.ltb r 0 = false) by (apply Py_ltb_ge; lra).
  rewrite Hpos.
  assert (Habs : Qabs r == r) by (apply Qabs_pos; lra).
  pose proof (round_half_even_between 500000 2000000 (Qabs r * 1000000)) as Hb.
  pose proof (round_half_even_near (Qabs r * 1000000)) as Hn.
  set (n := Fmt.round_half_even (Qabs r * 1000000)) in *.
  destruct Hb as [Hb1 Hb2].
  { rewrite Habs. change (inject_Z 500000) with (500000 # 1). lra. }
  { rewrite Habs. change (inject_Z 2000000) with (2000000 # 1). lra. }
  rewrite Zle_Qle in Hb1, Hb2.
  change (inject_Z 500000) with (500000 # 1) in Hb1.
  change (inject_Z 2000000) with (2000000 # 1) in Hb2.
  apply Qabs_Qle_condition in Hn. rewrite Habs in Hn.
  assert (X : 1 * (inject_Z n / 1000000) * 1000000 == inject_Z n) by field.
  set (x := 1 * (inject_Z n / 1000000)) in *.
  split; [| split]; [lra | lra |].
  apply Qabs_Qle_condition. split; lra.
Qed.

End RoundHalfEven.

Section TempoChain.
Import Atempo.

Lemma pow2_S k : pow2 (S k) == 2 * pow2 k.
Proof.
  unfold pow2. rewrite two_power_nat_S, inject_Z_mult. reflexivity.
Qed.

Lemma pow2_pos k : 0 < pow2 k.
Proof.
  induction k as [|k IH]; [reflexivity |]. rewrite pow2_S. lra.
Qed.

Lemma pow2_le_plus a b : pow2 a <= pow2 (a + b).
Proof.
  induction b as [|b IH].
  - rewrite Nat.add_0_r. apply Qle_refl.
  - rewrite Nat.add_succ_r, pow2_S. pose proof (pow2_pos (a + b)). lra.
Qed.

Lemma pos_lt_two_power_nat p : (Z.pos p < two_power_nat (Pos.size_nat p))%Z.
Proof.
  induction p as [p IH | p IH |]; simpl Pos.size_nat;
    rewrite ?two_power_nat_S; try lia.
  reflexivity.
Qed.

Lemma pos_lt_pow2 p : inject_Z (Z.pos p) < pow2 (Pos.size_nat p).
Proof. unfold pow2. rewrite <- Zlt_Qlt. apply pos_lt_two_power_nat. Qed.

Lemma product_app l1 l2 : product (l1 ++ l2) == product l1 * product l2.
Proof.
  induction l1 as [|x l1 IH]; simpl.
  - ring.
  - rewrite IH. ring.
Qed.

(** What the halving loop returns, when it returns. *)
Lemma while_gt_2_spec fuel : forall chain r chain' r',
  while_gt_2 fuel chain r = Some (chain', r') ->
  exists l, chain' = chain ++ l /\ Forall (eq atempo_2_0) l
    /\ product (map exact_ratio l) * r' == r
    /\ r' <= 2 /\ ((l = [] /\ r' = r) \/ 1 < r').
Proof.
  induction fuel as [|fuel IH]; intros chain r chain' r' Hrun; simpl in Hrun.
  - discriminate.
  - destruct (Py.ltb 2.0 r) eqn:E.
    + apply Py_ltb_lt in E.
      destruct (IH _ _ _ _ Hrun) as (l & -> & Hall & Hprod & Hle & Hone).
      exists (atempo_2_0 :: l). rewrite <- app_assoc. simpl.
      split; [reflexivity | split; [constructor; [reflexivity | exact Hall] |]].
      split; [| split; [exact Hle | right]].
      * change (product (map exact_ratio (atempo_2_0 :: l)))
          with (2.0 * product (map exact_ratio l)).
        rewrite <- Qmult_assoc, Hprod. field.
      * destruct Hone as [[_ ->] | H1]; [| exact H1].
        apply Qlt_shift_div_l; lra.
    + apply Py_ltb_ge in E. injection Hrun as <- <-.
      exists []. rewrite app_nil_r. simpl.
      split; [reflexivity | split; [constructor |]].
      split; [ring | split; [lra | left; split; reflexivity]].
Qed.

(** What the doubling loop returns, when it returns. *)
Lemma while_lt_half_spec fuel : forall chain r chain' r',
  while_lt_half fuel chain r = Some (chain', r') ->
  exists l, chain' = chain ++ l /\ Forall (eq atempo_0_5) l
    /\ product (map exact_ratio l) * r' == r
    /\ 0.5 <= r' /\ ((l = [] /\ r' = r) \/ r' < 1).
Proof.
  induction fuel as [|fuel IH]; intros chain r chain' r' Hrun; simpl in Hrun.
  - discriminate.
  - destruct (Py.ltb r 0.5) eqn:E.
    + apply Py_ltb_lt in E.
      destruct (IH _ _ _ _ Hrun) as (l & -> & Hall & Hprod & Hle & Hone).
      exists (atempo_0_5 :: l). rewrite <- app_assoc. simpl.
      split; [reflexivity | split; [constructor; [reflexivity | exact Hall] |]].
      split; [| split; [exact Hle | right]].
      * change (product (map exact_ratio (atempo_0_5 :: l)))
          with (0.5 * product (map exact_ratio l)).
        rewrite <- Qmult_assoc, Hprod. field.
      * destruct Hone as [[_ ->] | H1]; [lra | exact H1].
    + apply Py_ltb_ge in E. injection Hrun as <- <-.
      exists []. rewrite app_nil_r. simpl.
      split; [reflexivity | split; [constructor |]].
      split; [ring | split; [lra | left; split; reflexivity]].
Qed.

(** The halving loop finishes within [S k] tests on an input of at most
    [2 * 2^k]. *)
Lemma while_gt_2_finishes k : forall chain r,
  r <= 2 * pow2 k -> is_Some (while_gt_2 (S k) chain r).
Proof.
  induction k as [|k IH]; intros chain r Hr.
  - change (pow2 0) with 1 in Hr. simpl.
    destruct (Py.ltb 2.0 r) eqn:E; [| eexists; reflexivity].
    apply Py_ltb_lt in E. lra.
  - rewrite pow2_S in Hr.
    change (while_gt_2 (S (S k)) chain r)
      with (if Py.ltb 2.0 r
            then while_gt_2 (S k) (chain ++ [atempo_2_0]) (r / 2.0)
            else Some (chain, r)).
    destruct (Py.ltb 2.0 r); [| eexists; reflexivity].
    apply IH. apply Qle_shift_div_r; lra.
Qed.

(** The doubling loop finishes within [S k] tests on an input of at least
    [1 / (2 * 2^k)]. *)
Lemma while_lt_half_finishes k : forall chain r,
  1 <= r * (2 * pow2 k) -> is_Some (while_lt_half (S k) chain r).
Proof.
  induction k as [|k IH]; intros chain r Hr.
  - change (pow2 0) with 1 in Hr. simpl.
    destruct (Py.ltb r 0.5) eqn:E; [| eexists; reflexivity].
    apply Py_ltb_lt in E. lra.
  - rewrite pow2_S in Hr.
    change (while_lt_half (S (S k)) chain r)
      with (if Py.ltb r 0.5
            then while_lt_half (S k) (chain ++ [atempo_0_5]) (r * 2.0)
            else Some (chain, r)).
    destruct (Py.ltb r 0.5); [| eexists; reflexivity].
    apply IH. lra.
Qed.

Lemma positive_le_numerator v : 0 < v -> v <= inject_Z (Qnum v).
Proof.
  destruct v as [n d]. unfold Qlt, Qle. simpl. nia.
Qed.

Lemma times_denominator v : v * inject_Z (Z.pos (Qden v)) == inject_Z (Qnum v).
Proof.
  destruct v as [n d]. unfold Qeq, Qmult, inject_Z. cbn [Qnum Qden].
  rewrite Pos.mul_1_r. ring.
Qed.

Lemma numerator_pos v : 0 < v -> (0 < Qnum v)%Z.
Proof. destruct v as [n d]. unfold Qlt. simpl. lia. Qed.

Lemma pow2_ge_1 k : 1 <= pow2 k.
Proof. apply (pow2_le_plus 0 k). Qed.

(** The value the decomposition works on: a non-positive speed is 1.0. *)
Lemma guarded_speed_pos v : 0 < (if Py.leb v 0 then 1.0 else v).
Proof.
  destruct (Py.leb v 0) eqn:E; [reflexivity | apply Py_leb_gt, E].
Qed.

Lemma guarded_speed_upper v :
  (if Py.leb v 0 then 1.0 else v)
  <= 2 * pow2 (Pos.size_nat (Z.to_pos (Qnum v)) + Pos.size_nat (Qden v)).
Proof.
  set (k := (Pos.size_nat (Z.to_pos (Qnum v)) + Pos.size_nat (Qden v))%nat).
  destruct (Py.leb v 0) eqn:E.
  - pose proof (pow2_ge_1 k). lra.
  - apply Py_leb_gt in E.
    pose proof (positive_le_numerator v E) as H1.
    pose proof (numerator_pos v E) as Hn.
    pose proof (pos_lt_pow2 (Z.to_pos (Qnum v))) as H2.
    rewrite Z2Pos.id in H2 by exact Hn.
    pose proof (pow2_le_plus (Pos.size_nat (Z.to_pos (Qnum v))) (Pos.size_nat (Qden v))) as H3.
    fold k in H3. lra.
Qed.

Lemma guarded_speed_lower v :
  1 <= (if Py.leb v 0 then 1.0 else v)
       * (2 * pow2 (Pos.size_nat (Z.to_pos (Qnum v)) + Pos.size_nat (Qden v))).
Proof.
  set (k := (Pos.size_nat (Z.to_pos (Qnum v)) + Pos.size_nat (Qden v))%nat).
  destruct (Py.leb v 0) eqn:E.
  - pose proof (pow2_ge_1 k). lra.
  - apply Py_leb_gt in E.
    pose proof (numerator_pos v E) as Hn.
    pose proof (times_denominator v) as Hd.
    pose proof (pos_lt_pow2 (Qden v)) as H2.
    pose proof (pow2_le_plus (Pos.size_nat (Qden v)) (Pos.size_nat (Z.to_pos (Qnum v)))) as H3.
    rewrite Nat.add_comm in H3. fold k in H3.
    assert (H1 : 1 <= inject_Z (Qnum v)).
    { change 1 with (inject_Z 1). rewrite <- Zle_Qle. lia. }
    assert (H4 : v * inject_Z (Z.pos (Qden v)) <= v * pow2 k).
    { apply Qmult_le_l; [exact E | lra]. }
    assert (H5 : v * (2 * pow2 k) == 2 * (v * pow2 k)) by ring.
    lra.
Qed.

(** [atempo_chain] returns: the fuel computed from [v] suffices, and the
    chain is a run of 2.0 or 0.5 stages followed by the formatted rest. *)
Lemma stages_fuel_enough v :
  exists l r,
    stages_fuel (enough_fuel v) v = Some (l ++ [atempo_fmt r])
    /\ Forall (fun s => s = atempo_2_0 \/ s = atempo_0_5) l
    /\ product (map exact_ratio l) * r == (if Py.leb v 0 then 1.0 else v)
    /\ 0.5 <= r /\ r <= 2.0.
Proof.
  unfold stages_fuel, enough_fuel.
  set (k := (Pos.size_nat (Z.to_pos (Qnum v)) + Pos.size_nat (Qden v))%nat).
  set (v' := if Py.leb v 0 then 1.0 else v).
  destruct (while_gt_2_finishes k [] v' (guarded_speed_upper v)) as [[c1 r1] E1].
  rewrite E1.
  destruct (while_gt_2_spec _ _ _ _ _ E1) as (l1 & -> & A1 & P1 & U1 & O1).
  assert (F2 : 1 <= r1 * (2 * pow2 k)).
  { destruct O1 as [[_ ->] | O1]; [apply guarded_speed_lower |].
    pose proof (pow2_ge_1 k) as Hk.
    assert (H4 : 1 * (2 * pow2 k) <= r1 * (2 * pow2 k)).
    { apply Qmult_le_compat_r; lra. }
    lra. }
  destruct (while_lt_half_finishes k ([] ++ l1) r1 F2) as [[c2 r2] E2].
  rewrite E2.
  destruct (while_lt_half_spec _ _ _ _ _ E2) as (l2 & -> & A2 & P2 & L2 & O2).
  exists (l1 ++ l2), r2. simpl app.
  split; [reflexivity |]. split; [| split; [| split]].
  - apply Forall_app. split.
    + eapply Forall_impl; [exact A1 |]. intros s <-. left. reflexivity.
    + eapply Forall_impl; [exact A2 |]. intros s <-. right. reflexivity.
  - rewrite map_app, product_app, <- Qmult_assoc, P2. exact P1.
  - exact L2.
  - destruct O2 as [[_ ->] | O2]; lra.
Qed.

End TempoChain.

Section TempoChainFloats.

Lemma float_while_gt_2 fuel : forall chain r,
  AtempoFloat.while_gt_2 fuel (map AtempoFloat.of_stage chain) (finite r)
  = match Atempo.while_gt_2 fuel chain r with
    | Some (c, r') => Some (map AtempoFloat.of_stage c, finite r')
    | None => None
    end.
Proof.
  induction fuel as [|fuel IH]; intros chain r; simpl; [reflexivity |].
  destruct (Py.ltb 2.0 r); [| reflexivity].
  rewrite <- IH, map_app. reflexivity.
Qed.

Lemma float_while_lt_half fuel : forall chain r,
  AtempoFloat.while_lt_half fuel (map AtempoFloat.of_stage chain) (finite r)
  = match Atempo.while_lt_half fuel chain r with
    | Some (c, r') => Some (map AtempoFloat.of_stage c, finite r')
    | None => None
    end.
Proof.
  induction fuel as [|fuel IH]; intros chain r; simpl; [reflexivity |].
  destruct (Py.ltb r 0.5); [| reflexivity].
  rewrite <- IH, map_app. reflexivity.
Qed.

(** On a finite speed the function on floats is the function on rationals. *)
Lemma float_stages_finite fuel v :
  AtempoFloat.stages_fuel fuel (finite v)
  = option_map (map AtempoFloat.of_stage) (Atempo.stages_fuel fuel v).
Proof.
  unfold AtempoFloat.stages_fuel, Atempo.stages_fuel. cbn [Flt.leb].
  set (v' := if Py.leb v 0 then 1.0 else v).
  assert (E : (if Py.leb v 0 then finite 1.0 else finite v) = finite v')
    by (unfold v'; destruct (Py.leb v 0); reflexivity).
  rewrite E.
  change (@nil AtempoFloatStage) with (map AtempoFloat.of_stage []).
  rewrite float_while_gt_2.
  destruct (Atempo.while_gt_2 fuel [] v') as [[c r]|]; [| reflexivity].
  rewrite float_while_lt_half.
  destruct (Atempo.while_lt_half fuel c r) as [[c' r']|]; [| reflexivity].
  simpl. rewrite map_app. reflexivity.
Qed.

Lemma render_of_stage s :
  AtempoFloat.render_stage (AtempoFloat.of_stage s) = Atempo.render_stage s.
Proof. destruct s; reflexivity. Qed.

Lemma float_while_gt_2_inf fuel : forall chain,
  AtempoFloat.while_gt_2 fuel chain inf = None.
Proof. induction fuel as [|fuel IH]; intros chain; simpl; [reflexivity | apply IH]. Qed.

End TempoChainFloats.


(** C2, amended. For every finite input speed, [atempo_chain] returns (the
    loops finish) with the stages of the decomposition: each stage has a
    ratio in [0.5, 2.0], both as computed and as printed; the product of the
    computed ratios is the speed, and the printed last stage is within half
    a millionth of the computed one; a non-positive speed is treated as 1.0;
    and 5.0, 0.2 and 1.0 give the stages 2.0, 2.0, 1.25, then 0.5, 0.5, 0.8,
    then 1.0. *)
Theorem atempo_chain_decomposition (v : Q) :
  (exists fuel,
      AtempoFloat.stages_fuel fuel (finite v)
      = Some (map AtempoFloat.of_stage (Atempo.stages v))
      /\ AtempoFloat.atempo_chain_fuel fuel (finite v) = Some (Atempo.atempo_chain v))
  /\ Forall (fun s => AtempoFloat.in_range (AtempoFloat.of_stage s) = true)
            (Atempo.stages v)
  /\ Forall (fun s => 0.5 <= Atempo.exact_ratio s <= 2.0
                      /\ 0.5 <= Atempo.emitted_ratio s <= 2.0) (Atempo.stages v)
  /\ Atempo.product (map Atempo.exact_ratio (Atempo.stages v))
     == (if Py.leb v 0 then 1.0 else v)
  /\ (exists lead r,
        Atempo.stages v = lead ++ [atempo_fmt r]
        /\ Forall (fun s => s = atempo_2_0 \/ s = atempo_0_5) lead
        /\ Qabs (Atempo.emitted_ratio (atempo_fmt r) - r) <= 1 # 2000000)
  /\ (Py.leb v 0 = true -> Atempo.atempo_chain v = Atempo.atempo_chain 1.0)
  /\ Atempo.atempo_chain 5.0 = "atempo=2.0,atempo=2.0,atempo=1.250000"
  /\ Atempo.atempo_chain 0.2 = "atempo=0.5,atempo=0.5,atempo=0.800000"
  /\ Atempo.atempo_chain 1.0 = "atempo=1.000000"
  /\ Forall2 Qeq (map Atempo.emitted_ratio (Atempo.stages 5.0)) [2.0; 2.0; 1.25]
  /\ Forall2 Qeq (map Atempo.emitted_ratio (Atempo.stages 0.2)) [0.5; 0.5; 0.8]
  /\ Forall2 Qeq (map Atempo.emitted_ratio (Atempo.stages 1.0)) [1.0].
Proof.
  destruct (stages_fuel_enough v) as (l & r & E & Hl & Hp & Hlo & Hhi).
  assert (St : Atempo.stages v = l ++ [atempo_fmt r]).
  { unfold Atempo.stages. rewrite E. reflexivity. }
  destruct (value_6f_in_range r Hlo Hhi) as (V1 & V2 & V3).
  assert (Hexact : Forall (fun s => 0.5 <= Atempo.exact_ratio s <= 2.0
                      /\ 0.5 <= Atempo.emitted_ratio s <= 2.0) (Atempo.stages v)).
  { rewrite St. apply Forall_app. split.
    - eapply Forall_impl; [exact Hl |].
      intros s [-> | ->]; simpl; repeat split; lra.
    - constructor; [| constructor]. simpl. repeat split; assumption. }
  split.
  { exists (Atempo.enough_fuel v).
    assert (F : AtempoFloat.stages_fuel (Atempo.enough_fuel v) (finite v)
                = Some (map AtempoFloat.of_stage (Atempo.stages v))).
    { rewrite float_stages_finite, E, St. reflexivity. }
    split; [exact F |].
    unfold AtempoFloat.atempo_chain_fuel. rewrite F.
    unfold Atempo.atempo_chain. rewrite map_map.
    f_equal. f_equal. apply map_ext. intros s. apply render_of_stage. }
  split.
  { eapply Forall_impl; [exact Hexact |]. intros s [[H1 H2] _].
    unfold AtempoFloat.in_range.
    assert (R : AtempoFloat.ratio (AtempoFloat.of_stage s) = finite (Atempo.exact_ratio s))
      by (destruct s; reflexivity).
    rewrite R. cbn [Flt.leb]. apply andb_true_iff. split; apply Py_leb_le; assumption. }
  split; [exact Hexact |].
  split.
  { rewrite St, map_app, product_app. simpl.
    rewrite <- Hp. ring. }
  split.
  { exists l, r. repeat split; assumption. }
  split.
  { intros Hv. unfold Atempo.atempo_chain, Atempo.stages, Atempo.stages_fuel.
    rewrite Hv. destruct (Atempo.enough_fuel v) eqn:F; [discriminate F |].
    reflexivity. }
  repeat split; try (vm_compute; reflexivity).
  - repeat constructor; vm_compute; reflexivity.
  - repeat constructor; vm_compute; reflexivity.
  - repeat constructor; vm_compute; reflexivity.
Qed.

(** C2 as stated fails on the speeds that are not finite: on [nan] the one
    stage is [atempo=nan], whose ratio is not in [0.5, 2.0], and on [inf]
    the first loop never finishes, whatever the number of its tests. *)
Lemma atempo_chain_nonfinite_counterexample :
  AtempoFloat.atempo_chain_fuel 1 nan = Some "atempo=nan"
  /\ AtempoFloat.stages_fuel 1 nan = Some [f_atempo_fmt nan]
  /\ AtempoFloat.in_range (f_atempo_fmt nan) = false
  /\ (forall fuel, AtempoFloat.stages_fuel fuel inf = None
                   /\ AtempoFloat.atempo_chain_fuel fuel inf = None).
Proof.
  split; [reflexivity |]. split; [reflexivity |]. split; [reflexivity |].
  intros fuel.
  assert (E : AtempoFloat.stages_fuel fuel inf = None).
  { unfold AtempoFloat.stages_fuel. cbn [Flt.leb].
    rewrite float_while_gt_2_inf. reflexivity. }
  split; [exact E |]. unfold AtempoFloat.atempo_chain_fuel. rewrite E. reflexivity.
Qed.

(* ===================================================================== *)
(** * The per-clip render command                                         *)
(* ===================================================================== *)

Section RenderCommand.
Context `{Runtime}.
Import ExportPy.

Lemma with_speed_trim c v :
  start_args (with_speed c v) = start_args c
  /\ duration_args (with_speed c v) = duration_args c.
Proof. split; reflexivity. Qed.


End RenderCommand.

Section RenderCommandWhole.
Context `{Runtime}.
Import ExportPy.



End RenderCommandWhole.



Lemma duration_effective_speed_scaling_witness :
  Models.duration_effective demo_clip == Qmax 0.2 (base_duration demo_clip / 2.0)
  /\ Models.duration_effective (with_speed demo_clip 1.0) == base_duration demo_clip
  /\ Models.duration_effective demo_clip
     == Qmax 0.2 (Models.duration_effective (with_speed demo_clip 1.0) / 2.0).
Proof.
  apply (duration_effective_speed_scaling demo_clip). vm_compute. reflexivity.
Defined.

(* ===================================================================== *)
(** * The export pipeline                                                 *)
(* ===================================================================== *)

Section ExportPipeline.
Context `{Runtime}.
Import ExportPy.








Lemma run_cmd_run cmd st :
  exists code out err w,
    run_cmd cmd st
    = (Ok (code, out, err),
       {| self := self st; world := w; trace := trace st ++ [EvRun cmd code err] |}).
Proof.
  unfold run_cmd.
  destruct (Utils.run_cmd cmd 300 (world st)) as [[[code out] err] w].
  exists code, out, err, w. reflexivity.
Qed.


















Lemma use_transitions_false tl :
  use_transitions tl = false <-> Forall (fun c => transition c <> "crossfade") tl.
Proof.
  unfold use_transitions. induction tl as [|c tl IH]; simpl.
  - split; [constructor | reflexivity].
  - rewrite orb_false_iff, IH, Forall_cons, String.eqb_neq. reflexivity.
Qed.

(** The fold runs the commands of [fold_cmds] in order, up to the first
    that fails. *)
Lemma transitions_loop_cmds temp_dir rest : forall i current st,
  exists evs,
    trace (transitions_loop temp_dir i rest current st).2 = trace st ++ evs
    /\ ev_cmds evs `prefix_of` fold_cmds temp_dir (timeline (self st)) i rest current
    /\ (forall r, (transitions_loop temp_dir i rest current st).1 = Ok r ->
          ev_cmds evs = fold_cmds temp_dir (timeline (self st)) i rest current).
Proof.
  induction rest as [|next_clip rest IH]; intros i current st.
  - exists []. simpl. rewrite app_nil_r. repeat split. reflexivity.
  - cbn [transitions_loop fold_cmds]. unfold mbind, M_bind, get_self.
    cbv beta iota zeta.
    set (out_chain := os_path_join temp_dir ("xfade_" +:+ pretty (i - 1)%nat +:+ ".mp4")).
    set (cmd := step_cmd (transition_name (timeline (self st)) i) current next_clip out_chain).
    destruct (run_cmd_run cmd st) as (code & out & err & w & ->).
    cbv beta iota zeta. unfold code_ne_0.
    destruct (Z.eqb_spec code 0) as [-> | Hne]; cbn [negb].
    + set (st1 := {| self := self st; world := w;
                     trace := trace st ++ [EvRun cmd 0%Z err] |}).
      destruct (IH (S i) out_chain st1) as (evs2 & T2 & P2 & E2).
      change (timeline (self st1)) with (timeline (self st)) in P2, E2.
      exists (EvRun cmd 0%Z err :: evs2).
      split; [rewrite T2; simpl; rewrite <- app_assoc; reflexivity |].
      split.
      * change (ev_cmds (EvRun cmd 0%Z err :: evs2)) with (cmd :: ev_cmds evs2).
        apply prefix_cons, P2.
      * intros r Hr.
        change (ev_cmds (EvRun cmd 0%Z err :: evs2)) with (cmd :: ev_cmds evs2).
        f_equal. exact (E2 r Hr).
    + exists [EvRun cmd code err]. simpl.
      split; [reflexivity |]. split; [| discriminate].
      change (ev_cmds [EvRun cmd code err]) with ([cmd] ++ []).
      apply prefix_cons, prefix_nil.
Qed.

End ExportPipeline.

Section SequenceAssembly.
Context `{Runtime}.
Import ExportPy.

Lemma str_int_crf : Py.str_int FFmpegConfig.CRF = "20".
Proof. vm_compute. reflexivity. Qed.

(** C4, amended. The export assembles by the manifest-based stream-copy
    concatenation exactly when no clip has the transition [crossfade]: it
    writes one [file "<path>"] line per rendered clip, in order, and runs
    the tool once, in [-f concat] mode with [-c copy], on that manifest.
    Otherwise it folds over the rendered clips from left to right, the
    output of a step being the left input of the next: a step concatenates
    video and audio in a filter graph when the left clip's transition is
    [none] or empty, and cross-fades the video alone, for the configured
    duration at offset 1, otherwise, [crossfade] being passed as [fade].  A
    timeline that uses only the other named styles takes the concatenation
    path. *)
Theorem sequence_assembly_paths :
  (forall tl,
      use_transitions tl = false <-> Forall (fun c => transition c <> "crossfade") tl)
  /\ (forall clips temp_dir st,
        use_transitions (timeline (self st)) = false ->
        let concat_list := os_path_join temp_dir "concat_list.txt" in
        let concat_out := os_path_join temp_dir "concatenated.mp4" in
        let lines :=
          map (fun p => "file " +:+ dquote +:+ Utils.safe_path_for_concat p
                        +:+ dquote +:+ newline) clips in
        let cmd := ["ffmpeg"; "-y"; "-f"; "concat"; "-safe"; "0";
                    "-i"; concat_list; "-c"; "copy"; concat_out] in
        exists code out err w',
          Utils.run_cmd cmd 300
            (write_text concat_list (String.concat "" lines) (world st))
          = ((code, out, err), w')
          /\ trace (assemble clips temp_dir st).2 = trace st ++ [EvRun cmd code err]
          /\ world (assemble clips temp_dir st).2 = w'
          /\ (assemble clips temp_dir st).1
             = if (code =? 0)%Z then Ok concat_out
               else Raise ("Failed to concatenate clips: " +:+ err))
  /\ (forall current rest temp_dir st,
        use_transitions (timeline (self st)) = true ->
        exists evs,
          trace (assemble (current :: rest) temp_dir st).2 = trace st ++ evs
          /\ ev_cmds evs `prefix_of` fold_cmds temp_dir (timeline (self st)) 1 rest current
          /\ (forall r,
                (assemble (current :: rest) temp_dir st).1 = Ok r ->
                ev_cmds evs = fold_cmds temp_dir (timeline (self st)) 1 rest current))
  /\ (forall temp_dir tl i next_clip rest current c,
        nth_error tl (i - 1) = Some c ->
        let out_chain :=
          os_path_join temp_dir ("xfade_" +:+ pretty (i - 1)%nat +:+ ".mp4") in
        let graph_concat :=
          ["ffmpeg"; "-y"; "-i"; current; "-i"; next_clip;
           "-filter_complex"; "[0:v][0:a][1:v][1:a]concat=n=2:v=1:a=1[v][a]";
           "-map"; "[v]"; "-map"; "[a]";
           "-c:v"; "libx264"; "-preset"; "fast"; "-crf"; "20";
           "-c:a"; "aac"; "-b:a"; "192k"; out_chain] in
        let video_xfade := fun tr =>
          ["ffmpeg"; "-y"; "-i"; current; "-i"; next_clip;
           "-filter_complex";
           "[0:v][1:v]xfade=transition=" +:+ tr +:+ ":duration="
             +:+ str_float 1.0 +:+ ":offset=1,format=yuv420p";
           "-c:v"; "libx264"; "-preset"; "fast"; "-crf"; "20";
           "-c:a"; "aac"; "-b:a"; "192k"; out_chain] in
        exists cmd,
          fold_cmds temp_dir tl i (next_clip :: rest) current
          = cmd :: fold_cmds temp_dir tl (S i) rest out_chain
          /\ (transition c = "none" \/ transition c = "" -> cmd = graph_concat)
          /\ (transition c = "crossfade" -> cmd = video_xfade "fade")
          /\ (transition c <> "none" -> transition c <> "" ->
              transition c <> "crossfade" -> cmd = video_xfade (transition c)))
  /\ (forall tl,
        Forall (fun c => In (transition c) named_styles) tl ->
        use_transitions tl = false).
Proof.
  split; [exact use_transitions_false |].
  split.
  { intros clips temp_dir st Hno concat_list concat_out lines cmd.
    unfold assemble, mbind, M_bind, get_self. cbv beta iota zeta. rewrite Hno.
    unfold _concatenate_simple, mbind, M_bind, lift_world, run_cmd.
    cbv beta iota zeta. cbn [world self trace].
    change (concat_cmd (os_path_join temp_dir "concat_list.txt")
                       (os_path_join temp_dir "concatenated.mp4")) with cmd.
    change (manifest clips) with (String.concat "" lines).
    fold concat_list.
    destruct (Utils.run_cmd cmd 300
                (write_text concat_list (String.concat "" lines) (world st)))
      as [[[code out] err] w'].
    exists code, out, err, w'. split; [reflexivity |].
    unfold code_ne_0. destruct (code =? 0)%Z; cbn [negb]; repeat split; reflexivity. }
  split.
  { intros current rest temp_dir st Hyes.
    unfold assemble, mbind, M_bind, get_self. cbv beta iota zeta. rewrite Hyes.
    apply transitions_loop_cmds. }
  split.
  { intros temp_dir tl i next_clip rest current c Hc out_chain graph_concat video_xfade.
    eexists. split; [reflexivity |].
    unfold transition_name. rewrite Hc.
    unfold step_cmd, pair_concat_cmd, xfade_cmd, FFmpegConfig.PRESET,
      FFmpegConfig.AUDIO_BITRATE, FFmpegConfig.CROSSFADE_DURATION.
    rewrite str_int_crf. fold out_chain.
    split; [| split].
    - intros [-> | ->]; reflexivity.
    - intros ->. reflexivity.
    - intros Hn He Hx. unfold Py.or_str.
      apply String.eqb_neq in Hn, He, Hx. rewrite He, Hx, Hn. reflexivity. }
  intros tl Hall. apply use_transitions_false.
  eapply Forall_impl; [exact Hall |]. intros c Hin Hc. cbv beta in Hin. rewrite Hc in Hin.
  cbv [named_styles In] in Hin.
  repeat (destruct Hin as [Hin | Hin]; [discriminate Hin |]). exact Hin.
Qed.

End SequenceAssembly.

(** C4 as stated fails on a left clip whose transition is the empty string:
    it is not [none], the timeline has a [crossfade], and the step of the
    fold is the concatenation in a filter graph, not a cross-fade. *)
Lemma empty_transition_counterexample :
  map transition (timeline (ExportPy.self empty_transition_export)) = [""; "crossfade"]
  /\ ExportPy.use_transitions (timeline (ExportPy.self empty_transition_export)) = true
  /\ ev_cmds (ExportPy.trace
                (ExportPy.assemble ["/tmp/x/clip_0.mp4"; "/tmp/x/clip_1.mp4"] "/tmp/x"
                   empty_transition_export).2)
     = [["ffmpeg"; "-y"; "-i"; "/tmp/x/clip_0.mp4"; "-i"; "/tmp/x/clip_1.mp4";
         "-filter_complex"; "[0:v][0:a][1:v][1:a]concat=n=2:v=1:a=1[v][a]";
         "-map"; "[v]"; "-map"; "[a]";
         "-c:v"; "libx264"; "-preset"; "fast"; "-crf"; "20";
         "-c:a"; "aac"; "-b:a"; "192k"; "/tmp/x/xfade_0.mp4"]].
Proof.
  split; [reflexivity |]. split; [reflexivity |]. vm_compute. reflexivity.
Qed.



(* ===================================================================== *)
(** * The sequencer                                                       *)
(* ===================================================================== *)

Section Sequencer.
Import MainWindow.

Lemma total_duration_app l1 l2 :
  total_duration (l1 ++ l2) == total_duration l1 + total_duration l2.
Proof.
  induction l1 as [|c l1 IH]; simpl.
  - ring.
  - rewrite IH. ring.
Qed.

Lemma total_duration_nonneg l : 0 <= total_duration l.
Proof.
  induction l as [|c l IH]; simpl; [lra |].
  pose proof (duration_effective_lower c). lra.
Qed.

Lemma clip_at_loop_some items : forall t sec clip local,
  clip_at_loop items t sec = Some (clip, local) ->
  exists pre post,
    items = pre ++ clip :: post
    /\ local == sec - (t + total_duration pre)
    /\ sec < t + total_duration pre + Models.duration_effective clip
    /\ (pre = [] \/ t + total_duration pre <= sec).
Proof.
  induction items as [|c rest IH]; intros t sec clip local Hrun; simpl in Hrun.
  - discriminate.
  - destruct (Py.ltb sec (t + Models.duration_effective c)) eqn:E.
    + injection Hrun as <- <-. apply Py_ltb_lt in E.
      exists [], rest. simpl. repeat split; try lra. left. reflexivity.
    + apply Py_ltb_ge in E.
      destruct (IH _ _ _ _ Hrun) as (pre & post & -> & Hl & Hlt & Hfirst).
      exists (c :: pre), post. simpl. repeat split.
      * rewrite Hl. ring.
      * lra.
      * right. destruct Hfirst as [-> | Hle]; simpl; lra.
Qed.

Lemma clip_at_loop_past items : forall t sec,
  t + total_duration items <= sec -> clip_at_loop items t sec = None.
Proof.
  induction items as [|c rest IH]; intros t sec Hle; simpl in *.
  - reflexivity.
  - destruct (Py.ltb sec (t + Models.duration_effective c)) eqn:E.
    + apply Py_ltb_lt in E. pose proof (total_duration_nonneg rest). lra.
    + apply IH. lra.
Qed.

Lemma clip_at_loop_none items : forall t sec,
  clip_at_loop items t sec = None -> items = [] \/ t + total_duration items <= sec.
Proof.
  induction items as [|c rest IH]; intros t sec Hrun; simpl in *.
  - left. reflexivity.
  - right. destruct (Py.ltb sec (t + Models.duration_effective c)) eqn:E.
    + discriminate.
    + apply Py_ltb_ge in E.
      destruct (IH _ _ Hrun) as [-> | Hle]; simpl; lra.
Qed.

Lemma cumulative_loop_found pre : forall t c post clip,
  Forall (fun x => oid x <> oid clip) pre -> oid c = oid clip ->
  cumulative_loop (pre ++ c :: post) t clip == t + total_duration pre.
Proof.
  induction pre as [|x pre IH]; intros t c post clip Hpre Hc; simpl.
  - unfold is_. rewrite Hc, Nat.eqb_refl. ring.
  - apply Forall_cons in Hpre as [Hx Hpre].
    unfold is_ at 1. apply Nat.eqb_neq in Hx. rewrite Hx.
    rewrite IH by assumption. ring.
Qed.

Lemma cumulative_loop_absent items : forall t clip,
  Forall (fun x => oid x <> oid clip) items ->
  cumulative_loop items t clip = 0.0.
Proof.
  induction items as [|x items IH]; intros t clip Hall; simpl.
  - reflexivity.
  - apply Forall_cons in Hall as [Hx Hall].
    unfold is_ at 1. apply Nat.eqb_neq in Hx. rewrite Hx. apply IH, Hall.
Qed.

(** C6. [_clip_at_global_time(sec)] returns the first clip whose span of
    accumulated effective durations contains [sec], with [sec] minus the
    durations of the clips before it, and returns nothing at or past the
    total duration; [_cumulative_start_of(clip)] is the sum of the
    durations of the clips before the clip, and 0.0 when the clip is the
    first one or is not in the timeline. *)
Theorem sequencer_locate_and_cumulative_start (self : State) (sec : Q) :
  (forall clip local,
      _clip_at_global_time self sec = Some (clip, local) ->
      exists pre post,
        items_list self = pre ++ clip :: post
        /\ local == sec - total_duration pre
        /\ sec < total_duration pre + Models.duration_effective clip
        /\ (pre = [] \/ total_duration pre <= sec)
        /\ (0 <= sec -> total_duration pre <= sec
                        /\ 0 <= local /\ local < Models.duration_effective clip))
  /\ (items_list self <> [] -> sec < total_duration (items_list self) ->
      exists clip local, _clip_at_global_time self sec = Some (clip, local))
  /\ (total_duration (items_list self) <= sec ->
      _clip_at_global_time self sec = None)
  /\ (forall pre c post clip,
        items_list self = pre ++ c :: post ->
        oid c = oid clip -> Forall (fun x => oid x <> oid clip) pre ->
        _cumulative_start_of self clip == total_duration pre)
  /\ (forall c post clip,
        items_list self = c :: post -> oid c = oid clip ->
        _cumulative_start_of self clip = 0.0)
  /\ (forall clip,
        Forall (fun x => oid x <> oid clip) (items_list self) ->
        _cumulative_start_of self clip = 0.0).
Proof.
  unfold _clip_at_global_time, _cumulative_start_of.
  split; [| split; [| split; [| split; [| split]]]].
  - intros clip local Hrun.
    destruct (clip_at_loop_some _ _ _ _ _ Hrun) as (pre & post & E & Hl & Hlt & Hfirst).
    exists pre, post. split; [exact E |].
    assert (Hl' : local == sec - total_duration pre) by (rewrite Hl; ring).
    assert (Hfirst' : pre = [] \/ total_duration pre <= sec).
    { destruct Hfirst as [-> | Hle]; [left; reflexivity | right; lra]. }
    split; [exact Hl' |]. split; [lra |]. split; [exact Hfirst' |].
    intros Hsec.
    assert (Hpre : total_duration pre <= sec).
    { destruct Hfirst' as [-> | Hle]; [simpl; lra | exact Hle]. }
    split; [exact Hpre |]. split; lra.
  - intros Hne Hlt.
    destruct (clip_at_loop (items_list self) 0.0 sec) as [[clip local] |] eqn:E.
    + exists clip, local. reflexivity.
    + exfalso. apply clip_at_loop_none in E as [E | E]; [exact (Hne E) | lra].
  - intros Hle. apply clip_at_loop_past. lra.
  - intros pre c post clip E Hc Hpre. rewrite E.
    rewrite cumulative_loop_found by assumption. ring.
  - intros c post clip E Hc. rewrite E. simpl.
    unfold is_. rewrite Hc, Nat.eqb_refl. reflexivity.
  - intros clip Hall. apply cumulative_loop_absent, Hall.
Qed.

Lemma prepare_previews_timeline self clip :
  timeline (_prepare_clip_previews self clip) = timeline self
  /\ items_list (_prepare_clip_previews self clip) = items_list self
  /\ next_oid (_prepare_clip_previews self clip) = next_oid self.
Proof.
  unfold _prepare_clip_previews.
  destruct (_ && _); repeat split; reflexivity.
Qed.

(** X11. Within 0.05 s of either edge of the clip under the playhead, and
    when no clip is under it, [split_at_playhead] changes nothing. *)
Lemma split_noop_near_edges self :
  (_clip_at_global_time self (playhead_sec self) = None
   \/ exists clip local,
       _clip_at_global_time self (playhead_sec self) = Some (clip, local)
       /\ (local <= 0.05 \/ Models.duration_effective clip - 0.05 <= local)) ->
  split_at_playhead self = (Ok tt, self).
Proof.
  unfold split_at_playhead. intros [-> | (clip & local & -> & Hedge)].
  - reflexivity.
  - assert (E : Py.leb local 0.05
                || Py.leb (Models.duration_effective clip - 0.05) local = true).
    { apply orb_true_iff. destruct Hedge as [Hl | Hr]; [left | right];
        apply Py_leb_le; assumption. }
    rewrite E. reflexivity.
Qed.

(** Away from the edges, the clip is replaced by the two halves. *)
Lemma split_replaces self clip local idx :
  _clip_at_global_time self (playhead_sec self) = Some (clip, local) ->
  0.05 < local -> local < Models.duration_effective clip - 0.05 ->
  index (timeline self) clip = Some idx ->
  let left := split_left (next_oid self) clip (start clip + local) in
  let right := split_right (S (next_oid self)) clip (start clip + local) in
  exists self',
    split_at_playhead self = (Ok tt, self')
    /\ timeline self'
       = take idx (timeline self) ++ [left; right] ++ drop (S idx) (timeline self)
    /\ items_list self'
       = flat_map (fun item => if is_ item clip then [left; right] else [item])
                  (items_list self).
Proof.
  intros Hat Hlo Hhi Hidx left right. unfold split_at_playhead. rewrite Hat.
  assert (E : Py.leb local 0.05
              || Py.leb (Models.duration_effective clip - 0.05) local = false).
  { apply orb_false_iff. split; apply Py_leb_gt; assumption. }
  rewrite E. cbv zeta.
  fold left. fold right.
  set (s2 := _prepare_clip_previews
               (_prepare_clip_previews (allocate self 2) left) right).
  assert (T : timeline s2 = timeline self).
  { unfold s2.
    rewrite (proj1 (prepare_previews_timeline _ _)).
    rewrite (proj1 (prepare_previews_timeline _ _)). reflexivity. }
  assert (I : items_list s2 = items_list self).
  { unfold s2.
    rewrite (proj1 (proj2 (prepare_previews_timeline _ _))).
    rewrite (proj1 (proj2 (prepare_previews_timeline _ _))). reflexivity. }
  rewrite T, Hidx, I. eexists. split; [reflexivity |]. split; reflexivity.
Qed.

End Sequencer.

(** A clip of raw window [0, 10) at speed 1.0, split with the playhead at 4:
    the windows are [0, 4) and [4, 10). *)
Example split_0_10_at_4 :
  Forall2 same_window
    (windows (MainWindow.timeline (MainWindow.split_at_playhead (one_clip_window 1.0 4.0)).2))
    [(0.0, Some 4.0); (4.0, Some 10.0)].
Proof.
  vm_compute. repeat constructor.
Qed.

(** C3 at a clip of raw window [0, 10) at speed 2.0 with the playhead at
    2.0 s, that is 4.0 s into the media: the split point is the local
    offset added to the start, 2.0, not the media time 4.0; the windows are
    [0, 2) and [2, 10). *)
Theorem split_at_playhead_ignores_speed :
  MainWindow._clip_at_global_time (one_clip_window 2.0 2.0) 2.0
  = Some (whole_clip 2.0, 2.0 - 0.0)
  /\ Forall2 same_window
       (windows (MainWindow.timeline
                   (MainWindow.split_at_playhead (one_clip_window 2.0 2.0)).2))
       [(0.0, Some 2.0); (2.0, Some 10.0)]
  /\ ~ Forall2 same_window
       (windows (MainWindow.timeline
                   (MainWindow.split_at_playhead (one_clip_window 2.0 2.0)).2))
       [(0.0, Some (0.0 + 2.0 * 2.0)); (0.0 + 2.0 * 2.0, Some 10.0)].
Proof.
  split; [vm_compute; reflexivity |]. split.
  - vm_compute. repeat constructor.
  - vm_compute. intros F. inversion F as [| ? ? ? ? [_ Hend] _]; subst.
    simpl in Hend. discriminate Hend.
Qed.

(* ===================================================================== *)
(** * The speed of a clip                                                 *)
(* ===================================================================== *)

Section Speed.
Import MainWindow.

(** [duration_effective] reads a speed that is not positive as 1.0. *)
Lemma duration_effective_nonpositive_speed c :
  speed c <= 0 ->
  Models.duration_effective c = Models.duration_effective (with_speed c 1.0).
Proof.
  intros Hs. apply Py_leb_le in Hs. unfold Models.duration_effective. simpl.
  rewrite Hs. reflexivity.
Qed.

(** [apply_speed_to_clip] stores a positive speed in the selected clip:
    the value of the spin box, or 1.0 when that is not positive. *)
Lemma apply_speed_positive self clip :
  _current_clip self = Some clip ->
  Forall (fun c => oid c = oid clip -> 0 < speed c /\
                   speed c = (if Py.leb (speed_spin self) 0 then 1.0 else speed_spin self))
         (timeline (apply_speed_to_clip self)).
Proof.
  intros Hc. unfold apply_speed_to_clip. rewrite Hc.
  unfold _rebuild_effect_preview_for, start_job, set_lists. simpl.
  unfold assign_speed. apply Forall_forall. intros c Hin.
  apply list_elem_of_In, in_map_iff in Hin as (c0 & <- & _).
  destruct (Nat.eqb (oid c0) (oid clip)) eqn:E; simpl.
  - intros _. split; [| reflexivity].
    destruct (Py.leb (speed_spin self) 0) eqn:L; [reflexivity |].
    apply Py_leb_gt, L.
  - intros Ho. apply Nat.eqb_neq in E. contradiction.
Qed.

End Speed.

(** C8 at a clip record whose stored speed is -2.0: [from_dict] returns a
    clip of speed -2.0; the speed is not coerced to 1.0. *)
Theorem from_dict_keeps_nonpositive_speed :
  exists clip,
    (@Models.from_dict quiet_runtime 7
       negative_speed_record [demo_media] []).1 = FdClip clip
    /\ speed clip == -2.0
    /\ ~ 0 < speed clip
    /\ ~ speed clip == 1.0.
Proof.
  eexists. split; [vm_compute; reflexivity |].
  simpl. repeat split; vm_compute; intros E; discriminate E.
Qed.

(* ===================================================================== *)
(** * The preview worker and its caches                                   *)
(* ===================================================================== *)

Section PreviewCache.
Context `{Runtime}.
Import PreviewWorker.

Lemma proxy_step_clip self w : clip (proxy_step self w).1 = clip self.
Proof.
  unfold proxy_step. destruct (proxy_enabled self); [| reflexivity].
  destruct (Utils.generate_proxy _ _ _ _) as [p w1].
  destruct (Py.truthy_str p); reflexivity.
Qed.

Lemma thumbs_step_fresh self clip_dir w :
  thumb_paths (clip self) = [] ->
  let new_thumbs :=
    (_generate_thumbs_from_source self (source_for self) clip_dir
       (window_start (clip self)) (effective_dur (clip self)) w).1 in
  clip (thumbs_step self clip_dir w).1 = set_thumb_paths (clip self) new_thumbs
  /\ (new_thumbs <> [] ->
      thumbs_cache (thumbs_step self clip_dir w).1 !! path (media (clip self))
      = Some new_thumbs)
  /\ wave_cache (thumbs_step self clip_dir w).1 = wave_cache self
  /\ signals (thumbs_step self clip_dir w).1 = signals self.
Proof.
  intros Hfresh. unfold thumbs_step. rewrite Hfresh. simpl negb. cbv iota.
  destruct (_generate_thumbs_from_source _ _ _ _ _ _) as [new w1]. simpl.
  destruct new as [|t new]; simpl.
  - repeat split; try reflexivity. intros Hne. contradiction.
  - repeat split; try reflexivity. intros _. apply lookup_insert_eq.
Qed.

Lemma wave_step_keeps self clip_dir w :
  thumb_paths (clip (wave_step self clip_dir w).1) = thumb_paths (clip self)
  /\ preview_dir (clip (wave_step self clip_dir w).1) = preview_dir (clip self)
  /\ thumbs_cache (wave_step self clip_dir w).1 = thumbs_cache self
  /\ signals (wave_step self clip_dir w).1 = signals self.
Proof.
  unfold wave_step. destruct (_ && _); [| repeat split; reflexivity].
  destruct (_generate_wave_from_source _ _ _ _ _ _) as [wave w1].
  destruct (truthy_path wave); repeat split; reflexivity.
Qed.

Lemma wave_step_fresh self clip_dir w :
  waveform_path (clip self) = None ->
  type (media (clip self)) = video \/ type (media (clip self)) = audio ->
  let wave_path :=
    (_generate_wave_from_source self (source_for self) clip_dir
       (window_start (clip self)) (effective_dur (clip self)) w).1 in
  waveform_path (clip (wave_step self clip_dir w).1)
  = (if truthy_path wave_path then wave_path else None).
Proof.
  intros Hfresh Htype. unfold wave_step. rewrite Hfresh. simpl negb.
  assert (T : match type (media (clip self)) with
              | video | audio => true | _ => false end = true).
  { destruct Htype as [-> | ->]; reflexivity. }
  rewrite T. simpl andb. cbv iota.
  destruct (_generate_wave_from_source _ _ _ _ _ _) as [wave w1]. simpl.
  destruct (truthy_path wave); [reflexivity | exact Hfresh].
Qed.

(** [generate], in terms of its stages. *)
Lemma generate_stages self w :
  let last := wave_step (thumbed self w).1 (clip_dir_of self w) (thumbed self w).2 in
  let attached :=
    if Py.truthy_str (worker_proxy_path last.1)
    then set_clip last.1 (set_proxy_path (clip last.1) (Some (worker_proxy_path last.1)))
    else last.1 in
  generate self w = (emit attached (done (clip attached)), last.2).
Proof.
  unfold generate, thumbed, proxied, clip_dir_of.
  destruct (make_clip_dir self w) as [d w1]. simpl.
  destruct (proxy_step _ w1) as [s1 w2]. simpl.
  destruct (thumbs_step s1 d w2) as [s2 w3]. simpl.
  destruct (wave_step s2 d w3) as [s3 w4]. reflexivity.
Qed.

Lemma attached_keeps (s : Worker) :
  let attached :=
    if Py.truthy_str (worker_proxy_path s)
    then set_clip s (set_proxy_path (clip s) (Some (worker_proxy_path s)))
    else s in
  thumb_paths (clip attached) = thumb_paths (clip s)
  /\ waveform_path (clip attached) = waveform_path (clip s)
  /\ preview_dir (clip attached) = preview_dir (clip s)
  /\ thumbs_cache attached = thumbs_cache s
  /\ signals attached = signals s.
Proof.
  simpl. destruct (Py.truthy_str (worker_proxy_path s)); repeat split; reflexivity.
Qed.

(** A worker whose clip has no thumbnails regenerates them into the
    directory it makes, and caches them when there are some. *)
Lemma generate_thumbs self w :
  thumb_paths (clip self) = [] ->
  thumb_paths (clip (generate self w).1) = new_thumbs_of self w
  /\ preview_dir (clip (generate self w).1) = Some (clip_dir_of self w)
  /\ (new_thumbs_of self w <> [] ->
      thumbs_cache (generate self w).1 !! path (media (clip self))
      = Some (new_thumbs_of self w)).
Proof.
  intros Hfresh. rewrite generate_stages. cbv zeta. simpl fst.
  set (last := wave_step (thumbed self w).1 (clip_dir_of self w) (thumbed self w).2).
  destruct (attached_keeps last.1) as (A1 & A2 & A3 & A4 & A5).
  destruct (wave_step_keeps (thumbed self w).1 (clip_dir_of self w) (thumbed self w).2)
    as (W1 & W2 & W3 & W4).
  fold last in W1, W2, W3, W4.
  assert (P : clip (proxied self w).1
              = set_preview_dir (clip self) (Some (clip_dir_of self w))).
  { unfold proxied. rewrite proxy_step_clip. reflexivity. }
  assert (F : thumb_paths (clip (proxied self w).1) = []).
  { rewrite P. exact Hfresh. }
  destruct (thumbs_step_fresh (proxied self w).1 (clip_dir_of self w) (proxied self w).2 F)
    as (T1 & T2 & T3 & T4).
  fold (thumbed self w) in T1, T2.
  assert (N : (_generate_thumbs_from_source (proxied self w).1
                 (source_for (proxied self w).1) (clip_dir_of self w)
                 (window_start (clip (proxied self w).1))
                 (effective_dur (clip (proxied self w).1)) (proxied self w).2).1
              = new_thumbs_of self w).
  { unfold new_thumbs_of. rewrite P. reflexivity. }
  rewrite N in T1, T2.
  unfold emit. simpl clip. simpl thumbs_cache.
  split; [| split].
  - rewrite A1, W1, T1. reflexivity.
  - rewrite A3, W2, T1. simpl. rewrite P. reflexivity.
  - intros Hne. rewrite A4, W3. rewrite P in T2. exact (T2 Hne).
Qed.

Lemma set_thumb_paths_same c : set_thumb_paths c (thumb_paths c) = c.
Proof. destruct c. reflexivity. Qed.

Lemma proxy_step_keeps self w :
  signals (proxy_step self w).1 = signals self.
Proof.
  unfold proxy_step. destruct (proxy_enabled self); [| reflexivity].
  destruct (Utils.generate_proxy _ _ _ _) as [p w1].
  destruct (Py.truthy_str p); reflexivity.
Qed.

Lemma thumbs_step_keeps self clip_dir w :
  (exists t, clip (thumbs_step self clip_dir w).1 = set_thumb_paths (clip self) t)
  /\ signals (thumbs_step self clip_dir w).1 = signals self.
Proof.
  unfold thumbs_step. destruct (negb _).
  - destruct (_generate_thumbs_from_source _ _ _ _ _ _) as [new w1]. simpl.
    destruct (Py.truthy_list new); split; try reflexivity; exists new; reflexivity.
  - split; [| reflexivity]. exists (thumb_paths (clip self)).
    simpl. symmetry. apply set_thumb_paths_same.
Qed.

(** A worker whose clip has no waveform, for a video or an audio file,
    regenerates it. *)
Lemma generate_wave self w :
  waveform_path (clip self) = None ->
  type (media (clip self)) = video \/ type (media (clip self)) = audio ->
  waveform_path (clip (generate self w).1)
  = (if truthy_path (new_wave_of self w) then new_wave_of self w else None).
Proof.
  intros Hfresh Htype. rewrite generate_stages. cbv zeta. simpl fst.
  set (last := wave_step (thumbed self w).1 (clip_dir_of self w) (thumbed self w).2).
  destruct (attached_keeps last.1) as (_ & A2 & _).
  unfold emit. simpl clip. rewrite A2.
  destruct (thumbs_step_keeps (proxied self w).1 (clip_dir_of self w) (proxied self w).2)
    as [[t T] _].
  fold (thumbed self w) in T.
  assert (P : clip (proxied self w).1
              = set_preview_dir (clip self) (Some (clip_dir_of self w))).
  { unfold proxied. rewrite proxy_step_clip. reflexivity. }
  rewrite P in T.
  unfold last. rewrite wave_step_fresh.
  - unfold new_wave_of. rewrite T. reflexivity.
  - rewrite T. exact Hfresh.
  - rewrite T. exact Htype.
Qed.

Lemma generate_signals self w :
  exists c, signals (generate self w).1 = signals self ++ [done c].
Proof.
  rewrite generate_stages. cbv zeta. simpl fst.
  set (last := wave_step (thumbed self w).1 (clip_dir_of self w) (thumbed self w).2).
  destruct (attached_keeps last.1) as (_ & _ & _ & _ & A5).
  destruct (wave_step_keeps (thumbed self w).1 (clip_dir_of self w) (thumbed self w).2)
    as (_ & _ & _ & W4).
  fold last in W4.
  destruct (thumbs_step_keeps (proxied self w).1 (clip_dir_of self w) (proxied self w).2)
    as [_ T4].
  fold (thumbed self w) in T4.
  eexists. unfold emit. simpl signals. rewrite A5, W4, T4.
  unfold proxied. rewrite proxy_step_keeps. reflexivity.
Qed.

(** The worker after the lookups: what each lookup did to the clip. *)
Lemma looked_up_wave self w :
  waveform_path (clip (looked_up self w))
  = match wave_cache self !! path (media (clip self)) with
    | Some cw => if os_path_exists cw w then Some cw else waveform_path (clip self)
    | None => waveform_path (clip self)
    end.
Proof.
  unfold looked_up, check_thumbs_cache, check_wave_cache. simpl.
  destruct (wave_cache self !! path (media (clip self))) as [cw |]; simpl.
  - destruct (os_path_exists cw w); simpl;
      destruct (thumbs_cache self !! path (media (clip self))) as [ct |]; simpl;
      try reflexivity;
      destruct (forallb _ ct); reflexivity.
  - destruct (thumbs_cache self !! path (media (clip self))) as [ct |]; simpl;
      try reflexivity.
    destruct (forallb _ ct); reflexivity.
Qed.

Lemma looked_up_thumbs self w :
  thumb_paths (clip (looked_up self w))
  = match thumbs_cache self !! path (media (clip self)) with
    | Some ct =>
        if forallb (fun p => os_path_exists p w) ct then ct else thumb_paths (clip self)
    | None => thumb_paths (clip self)
    end.
Proof.
  unfold looked_up, check_thumbs_cache, check_wave_cache. simpl.
  destruct (wave_cache self !! path (media (clip self))) as [cw |]; simpl.
  - destruct (os_path_exists cw w); simpl;
      destruct (thumbs_cache self !! path (media (clip self))) as [ct |]; simpl;
      try reflexivity;
      destruct (forallb _ ct); reflexivity.
  - destruct (thumbs_cache self !! path (media (clip self))) as [ct |]; simpl;
      try reflexivity.
    destruct (forallb _ ct); reflexivity.
Qed.

Lemma looked_up_rest self w :
  media (clip (looked_up self w)) = media (clip self)
  /\ signals (looked_up self w) = signals self ++ [started (clip self)]
  /\ temp_root (looked_up self w) = temp_root self.
Proof.
  unfold looked_up, check_thumbs_cache, check_wave_cache. simpl.
  destruct (wave_cache self !! path (media (clip self))) as [cw |]; simpl.
  - destruct (os_path_exists cw w); simpl;
      destruct (thumbs_cache self !! path (media (clip self))) as [ct |]; simpl;
      try (repeat split; reflexivity);
      destruct (forallb _ ct); repeat split; reflexivity.
  - destruct (thumbs_cache self !! path (media (clip self))) as [ct |]; simpl;
      try (repeat split; reflexivity).
    destruct (forallb _ ct); repeat split; reflexivity.
Qed.

Lemma run_looked_up self w :
  run self w
  = if truthy_path (waveform_path (clip (looked_up self w)))
       && Py.truthy_list (thumb_paths (clip (looked_up self w)))
    then (emit (looked_up self w) (done (clip (looked_up self w))), w)
    else generate (looked_up self w) w.
Proof. reflexivity. Qed.

(** For a worker whose clip holds no artifacts yet: a cached
    thumbnail list is attached to the clip only if every file of it exists,
    and a cached waveform only if its file exists; when a cached file is
    missing, the lookup attaches nothing, the run goes on to generate, the
    thumbnails (and, for a video or audio file, the waveform) are what the
    generators return for the directory the run makes, and the run ends by
    emitting [done]. *)
Lemma cache_reuse_requires_files (self : Worker) (w : World) :
  thumb_paths (clip self) = [] -> waveform_path (clip self) = None ->
  let key := path (media (clip self)) in
  let found := looked_up self w in
  (forall ct, thumbs_cache self !! key = Some ct ->
     (ct <> [] -> thumb_paths (clip found) = ct ->
      forallb (fun p => os_path_exists p w) ct = true)
     /\ (forallb (fun p => os_path_exists p w) ct = false ->
         thumb_paths (clip found) = []
         /\ run self w = generate found w
         /\ thumb_paths (clip (run self w).1) = new_thumbs_of found w
         /\ preview_dir (clip (run self w).1) = Some (clip_dir_of found w)
         /\ clip_dir_of found w
            = os_path_join (temp_root self) ("clip_" +:+ (uuid4_hex w).1)))
  /\ (forall cw, wave_cache self !! key = Some cw ->
        (waveform_path (clip found) = Some cw -> os_path_exists cw w = true)
        /\ (os_path_exists cw w = false ->
            waveform_path (clip found) = None
            /\ run self w = generate found w
            /\ (type (media (clip self)) = video \/ type (media (clip self)) = audio ->
                waveform_path (clip (run self w).1)
                = (if truthy_path (new_wave_of found w)
                   then new_wave_of found w else None))))
  /\ (forall ct cw,
        thumbs_cache self !! key = Some ct -> wave_cache self !! key = Some cw ->
        forallb (fun p => os_path_exists p w) ct = true ->
        os_path_exists cw w = true -> ct <> [] -> cw <> "" ->
        run self w = (emit found (done (clip found)), w)
        /\ thumb_paths (clip found) = ct /\ waveform_path (clip found) = Some cw)
  /\ (exists c, signals (run self w).1 = signals self ++ [started (clip self); done c]).
Proof.
  intros Hthumbs Hwave key found.
  pose proof (looked_up_thumbs self w) as LT.
  pose proof (looked_up_wave self w) as LW.
  destruct (looked_up_rest self w) as (LM & LS & LR).
  fold found in LT, LW, LM, LS, LR. fold key in LT, LW.
  rewrite Hthumbs in LT. rewrite Hwave in LW.
  split; [| split; [| split]].
  - intros ct Hct. rewrite Hct in LT. split.
    + intros Hne Hreuse.
      destruct (forallb (fun p => os_path_exists p w) ct); [reflexivity |].
      rewrite LT in Hreuse. symmetry in Hreuse. contradiction.
    + intros Hmiss. rewrite Hmiss in LT.
      assert (R : run self w = generate found w).
      { rewrite run_looked_up. fold found. rewrite LT. simpl Py.truthy_list.
        rewrite andb_false_r. reflexivity. }
      destruct (generate_thumbs found w LT) as (G1 & G2 & _).
      rewrite R. repeat split; try assumption.
      unfold clip_dir_of, make_clip_dir. rewrite LR.
      destruct (uuid4_hex w) as [hex w1]. reflexivity.
  - intros cw Hcw. rewrite Hcw in LW. split.
    + intros Hreuse. destruct (os_path_exists cw w); [reflexivity |].
      rewrite LW in Hreuse. discriminate Hreuse.
    + intros Hmiss. rewrite Hmiss in LW.
      assert (R : run self w = generate found w).
      { rewrite run_looked_up. fold found. rewrite LW. reflexivity. }
      split; [exact LW |]. split; [exact R |].
      intros Htype. rewrite R. apply generate_wave; [exact LW |].
      rewrite LM. exact Htype.
  - intros ct cw Hct Hcw Hall Hex Hne Hcwne.
    rewrite Hct, Hall in LT. rewrite Hcw, Hex in LW.
    split; [| split; assumption].
    rewrite run_looked_up. fold found. rewrite LT, LW. simpl truthy_path.
    assert (T1 : Py.truthy_str cw = true).
    { unfold Py.truthy_str. apply negb_true_iff, String.eqb_neq, Hcwne. }
    assert (T2 : Py.truthy_list ct = true) by (destruct ct; [contradiction | reflexivity]).
    rewrite T1, T2. reflexivity.
  - rewrite run_looked_up. fold found.
    destruct (_ && _).
    + eexists. unfold emit. simpl signals. rewrite LS, <- app_assoc. reflexivity.
    + destruct (generate_signals found w) as [c Hc].
      exists c. rewrite Hc, LS, <- app_assoc. reflexivity.
Qed.

End PreviewCache.

Lemma cache_reuse_requires_files_witness :
  thumb_paths (PreviewWorker.clip (@PreviewWorker.run quiet_runtime stale_worker []).1)
  = @new_thumbs_of quiet_runtime (@looked_up quiet_runtime stale_worker []) []
  /\ preview_dir (PreviewWorker.clip (@PreviewWorker.run quiet_runtime stale_worker []).1)
     = Some "/tmp/previews/clip_0"
  /\ thumb_paths (PreviewWorker.clip (@PreviewWorker.run quiet_runtime stale_worker []).1)
     = ["/tmp/previews/clip_0/thumb_00.jpg"; "/tmp/previews/clip_0/thumb_01.jpg";
        "/tmp/previews/clip_0/thumb_02.jpg"; "/tmp/previews/clip_0/thumb_03.jpg";
        "/tmp/previews/clip_0/thumb_04.jpg"; "/tmp/previews/clip_0/thumb_05.jpg"].
Proof.
  pose proof (@cache_reuse_requires_files quiet_runtime
                stale_worker [] eq_refl eq_refl) as (Hthumbs & _).
  destruct (Hthumbs ["/tmp/old/thumb_00.jpg"] ltac:(vm_compute; reflexivity))
    as (_ & Hmiss).
  destruct (Hmiss ltac:(vm_compute; reflexivity)) as (_ & _ & G1 & G2 & G3).
  split; [exact G1 |]. split.
  - rewrite G2, G3. vm_compute. reflexivity.
  - vm_compute. reflexivity.
Defined.

(* ===================================================================== *)
(** * Further properties: durations, persistence, escapes                 *)
(* ===================================================================== *)

(** X1. The effective duration never goes below 0.2 s, whatever the clip,
    and a faster positive speed never lengthens it. *)
Theorem duration_effective_antitone (c : TimelineClip) (v1 v2 : Q) :
  0 < v1 -> v1 <= v2 ->
  0.2 <= Models.duration_effective (with_speed c v2)
  /\ Models.duration_effective (with_speed c v2)
     <= Models.duration_effective (with_speed c v1).
Proof.
  intros H1 H12. split; [apply duration_effective_lower |].
  rewrite !duration_effective_base.
  change (base_duration (with_speed c v2)) with (base_duration c).
  change (base_duration (with_speed c v1)) with (base_duration c).
  change (speed (with_speed c v2)) with v2.
  change (speed (with_speed c v1)) with v1.
  assert (E1 : Py.leb v1 0 = false) by (apply Py_leb_gt; lra).
  assert (E2 : Py.leb v2 0 = false) by (apply Py_leb_gt; lra).
  rewrite E1, E2.
  apply Q.max_le_compat_l.
  pose proof (base_duration_lower c) as Hb.
  apply Qle_shift_div_r; [lra |].
  assert (D : base_duration c / v1 * v2 == base_duration c * (v2 / v1))
    by (field; lra).
  rewrite D.
  assert (R : 1 <= v2 / v1) by (apply Qle_shift_div_l; lra).
  assert (M : base_duration c * 1 <= base_duration c * (v2 / v1)).
  { apply Qmult_le_l; lra. }
  lra.
Qed.

Lemma duration_effective_antitone_witness :
  0.2 <= Models.duration_effective (with_speed demo_clip 4.0)
  /\ Models.duration_effective (with_speed demo_clip 4.0)
     <= Models.duration_effective (with_speed demo_clip 2.0).
Proof.
  apply (duration_effective_antitone demo_clip 2.0 4.0).
  - vm_compute. reflexivity.
  - vm_compute. discriminate.
Defined.

Section RoundTrip.
Context `{Runtime}.

Lemma get_int_inject data k d z :
  data !! k = Some (JNum (inject_Z z)) -> Models.get_int data k d = Some z.
Proof.
  intros E. unfold Models.get_int. rewrite E, Qfloor_Z.
  assert (T : Qeq_bool (inject_Z z) (inject_Z z) = true)
    by (apply Qeq_bool_iff; reflexivity).
  rewrite T. reflexivity.
Qed.

Lemma int_float_inject z : Py.int_float (inject_Z z) = z.
Proof.
  unfold Py.int_float. destruct (Py.ltb (inject_Z z) 0).
  - apply Qceiling_Z.
  - apply Qfloor_Z.
Qed.

(** X2. A clip written by [to_dict] and read back by [from_dict], its media
    being in the library, is the clip again: the media found by path, the
    trim window, title, title size and position, LUT, transition, track,
    proxy path and speed as they were; the derived artifacts are empty; and
    its effective duration is unchanged when the media found is its own. *)
Theorem from_dict_to_dict (c : TimelineClip) (media_items : list MediaItem)
    (m : MediaItem) (o : nat) (w : World) :
  List.find (fun x => String.eqb (path x) (path (media c))) media_items = Some m ->
  let c' :=
    {| oid := o; media := m; start := start c; end_ := end_ c;
       title := title c; title_size := title_size c; title_pos := title_pos c;
       lut := lut c; transition := transition c; track := track c;
       speed := speed c;
       preview_dir := None; thumb_paths := []; waveform_path := None;
       proxy_path := proxy_path c; effect_preview_path := None |} in
  Models.from_dict o (Persist.to_dict c) media_items w = (FdClip c', w)
  /\ (m = media c -> Models.duration_effective c' = Models.duration_effective c).
Proof.
  intros Hfind c'. split.
  - unfold Models.from_dict.
    assert (K : Persist.to_dict c !! "media_path" = Some (JStr (path (media c))))
      by reflexivity.
    rewrite K, Hfind. f_equal.
    unfold Models.clip_of_record.
    assert (K1 : Models.get_float (Persist.to_dict c) "start" 0.0 = Some (start c))
      by reflexivity.
    assert (K2 : Models.get_opt_float (Persist.to_dict c) "end" = Some (end_ c))
      by (unfold Models.get_opt_float;
          change (Persist.to_dict c !! "end")
            with (Some (Persist.json_of_opt_float (end_ c)));
          destruct (end_ c); reflexivity).
    assert (K3 : Models.get_str (Persist.to_dict c) "title" "" = Some (title c))
      by reflexivity.
    assert (K4 : Models.get_int (Persist.to_dict c) "title_size" 36
                 = Some (title_size c))
      by (apply get_int_inject; reflexivity).
    assert (K5 : Models.get_str (Persist.to_dict c) "title_pos" "(w-text_w)/2"
                 = Some (title_pos c)) by reflexivity.
    assert (K6 : Models.get_str (Persist.to_dict c) "lut" "none" = Some (lut c))
      by reflexivity.
    assert (K7 : Models.get_str (Persist.to_dict c) "transition" "none"
                 = Some (transition c)) by reflexivity.
    assert (K8 : Models.get_opt_str (Persist.to_dict c) "proxy_path"
                 = Some (proxy_path c))
      by (unfold Models.get_opt_str;
          change (Persist.to_dict c !! "proxy_path")
            with (Some (Persist.json_of_opt_str (proxy_path c)));
          destruct (proxy_path c); reflexivity).
    assert (K9 : Models.get_track (Persist.to_dict c) = Some (track c)).
    { unfold Models.get_track.
      change (Persist.to_dict c !! "track") with (Some (JNum (inject_Z (track c)))).
      cbv beta iota. rewrite int_float_inject. reflexivity. }
    assert (K10 : Persist.to_dict c !! "speed" = Some (JNum (speed c)))
      by reflexivity.
    rewrite K1, K2, K3, K4, K5, K6, K7, K8, K9, K10. reflexivity.
  - intros ->. reflexivity.
Qed.

End RoundTrip.

Lemma from_dict_to_dict_witness :
  (@Models.from_dict quiet_runtime 9 (Persist.to_dict demo_clip) [demo_media] []).1
  = FdClip
      {| oid := 9; media := demo_media; start := 2.0; end_ := Some 8.0;
         title := ""; title_size := 36; title_pos := "(w-text_w)/2";
         lut := "none"; transition := "none"; track := 0; speed := 2.0;
         preview_dir := None; thumb_paths := []; waveform_path := None;
         proxy_path := None; effect_preview_path := None |}.
Proof.
  pose proof (@from_dict_to_dict quiet_runtime demo_clip [demo_media] demo_media 9 []
                eq_refl) as [E _].
  rewrite E. reflexivity.
Defined.

Section TempoRange.
Import Atempo.

Lemma while_gt_2_stop n chain r :
  r <= 2 -> while_gt_2 (S n) chain r = Some (chain, r).
Proof.
  intros Hr. simpl.
  assert (E : Py.ltb 2.0 r = false) by (apply Py_ltb_ge; lra).
  rewrite E. reflexivity.
Qed.

Lemma while_lt_half_stop n chain r :
  0.5 <= r -> while_lt_half (S n) chain r = Some (chain, r).
Proof.
  intros Hr. simpl.
  assert (E : Py.ltb r 0.5 = false) by (apply Py_ltb_ge; lra).
  rewrite E. reflexivity.
Qed.

Lemma enough_fuel_two v : exists n, enough_fuel v = S (S n).
Proof.
  unfold enough_fuel.
  destruct (Qden v) as [p | p |]; simpl Pos.size_nat;
    rewrite ?Nat.add_succ_r; eexists; reflexivity.
Qed.

(** X3. Over the range of the speed spin box, 0.25 to 4.0, the tempo
    chain has at most two stages: the speed alone when it is within
    [0.5, 2.0], one 2.0 stage and half the speed above 2.0, one 0.5 stage
    and twice the speed below 0.5. *)
Theorem atempo_chain_over_spin_range (v : Q) :
  0.25 <= v -> v <= 4.0 ->
  (0.5 <= v -> v <= 2.0 -> stages v = [atempo_fmt v])
  /\ (2.0 < v -> stages v = [atempo_2_0; atempo_fmt (v / 2.0)])
  /\ (v < 0.5 -> stages v = [atempo_0_5; atempo_fmt (v * 2.0)])
  /\ (length (stages v) <= 2)%nat.
Proof.
  intros Hlo Hhi.
  destruct (enough_fuel_two v) as [n Hn].
  assert (G : Py.leb v 0 = false) by (apply Py_leb_gt; lra).
  assert (A : 0.5 <= v -> v <= 2.0 -> stages v = [atempo_fmt v]).
  { intros H1 H2. unfold stages, stages_fuel. rewrite Hn, G.
    rewrite while_gt_2_stop by lra. rewrite while_lt_half_stop by lra.
    reflexivity. }
  assert (B : 2.0 < v -> stages v = [atempo_2_0; atempo_fmt (v / 2.0)]).
  { intros H1. unfold stages, stages_fuel. rewrite Hn, G.
    assert (E : Py.ltb 2.0 v = true) by (apply Py_ltb_lt; exact H1).
    assert (Hh : v / 2.0 <= 2 /\ 0.5 <= v / 2.0).
    { split; [apply Qle_shift_div_r | apply Qle_shift_div_l]; lra. }
    change (while_gt_2 (S (S n)) [] v)
      with (if Py.ltb 2.0 v
            then while_gt_2 (S n) ([] ++ [atempo_2_0]) (v / 2.0)
            else Some ([], v)).
    rewrite E, while_gt_2_stop by apply Hh.
    rewrite while_lt_half_stop by apply Hh. reflexivity. }
  assert (C : v < 0.5 -> stages v = [atempo_0_5; atempo_fmt (v * 2.0)]).
  { intros H1. unfold stages, stages_fuel. rewrite Hn, G.
    rewrite while_gt_2_stop by lra.
    assert (E : Py.ltb v 0.5 = true) by (apply Py_ltb_lt; exact H1).
    change (while_lt_half (S (S n)) [] v)
      with (if Py.ltb v 0.5
            then while_lt_half (S n) ([] ++ [atempo_0_5]) (v * 2.0)
            else Some ([], v)).
    rewrite E, while_lt_half_stop by lra. reflexivity. }
  split; [exact A | split; [exact B | split; [exact C |]]].
  destruct (Qlt_le_dec 2.0 v) as [H1 | H1]; [rewrite B by exact H1; simpl; lia |].
  destruct (Qlt_le_dec v 0.5) as [H2 | H2]; [rewrite C by exact H2; simpl; lia |].
  rewrite A by assumption. simpl; lia.
Qed.

End TempoRange.

Lemma atempo_chain_over_spin_range_witness :
  Atempo.stages 3.0 = [atempo_2_0; atempo_fmt (3.0 / 2.0)]
  /\ Atempo.atempo_chain 3.0 = "atempo=2.0,atempo=1.500000".
Proof.
  split.
  - apply (atempo_chain_over_spin_range 3.0);
      vm_compute; first [reflexivity | discriminate].
  - vm_compute. reflexivity.
Defined.

(* ===================================================================== *)
(** * Escapes                                                             *)
(* ===================================================================== *)

Lemma quotes_escaped_replace s : forall prev,
  quotes_escaped prev (Py.replace_char "'" "\'" s) = true.
Proof.
  induction s as [|a rest IH]; intros prev; simpl.
  - reflexivity.
  - destruct (Ascii.eqb a "'") eqn:E.
    + simpl. rewrite IH. destruct (Ascii.eqb prev "\"); reflexivity.
    + simpl. rewrite E. apply IH.
Qed.

Lemma replace_char_absent c by_ s :
  count_char c s = 0%nat -> Py.replace_char c by_ s = s.
Proof.
  induction s as [|a rest IH]; simpl; [reflexivity |].
  destruct (Ascii.eqb a c); [discriminate |]. intros Hc. rewrite IH by exact Hc.
  reflexivity.
Qed.

Lemma length_append s t :
  String.length (s +:+ t) = (String.length s + String.length t)%nat.
Proof. induction s as [|a s IH]; simpl; [reflexivity | rewrite IH; reflexivity]. Qed.

Lemma count_char_append c s t :
  count_char c (s +:+ t) = (count_char c s + count_char c t)%nat.
Proof.
  induction s as [|a s IH]; simpl; [reflexivity |]. rewrite IH. lia.
Qed.

Lemma length_escaped_title s :
  String.length (Py.replace_char "'" "\'" s)
  = (String.length s + count_char "'" s)%nat.
Proof.
  induction s as [|a rest IH]; [reflexivity |].
  cbn [Py.replace_char count_char String.length].
  destruct (Ascii.eqb a "'").
  - change (String.length ("\'" +:+ Py.replace_char "'" "\'" rest))
      with (S (S (String.length (Py.replace_char "'" "\'" rest)))).
    rewrite IH. lia.
  - cbn [String.length]. rewrite IH. lia.
Qed.

(** X4. The title text of the [drawtext] stage has every apostrophe right
    after a backslash; it is one character longer per apostrophe of the
    title, and a title without apostrophes is written as it is. *)
Theorem title_text_is_escaped (clip : TimelineClip) :
  let text_esc := Py.replace_char "'" "\'" (title clip) in
  (title clip <> "" ->
   ExportPy.title_filters clip
   = ["drawtext=text='" +:+ text_esc +:+ "':fontcolor=white:"
      +:+ "fontsize=" +:+ Py.str_int (title_size clip) +:+ ":x=" +:+ title_pos clip +:+ ":"
      +:+ "y=(h-" +:+ Py.str_int (title_size clip)
      +:+ "-40):shadowcolor=black:shadowx=2:shadowy=2"])
  /\ (title clip = "" -> ExportPy.title_filters clip = [])
  /\ quotes_escaped "'" text_esc = true
  /\ String.length text_esc
     = (String.length (title clip) + count_char "'" (title clip))%nat
  /\ (count_char "'" (title clip) = 0%nat -> text_esc = title clip).
Proof.
  cbv zeta. split; [| split; [| split; [| split]]].
  - intros Hne. unfold ExportPy.title_filters, Py.truthy_str.
    apply String.eqb_neq in Hne. rewrite Hne. reflexivity.
  - intros E. unfold ExportPy.title_filters, Py.truthy_str. rewrite E. reflexivity.
  - apply quotes_escaped_replace.
  - apply length_escaped_title.
  - apply replace_char_absent.
Qed.

Lemma replace_backslash_count s :
  count_char "\" (Py.replace_char "\" "/" s) = 0%nat
  /\ count_char "'" (Py.replace_char "\" "/" s) = count_char "'" s
  /\ String.length (Py.replace_char "\" "/" s) = String.length s.
Proof.
  induction s as [|a rest (IH1 & IH2 & IH3)]; [repeat split; reflexivity |].
  cbn [Py.replace_char]. destruct (Ascii.eqb a "\") eqn:E.
  - rewrite !count_char_append, length_append, IH1, IH2, IH3.
    apply Ascii.eqb_eq in E. subst a. repeat split; reflexivity.
  - cbn [count_char String.length]. rewrite E, IH1, IH2, IH3.
    repeat split; reflexivity.
Qed.

Lemma replace_quote_count s :
  count_char "\" (Py.replace_char "'" "'\''" s)
  = (count_char "\" s + count_char "'" s)%nat
  /\ String.length (Py.replace_char "'" "'\''" s)
     = (String.length s + 3 * count_char "'" s)%nat.
Proof.
  induction s as [|a rest (IH1 & IH2)]; [split; reflexivity |].
  cbn [Py.replace_char]. destruct (Ascii.eqb a "'") eqn:E.
  - rewrite count_char_append, length_append, IH1, IH2.
    apply Ascii.eqb_eq in E. subst a.
    change (count_char "\" "'\''") with 1%nat.
    change (String.length "'\''") with 4%nat.
    cbn [count_char String.length].
    change (Ascii.eqb "'" "\") with false. change (Ascii.eqb "'" "'") with true.
    split; lia.
  - cbn [count_char String.length]. rewrite E, IH1, IH2. split; lia.
Qed.

(** X5. [safe_path_for_concat] turns every backslash of the path into a
    slash and writes each apostrophe as four characters of which one is a
    backslash: the result has as many backslashes as the path has
    apostrophes, and a path with neither is returned as it is. *)
Theorem safe_path_for_concat_counts (p : string) :
  count_char "\" (Utils.safe_path_for_concat p) = count_char "'" p
  /\ String.length (Utils.safe_path_for_concat p)
     = (String.length p + 3 * count_char "'" p)%nat
  /\ (count_char "\" p = 0%nat -> count_char "'" p = 0%nat ->
      Utils.safe_path_for_concat p = p).
Proof.
  unfold Utils.safe_path_for_concat.
  destruct (replace_backslash_count p) as (B1 & B2 & B3).
  destruct (replace_quote_count (Py.replace_char "\" "/" p)) as (Q1 & Q2).
  split; [| split].
  - rewrite Q1, B1, B2. reflexivity.
  - rewrite Q2, B2, B3. reflexivity.
  - intros H1 H2.
    rewrite (replace_char_absent "\" "/" p H1).
    apply replace_char_absent, H2.
Qed.

(* ===================================================================== *)
(** * format_time                                                         *)
(* ===================================================================== *)

Lemma Qfloor_unique (z : Z) (x : Q) :
  inject_Z z <= x -> x < inject_Z (z + 1) -> Qfloor x = z.
Proof.
  intros Hlo Hhi.
  assert (H1 : (z <= Qfloor x)%Z).
  { rewrite <- (Qfloor_Z z). apply Qfloor_resp_le, Hlo. }
  assert (H2 : (Qfloor x < z + 1)%Z).
  { rewrite Zlt_Qlt. pose proof (Qfloor_le x). lra. }
  lia.
Qed.

(** X6. [format_time] splits the seconds into minutes and seconds of the
    minute: the seconds part is between 0 and 59, sixty times the minutes
    plus the seconds part is the whole number of seconds (rounded down),
    and the minutes are not negative when the time is not. *)
Theorem format_time_parts (seconds : Q) :
  (0 <= FormatTime.secs seconds <= 59)%Z
  /\ (60 * FormatTime.minutes seconds + FormatTime.secs seconds = Qfloor seconds)%Z
  /\ (0 <= seconds -> (0 <= FormatTime.minutes seconds)%Z).
Proof.
  unfold FormatTime.secs, FormatTime.minutes, FormatTime.pymod, FormatTime.floordiv.
  set (m := Qfloor (seconds / 60)).
  rewrite int_float_inject.
  pose proof (Qfloor_le (seconds / 60)) as Hlo.
  pose proof (Qlt_floor (seconds / 60)) as Hhi.
  fold m in Hlo, Hhi. rewrite inject_Z_plus in Hhi. change (inject_Z 1) with 1 in Hhi.
  assert (D : seconds / 60 * 60 == seconds) by field.
  set (q := seconds / 60) in *.
  set (r := seconds - 60 * inject_Z m).
  assert (R0 : 0 <= r) by (unfold r; lra).
  assert (R60 : r < 60) by (unfold r; lra).
  assert (I : Py.int_float r = Qfloor r).
  { unfold Py.int_float.
    assert (E : Py.ltb r 0 = false) by (apply Py_ltb_ge; exact R0).
    rewrite E. reflexivity. }
  rewrite I.
  pose proof (Qfloor_le seconds) as Slo. pose proof (Qlt_floor seconds) as Shi.
  rewrite inject_Z_plus in Shi. change (inject_Z 1) with 1 in Shi.
  assert (F : Qfloor r = (Qfloor seconds + - (60 * m))%Z).
  { apply Qfloor_unique.
    - rewrite inject_Z_plus, inject_Z_opp, inject_Z_mult. change (inject_Z 60) with 60.
      unfold r. lra.
    - rewrite !inject_Z_plus, inject_Z_opp, inject_Z_mult.
      change (inject_Z 60) with 60. change (inject_Z 1) with 1. unfold r. lra. }
  assert (B : (0 <= Qfloor r <= 59)%Z).
  { split.
    - rewrite <- (Qfloor_Z 0). apply Qfloor_resp_le. exact R0.
    - assert (L : (Qfloor r < 60)%Z).
      { rewrite Zlt_Qlt. pose proof (Qfloor_le r). change (inject_Z 60) with 60. lra. }
      lia. }
  split; [exact B |]. split; [rewrite F; lia |].
  intros Hs.
  rewrite <- (Qfloor_Z 0). apply Qfloor_resp_le.
  change (inject_Z 0) with 0. unfold q. apply Qle_shift_div_l; lra.
Qed.

Example format_time_125 : FormatTime.format_time 125.7 = "02:05".
Proof. vm_compute. reflexivity. Qed.

(* ===================================================================== *)
(** * The export pipeline, when it succeeds                               *)
(* ===================================================================== *)

Section ExportSuccess.
Context `{Runtime}.
Import ExportPy.

Lemma bind_ok {A B} (m : M A) (f : A -> M B) st b st' :
  (m ≫= f) st = (Ok b, st') ->
  exists a s1, m st = (Ok a, s1) /\ f a s1 = (Ok b, st').
Proof.
  unfold mbind, M_bind. destruct (m st) as [[a | msg] s1]; intros E.
  - exists a, s1. split; [reflexivity | exact E].
  - discriminate E.
Qed.


(** A checked run that returns: the run exited 0. *)
Lemma run_check_ok {A} cmd stage (k : M A) st b st' :
  ('(code, _, err) ← run_cmd cmd;
   if code_ne_0 code then raise (stage +:+ err) else k) st = (Ok b, st') ->
  exists err w,
    k {| self := self st; world := w; trace := trace st ++ [EvRun cmd 0%Z err] |}
    = (Ok b, st').
Proof.
  unfold mbind, M_bind.
  destruct (run_cmd_run cmd st) as (code & out & err & w & ->).
  cbv beta iota zeta. unfold code_ne_0.
  destruct (Z.eqb_spec code 0) as [-> | Hne]; cbn [negb].
  - intros E. exists err, w. exact E.
  - discriminate.
Qed.

Lemma last_render_cmd lut_dir w clip output_path :
  last (render_cmd lut_dir w clip output_path) = Some output_path.
Proof.
  unfold render_cmd, codec_args.
  rewrite !app_assoc.
  change ["-c:v"; "libx264"; "-preset"; FFmpegConfig.PRESET; "-crf";
          Py.str_int FFmpegConfig.CRF; "-c:a"; "aac"; "-b:a";
          FFmpegConfig.AUDIO_BITRATE; output_path]
    with (["-c:v"; "libx264"; "-preset"; FFmpegConfig.PRESET; "-crf";
           Py.str_int FFmpegConfig.CRF; "-c:a"; "aac"; "-b:a";
           FFmpegConfig.AUDIO_BITRATE] ++ [output_path]).
  rewrite app_assoc. apply last_snoc.
Qed.

Lemma render_single_clip_ok clip output_path st u st' :
  _render_single_clip clip output_path st = (Ok u, st') ->
  self st' = self st
  /\ exists e, trace st' = trace st ++ [e] /\ runs_to output_path e.
Proof.
  unfold _render_single_clip. intros E.
  apply bind_ok in E as (this & s1 & E1 & E). injection E1 as <- <-.
  apply bind_ok in E as (cmd & s2 & E2 & E). injection E2 as <- <-.
  apply run_check_ok in E as (err & w & E). injection E as _ <-.
  split; [reflexivity |]. eexists. split; [reflexivity |].
  split; [reflexivity | apply last_render_cmd].
Qed.

Lemma render_loop_ok temp_dir clips : forall idx rendered st l st',
  render_loop temp_dir idx clips rendered st = (Ok l, st') ->
  l = rendered ++ map (clip_file temp_dir) (seq idx (length clips))
  /\ self st' = self st
  /\ exists evs,
       trace st' = trace st ++ evs
       /\ Forall2 runs_to (map (clip_file temp_dir) (seq idx (length clips))) evs.
Proof.
  induction clips as [|clip rest IH]; intros idx rendered st l st' E; simpl in E.
  - injection E as <- <-. simpl. rewrite app_nil_r.
    split; [reflexivity | split; [reflexivity |]].
    exists []. rewrite app_nil_r. split; [reflexivity | constructor].
  - apply bind_ok in E as (u & s1 & E1 & E).
    apply render_single_clip_ok in E1 as (S1 & e & T1 & R1).
    apply IH in E as (-> & S2 & evs & T2 & R2).
    split; [rewrite <- app_assoc; reflexivity |].
    split; [congruence |].
    exists (e :: evs). split.
    + rewrite T2, T1, <- app_assoc. reflexivity.
    + simpl. constructor; assumption.
Qed.

(** X7. When [_render_all_clips] returns, it has run the tool once per
    clip of the timeline, in order, each run exiting 0 with the file
    [clip_<index>.mp4] of the temporary directory as its output, and it
    returns these files in the order of the timeline. *)
Theorem render_all_clips_files (temp_dir : string) (st st' : State) (l : list string) :
  _render_all_clips temp_dir st = (Ok l, st') ->
  l = map (clip_file temp_dir) (seq 0 (length (timeline (self st))))
  /\ length l = length (timeline (self st))
  /\ exists evs, trace st' = trace st ++ evs /\ Forall2 runs_to l evs.
Proof.
  unfold _render_all_clips. intros E.
  apply bind_ok in E as (this & s1 & E1 & E). injection E1 as <- <-.
  apply render_loop_ok in E as (-> & _ & evs & T & R).
  split; [reflexivity |]. split.
  - simpl. rewrite length_map, length_seq. reflexivity.
  - exists evs. split; [exact T | exact R].
Qed.

(** The fold reads the transitions of the clips before index [i + length
    rest - 1] only. *)
Lemma fold_cmds_prefix temp_dir pre tail1 tail2 rest : forall i current,
  (1 <= i)%nat -> (i - 1 + length rest <= length pre)%nat ->
  fold_cmds temp_dir (pre ++ tail1) i rest current
  = fold_cmds temp_dir (pre ++ tail2) i rest current.
Proof.
  induction rest as [|next_clip rest IH]; intros i current Hi Hlen; simpl.
  - reflexivity.
  - simpl in Hlen.
    assert (T : transition_name (pre ++ tail1) i = transition_name (pre ++ tail2) i).
    { unfold transition_name.
      rewrite !(nth_error_app1 pre) by lia. reflexivity. }
    rewrite T. f_equal. apply IH; lia.
Qed.

(** X8. The transition of the last clip is never read: the commands of the
    fold over the rendered clips of a timeline are the same whatever the
    last clip is. *)
Theorem last_transition_is_unused (temp_dir : string) (pre : list TimelineClip)
    (last1 last2 : TimelineClip) (current : string) (rest : list string) :
  length rest = length pre ->
  fold_cmds temp_dir (pre ++ [last1]) 1 rest current
  = fold_cmds temp_dir (pre ++ [last2]) 1 rest current.
Proof.
  intros Hlen. apply fold_cmds_prefix; lia.
Qed.




End ExportSuccess.

Lemma render_all_clips_files_witness :
  (@ExportPy._render_all_clips quiet_runtime "/tmp/x" (two_clip_export None)).1
  = Ok ["/tmp/x/clip_0.mp4"; "/tmp/x/clip_1.mp4"]
  /\ length ["/tmp/x/clip_0.mp4"; "/tmp/x/clip_1.mp4"] = 2%nat.
Proof.
  assert (E1 : (@ExportPy._render_all_clips quiet_runtime "/tmp/x"
                  (two_clip_export None)).1
               = Ok ["/tmp/x/clip_0.mp4"; "/tmp/x/clip_1.mp4"])
    by (vm_compute; reflexivity).
  split; [exact E1 |].
  refine (proj1 (proj2 (@render_all_clips_files quiet_runtime "/tmp/x"
                          (two_clip_export None)
                          (@ExportPy._render_all_clips quiet_runtime "/tmp/x"
                             (two_clip_export None)).2 _ _))).
  rewrite <- E1. apply surjective_pairing.
Defined.

Lemma last_transition_is_unused_witness :
  @fold_cmds quiet_runtime "/tmp/x" [demo_clip; demo_clip] 1 ["b.mp4"] "a.mp4"
  = @fold_cmds quiet_runtime "/tmp/x" [demo_clip; whole_clip 1.0] 1 ["b.mp4"] "a.mp4".
Proof.
  exact (@last_transition_is_unused quiet_runtime "/tmp/x" [demo_clip]
           demo_clip (whole_clip 1.0) "a.mp4" ["b.mp4"] eq_refl).
Defined.


(* ===================================================================== *)
(** * The sequencer, there and back                                       *)
(* ===================================================================== *)

Section SequencerRoundTrip.
Import MainWindow.

Lemma clip_at_loop_hit pre : forall t sec c post,
  t + total_duration pre <= sec ->
  sec < t + total_duration pre + Models.duration_effective c ->
  exists local,
    clip_at_loop (pre ++ c :: post) t sec = Some (c, local)
    /\ local == sec - (t + total_duration pre).
Proof.
  induction pre as [|x pre IH]; intros t sec c post Hlo Hhi; simpl in *.
  - assert (E : Py.ltb sec (t + Models.duration_effective c) = true)
      by (apply Py_ltb_lt; lra).
    rewrite E. eexists. split; [reflexivity | ring].
  - pose proof (total_duration_nonneg pre) as Hpre.
    assert (E : Py.ltb sec (t + Models.duration_effective x) = false)
      by (apply Py_ltb_ge; lra).
    rewrite E.
    destruct (IH (t + Models.duration_effective x) sec c post) as (local & -> & Hl);
      [lra | lra |].
    exists local. split; [reflexivity |]. rewrite Hl. ring.
Qed.

(** X10. For a clip of the timeline that no earlier item is, the time
    [offset] after its cumulative start, for a non-negative [offset] below
    its effective duration, is located in that clip at the local offset
    [offset]. *)
Theorem locate_after_cumulative_start (self : State) (pre post : list TimelineClip)
    (c : TimelineClip) (offset : Q) :
  items_list self = pre ++ c :: post ->
  Forall (fun x => oid x <> oid c) pre ->
  0 <= offset -> offset < Models.duration_effective c ->
  exists local,
    _clip_at_global_time self (_cumulative_start_of self c + offset) = Some (c, local)
    /\ local == offset.
Proof.
  intros Hitems Hpre Hlo Hhi.
  unfold _clip_at_global_time, _cumulative_start_of. rewrite Hitems.
  pose proof (cumulative_loop_found pre 0.0 c post c Hpre eq_refl) as Hcum.
  set (cum := cumulative_loop (pre ++ c :: post) 0.0 c) in *.
  destruct (clip_at_loop_hit pre 0.0 (cum + offset) c post) as (local & E & Hl);
    [lra | lra |].
  exists local. split; [exact E |]. rewrite Hl, Hcum. ring.
Qed.

End SequencerRoundTrip.

Lemma locate_after_cumulative_start_witness :
  exists local,
    MainWindow._clip_at_global_time (one_clip_window 2.0 0.0)
      (MainWindow._cumulative_start_of (one_clip_window 2.0 0.0) (whole_clip 2.0) + 1.5)
    = Some (whole_clip 2.0, local)
    /\ local == 1.5.
Proof.
  apply (locate_after_cumulative_start (one_clip_window 2.0 0.0) [] [] (whole_clip 2.0) 1.5).
  - reflexivity.
  - constructor.
  - vm_compute. discriminate.
  - vm_compute. reflexivity.
Defined.

Lemma split_noop_near_edges_witness :
  MainWindow.split_at_playhead (one_clip_window 2.0 4.96) = (Ok tt, one_clip_window 2.0 4.96).
Proof.
  apply split_noop_near_edges. right.
  exists (whole_clip 2.0), (4.96 - 0.0). split; [vm_compute; reflexivity |].
  right. vm_compute. discriminate.
Defined.

(* ===================================================================== *)
(** * The visual timeline: repacking                                      *)
(* ===================================================================== *)

Section Repack.
Import Canvas.

Lemma insert_by_x_head it l :
  Forall (fun b => x it <= x b) l -> insert_by_x it l = it :: l.
Proof.
  destruct l as [|h t]; [reflexivity |]. intros Hall. simpl.
  apply Forall_cons in Hall as [Hh _].
  assert (E : Py.ltb (x h) (x it) = false) by (apply Py_ltb_ge; exact Hh).
  rewrite E. reflexivity.
Qed.

Lemma insert_by_x_skip it news rest :
  Forall (fun n => x n < x it) news ->
  insert_by_x it (news ++ rest) = news ++ insert_by_x it rest.
Proof.
  induction news as [|n news IH]; intros Hall; simpl; [reflexivity |].
  apply Forall_cons in Hall as [Hn Hall].
  assert (E : Py.ltb (x n) (x it) = true) by (apply Py_ltb_lt; exact Hn).
  rewrite E, IH by exact Hall. reflexivity.
Qed.

Lemma sorted_by_x_ascending l : ascending l -> sorted_by_x l = l.
Proof.
  induction l as [|a l IH]; simpl; [reflexivity |].
  intros [Ha Hl]. change (fold_right insert_by_x [] l) with (sorted_by_x l).
  rewrite IH by exact Hl. apply insert_by_x_head, Ha.
Qed.

Lemma ascending_app_inv l1 l2 :
  ascending (l1 ++ l2) ->
  ascending l1 /\ ascending l2
  /\ Forall (fun a => Forall (fun b => x a <= x b) l2) l1.
Proof.
  induction l1 as [|a l1 IH]; simpl.
  - intros Hl. repeat split; [exact Hl | constructor].
  - intros [Ha Hl]. apply Forall_app in Ha as [Ha1 Ha2].
    destruct (IH Hl) as (H1 & H2 & H3).
    repeat split; try assumption. constructor; assumption.
Qed.

Lemma ascending_app l1 l2 :
  ascending l1 -> ascending l2 ->
  Forall (fun a => Forall (fun b => x a <= x b) l2) l1 ->
  ascending (l1 ++ l2).
Proof.
  induction l1 as [|a l1 IH]; simpl; intros H1 H2 H3; [exact H2 |].
  destruct H1 as [Ha H1]. apply Forall_cons in H3 as [Ha2 H3].
  split; [apply Forall_app; split; assumption | apply IH; assumption].
Qed.

(** A block of items at one position left of the items before it: the
    sort moves the block in front of them. *)
Lemma sorted_by_x_block pre news post :
  ascending (news ++ pre ++ post) ->
  Forall (fun h => Forall (fun n => x n < x h) news) pre ->
  sorted_by_x (pre ++ news ++ post) = news ++ pre ++ post.
Proof.
  induction pre as [|h pre IH]; intros Hasc Hlt.
  - simpl. apply sorted_by_x_ascending. exact Hasc.
  - apply Forall_cons in Hlt as [Hh Hlt].
    apply ascending_app_inv in Hasc as (An & Ap & Anp).
    simpl in Ap. destruct Ap as [Hhp Ap].
    assert (Hasc' : ascending (news ++ pre ++ post)).
    { apply ascending_app; [exact An | exact Ap |].
      eapply Forall_impl; [exact Anp |]. intros a Ha.
      apply Forall_cons in Ha as [_ Ha]. exact Ha. }
    simpl. change (fold_right insert_by_x [] (pre ++ news ++ post))
      with (sorted_by_x (pre ++ news ++ post)).
    rewrite IH by assumption.
    rewrite insert_by_x_skip by exact Hh.
    rewrite insert_by_x_head by exact Hhp. reflexivity.
Qed.

Lemma insert_by_x_perm it l : Permutation (insert_by_x it l) (it :: l).
Proof.
  induction l as [|h t IH]; simpl; [reflexivity |].
  destruct (Py.ltb (x h) (x it)); [| reflexivity].
  rewrite IH. apply perm_swap.
Qed.

Lemma sorted_by_x_perm l : Permutation (sorted_by_x l) l.
Proof.
  induction l as [|a l IH]; simpl; [reflexivity |].
  rewrite insert_by_x_perm. apply perm_skip, IH.
Qed.

Lemma place_clips x0 l : map clip (place x0 l) = map clip l.
Proof.
  revert x0. induction l as [|a l IH]; intros x0; simpl; [reflexivity |].
  rewrite IH. reflexivity.
Qed.

Lemma place_packed x0 l : packed_from x0 (place x0 l).
Proof.
  revert x0. induction l as [|a l IH]; intros x0; simpl; [exact I |].
  split; [reflexivity | apply IH].
Qed.

Lemma packed_from_eq x0 x1 l : x0 == x1 -> packed_from x0 l -> packed_from x1 l.
Proof.
  revert x0 x1. induction l as [|a l IH]; intros x0 x1 E Hp; [exact I |].
  destruct Hp as [Ha Hp]. split; [rewrite <- E; exact Ha |].
  apply (IH (x0 + (width a + GAP))); [rewrite E; reflexivity | exact Hp].
Qed.

Lemma place_packed_0 l : packed_from 0 (place 0.0 l).
Proof. apply (packed_from_eq 0.0); [reflexivity | apply place_packed]. Qed.

Lemma place_wide x0 l : wide l -> wide (place x0 l).
Proof.
  revert x0. induction l as [|a l IH]; intros x0 Hw; simpl; [constructor |].
  apply Forall_cons in Hw as [Ha Hw]. constructor; [exact Ha | apply IH, Hw].
Qed.

Lemma place_place x0 l : place x0 (place x0 l) = place x0 l.
Proof.
  revert x0. induction l as [|a l IH]; intros x0; simpl; [reflexivity |].
  rewrite IH. reflexivity.
Qed.

Lemma packed_lower x0 l :
  packed_from x0 l -> wide l -> Forall (fun it => x0 <= x it) l.
Proof.
  revert x0. induction l as [|a l IH]; intros x0 Hp Hw; [constructor |].
  destruct Hp as [Ha Hp]. apply Forall_cons in Hw as [Wa Hw].
  constructor; [rewrite Ha; apply Qle_refl |].
  eapply Forall_impl; [exact (IH _ Hp Hw) |].
  intros b Hb. simpl in Hb. unfold GAP in Hb. lra.
Qed.

Lemma packed_strict x0 a l :
  packed_from x0 (a :: l) -> wide (a :: l) -> Forall (fun b => x a < x b) l.
Proof.
  intros [Ha Hp] Hw. apply Forall_cons in Hw as [Wa Hw].
  eapply Forall_impl; [exact (packed_lower _ _ Hp Hw) |].
  intros b Hb. simpl in Hb. unfold GAP in Hb. lra.
Qed.

Lemma packed_ascending x0 l : packed_from x0 l -> wide l -> ascending l.
Proof.
  revert x0. induction l as [|a l IH]; intros x0 Hp Hw; [exact I |].
  split.
  - eapply Forall_impl; [exact (packed_strict _ _ _ Hp Hw) |].
    intros b Hb. simpl in Hb. lra.
  - destruct Hp as [_ Hp]. apply Forall_cons in Hw as [_ Hw]. exact (IH _ Hp Hw).
Qed.

Lemma rect_width_pos c pps : 0 < rect_width c pps.
Proof.
  unfold rect_width. pose proof (Py_max_lower 120
    (Py.max (Models.duration_effective c) UIConfig.MIN_CLIP_DURATION * pps)). lra.
Qed.

(** X12. [repack_by_order] leaves the visual timeline packed from 0 with
    the same items in some order, and hands that order to the window; items
    that were in ascending order keep their order; and on a timeline of
    items of positive width repacking twice is repacking once. *)
Theorem repack_by_order_packs (self : State) :
  timeline (repack_by_order self) = map clip (items_list (repack_by_order self))
  /\ packed_from 0 (items_list (repack_by_order self))
  /\ Permutation (map clip (items_list (repack_by_order self)))
                 (map clip (items_list self))
  /\ (ascending (items_list self) ->
      map clip (items_list (repack_by_order self)) = map clip (items_list self))
  /\ (wide (items_list self) ->
      in_step (repack_by_order self)
      /\ repack_by_order (repack_by_order self) = repack_by_order self).
Proof.
  unfold repack_by_order, _on_visual_order_changed, set_timeline, set_items.
  cbn [timeline items_list].
  split; [reflexivity |]. split; [apply place_packed_0 |].
  split; [rewrite place_clips; apply Permutation_map, sorted_by_x_perm |].
  split.
  - intros Hasc. rewrite place_clips, sorted_by_x_ascending by exact Hasc. reflexivity.
  - intros Hw.
    assert (Hw' : wide (place 0.0 (sorted_by_x (items_list self)))).
    { apply place_wide. unfold wide.
      eapply Permutation_Forall; [symmetry; apply sorted_by_x_perm | exact Hw]. }
    split.
    + repeat split; [apply place_packed_0 | exact Hw'].
    + cbn [px_per_sec playhead_sec speed_spin preview_res proxy_checked pool next_oid].
      rewrite (sorted_by_x_ascending (place 0.0 (sorted_by_x (items_list self))))
        by (eapply packed_ascending; [apply place_packed | exact Hw']).
      rewrite place_place. reflexivity.
Qed.

End Repack.

(* ===================================================================== *)
(** * The visual timeline: the clip operations as a whole                 *)
(* ===================================================================== *)

Section CanvasOperations.
Import Canvas.

Lemma filter_ascending f l : ascending l -> ascending (List.filter f l).
Proof.
  induction l as [|a l IH]; simpl; [intros _; exact I |].
  intros [Ha Hl]. destruct (f a); simpl.
  - split; [| apply IH, Hl].
    apply Forall_forall. intros b Hb.
    apply list_elem_of_In, filter_In in Hb as [Hb _].
    rewrite Forall_forall in Ha. apply Ha, list_elem_of_In, Hb.
  - apply IH, Hl.
Qed.

Lemma filter_wide f l : wide l -> wide (List.filter f l).
Proof.
  unfold wide. rewrite !Forall_forall. intros Hw b Hb.
  apply list_elem_of_In, filter_In in Hb as [Hb _]. apply Hw, list_elem_of_In, Hb.
Qed.

Lemma map_clip_filter (p : TimelineClip -> bool) l :
  map clip (List.filter (fun it => p (clip it)) l) = List.filter p (map clip l).
Proof.
  induction l as [|a l IH]; simpl; [reflexivity |].
  destruct (p (clip a)); simpl; rewrite IH; reflexivity.
Qed.

Lemma prepare_previews_keeps self c :
  timeline (_prepare_clip_previews self c) = timeline self
  /\ items_list (_prepare_clip_previews self c) = items_list self
  /\ px_per_sec (_prepare_clip_previews self c) = px_per_sec self
  /\ next_oid (_prepare_clip_previews self c) = next_oid self.
Proof.
  unfold _prepare_clip_previews. destruct (_ && _); repeat split; reflexivity.
Qed.

Lemma rebuild_in_step self clips :
  timeline self = clips -> in_step (rebuild self clips).
Proof.
  intros E. unfold in_step, rebuild. cbn [timeline items_list].
  split; [| split].
  - rewrite place_clips, map_map. cbn [clip ClipGraphicsItem_init].
    rewrite map_id. exact E.
  - apply place_packed_0.
  - apply place_wide. unfold wide. apply Forall_forall. intros it Hit.
    apply list_elem_of_In, in_map_iff in Hit as (c & <- & _). apply rect_width_pos.
Qed.

Lemma packed_append x0 (l : list Item) (c : TimelineClip) (w : Q) :
  packed_from x0 l ->
  packed_from x0
    (l ++ [{| clip := c;
              x := match last l with
                   | Some last_item => x last_item + width last_item + GAP
                   | None => x0
                   end;
              width := w |}]).
Proof.
  revert x0. induction l as [|a l IH]; intros x0 Hp.
  - simpl. split; [reflexivity | exact I].
  - destruct Hp as [Ha Hp]. cbn [app packed_from]. split; [exact Ha |].
    destruct l as [|b l].
    + cbn. split; [| exact I]. rewrite Ha. unfold GAP. ring.
    + specialize (IH _ Hp).
      change (last (a :: b :: l)) with (last (b :: l)).
      destruct (last (b :: l)) as [la|] eqn:El; [exact IH |].
      apply last_None in El. discriminate El.
Qed.

(** X18. [rebuild] lays the clips out in their order, packed from 0; and
    after [append_clip], with the clip appended to the window's list as
    [_append_media_path_to_timeline] does, a window that was in step with its
    visual timeline is in step again, the new clip last. *)
Theorem append_clip_keeps_in_step (self : State) (c : TimelineClip)
    (clips : list TimelineClip) :
  map clip (items_list (rebuild self clips)) = clips
  /\ packed_from 0 (items_list (rebuild self clips))
  /\ (in_step self ->
      in_step (append_clip (set_timeline self (timeline self ++ [c])) c)
      /\ map clip (items_list (append_clip (set_timeline self (timeline self ++ [c])) c))
         = timeline self ++ [c]).
Proof.
  split; [| split].
  - unfold rebuild. cbn [items_list]. rewrite place_clips, map_map.
    cbn [clip ClipGraphicsItem_init]. apply map_id.
  - apply place_packed_0.
  - intros (Hsync & Hpacked & Hwide).
    unfold append_clip, set_items, set_timeline.
    cbn [timeline items_list px_per_sec clip width ClipGraphicsItem_init].
    assert (E : map clip
                  (items_list self ++
                   [{| clip := c;
                       x := match last (items_list self) with
                            | Some last_item => x last_item + width last_item + GAP
                            | None => 0
                            end;
                       width := rect_width c (px_per_sec self) |}])
                = timeline self ++ [c]).
    { rewrite map_app, <- Hsync. reflexivity. }
    split; [| exact E].
    split; [symmetry; exact E | split].
    + apply packed_append, Hpacked.
    + apply Forall_app. split; [exact Hwide |].
      constructor; [apply rect_width_pos | constructor].
Qed.

(** X13. On a window in step with its visual timeline,
    [remove_selected_clip] leaves the other clips in their order, no clip
    that is the selected object, and the window in step again. *)
Theorem remove_selected_clip_removes (self : State) (target : TimelineClip) :
  in_step self ->
  timeline (remove_selected_clip self (Some target))
  = List.filter (fun c => negb (is_ c target)) (timeline self)
  /\ Forall (fun c => oid c <> oid target)
            (timeline (remove_selected_clip self (Some target)))
  /\ in_step (remove_selected_clip self (Some target)).
Proof.
  intros (Hsync & Hpacked & Hwide).
  unfold remove_selected_clip, ripple_delete, repack_by_order,
    _on_visual_order_changed, set_timeline, set_items.
  cbn [timeline items_list].
  set (kept := List.filter (fun it => negb (is_ (clip it) target)) (items_list self)).
  assert (Hasc : ascending kept).
  { apply filter_ascending. eapply packed_ascending; eassumption. }
  assert (E : map clip (place 0.0 (sorted_by_x kept))
              = List.filter (fun c => negb (is_ c target)) (timeline self)).
  { rewrite place_clips, sorted_by_x_ascending by exact Hasc.
    unfold kept. rewrite (map_clip_filter (fun c => negb (is_ c target))), Hsync.
    reflexivity. }
  split; [exact E |]. split.
  - rewrite E. apply Forall_forall. intros c Hc.
    apply list_elem_of_In, filter_In in Hc as [_ Hc].
    apply negb_true_iff, Nat.eqb_neq in Hc. exact Hc.
  - split; [reflexivity | split; [apply place_packed_0 |]].
    apply place_wide. rewrite sorted_by_x_ascending by exact Hasc.
    apply filter_wide, Hwide.
Qed.

Lemma sync_cons self t0 rest :
  timeline self = map clip (items_list self) -> timeline self = t0 :: rest ->
  exists a0 irest,
    items_list self = a0 :: irest /\ clip a0 = t0 /\ map clip irest = rest.
Proof.
  intros Hsync Htl. rewrite Htl in Hsync.
  destruct (items_list self) as [|a0 irest]; [discriminate Hsync |].
  injection Hsync as -> ->. exists a0, irest. repeat split; reflexivity.
Qed.

Lemma zero_block_ascending (news rest : list Item) :
  Forall (fun n => x n == 0) news -> Forall (fun b => 0 <= x b) rest ->
  ascending rest -> ascending (news ++ rest).
Proof.
  intros Hn Hr Hasc. induction news as [|n news IH]; [exact Hasc |].
  apply Forall_cons in Hn as [Hn0 Hn]. simpl. split; [| apply IH, Hn].
  apply Forall_app. split.
  - eapply Forall_impl; [exact Hn |]. intros b Hb. simpl in Hb. rewrite Hn0, Hb.
    apply Qle_refl.
  - eapply Forall_impl; [exact Hr |]. intros b Hb. simpl in Hb. rewrite Hn0. exact Hb.
Qed.

(** The sort of a list in which a block of items at position 0 has been
    put after a first item at position 0, the other items right of 0 and in
    ascending order: the block comes second. *)
Lemma sorted_by_x_after_first a0 pre news post :
  x a0 == 0 -> Forall (fun b => 0 < x b) (pre ++ post) -> ascending (pre ++ post) ->
  Forall (fun n => x n = 0.0) news ->
  sorted_by_x (a0 :: pre ++ news ++ post) = a0 :: news ++ pre ++ post.
Proof.
  intros Ha0 Hpos Hasc Hn.
  assert (Hn0 : Forall (fun n => x n == 0) news).
  { eapply Forall_impl; [exact Hn |]. intros n E. simpl in E. rewrite E. reflexivity. }
  simpl. change (fold_right insert_by_x [] (pre ++ news ++ post))
    with (sorted_by_x (pre ++ news ++ post)).
  rewrite sorted_by_x_block.
  - destruct news as [|n news]; simpl.
    + apply insert_by_x_head.
      eapply Forall_impl; [exact Hpos |]. intros b Hb. simpl in Hb. lra.
    + apply Forall_cons in Hn as [En _].
      assert (E : Py.ltb (x n) (x a0) = false).
      { apply Py_ltb_ge. rewrite En, Ha0. discriminate. }
      rewrite E. reflexivity.
  - apply zero_block_ascending; [exact Hn0 | | exact Hasc].
    eapply Forall_impl; [exact Hpos |]. intros b Hb. simpl in Hb. lra.
  - apply Forall_app in Hpos as [Hpre _].
    eapply Forall_impl; [exact Hpre |]. intros h Hh. simpl in Hh.
    eapply Forall_impl; [exact Hn0 |]. intros n E. simpl in E. rewrite E. exact Hh.
Qed.

Lemma packed_first a0 (l : list Item) :
  packed_from 0 (a0 :: l) -> wide (a0 :: l) ->
  x a0 == 0 /\ Forall (fun b => 0 < x b) l /\ ascending l.
Proof.
  intros Hp Hw.
  pose proof (packed_strict _ _ _ Hp Hw) as Hstrict.
  pose proof (packed_ascending _ _ Hp Hw) as [_ Hasc].
  destruct Hp as [Ha0 _]. repeat split; [exact Ha0 | | exact Hasc].
  eapply Forall_impl; [exact Hstrict |]. intros b Hb. simpl in Hb. lra.
Qed.

(** X14. On a window in step with its visual timeline,
    [duplicate_selected_clip] puts the copy second in the timeline, right
    after the first clip, whichever clip was selected: the item of the copy
    is new, at position 0, when the visual timeline is sorted by position. *)
Theorem duplicate_lands_second (self : State) (c t0 : TimelineClip)
    (rest : list TimelineClip) (idx : nat) :
  in_step self -> timeline self = t0 :: rest ->
  MainWindow.index (timeline self) c = Some idx ->
  (duplicate_selected_clip self (Some c)).1 = Ok tt
  /\ timeline (duplicate_selected_clip self (Some c)).2
     = t0 :: duplicate_of (next_oid self) c :: rest
  /\ in_step (duplicate_selected_clip self (Some c)).2.
Proof.
  intros (Hsync & Hpacked & Hwide) Htl Hidx.
  destruct (sync_cons self t0 rest Hsync Htl) as (a0 & irest & Hitems & Ha0 & Hrest).
  unfold duplicate_selected_clip.
  set (new_clip := duplicate_of (next_oid self) c).
  destruct (prepare_previews_keeps (allocate self 1) new_clip) as (K1 & K2 & K3 & _).
  set (s1 := _prepare_clip_previews (allocate self 1) new_clip) in *.
  change (timeline (allocate self 1)) with (timeline self) in K1.
  change (items_list (allocate self 1)) with (items_list self) in K2.
  change (px_per_sec (allocate self 1)) with (px_per_sec self) in K3.
  rewrite K1, Hidx.
  unfold repack_by_order, _on_visual_order_changed, set_timeline, set_items.
  cbn [fst snd timeline items_list px_per_sec].
  rewrite K2, K3, Hitems. rewrite Hitems in Hpacked, Hwide.
  set (item := ClipGraphicsItem_init new_clip (px_per_sec self)).
  assert (L : list_insert (idx + 1) item (a0 :: irest)
              = a0 :: take idx irest ++ [item] ++ drop idx irest).
  { unfold list_insert. rewrite Nat.add_1_r. reflexivity. }
  rewrite L.
  destruct (packed_first a0 irest Hpacked Hwide) as (X0 & Hpos & Hasc).
  assert (S0 : sorted_by_x (a0 :: take idx irest ++ [item] ++ drop idx irest)
               = a0 :: [item] ++ take idx irest ++ drop idx irest).
  { apply sorted_by_x_after_first; rewrite ?take_drop; try assumption.
    constructor; [reflexivity | constructor]. }
  rewrite S0.
  rewrite take_drop.
  split; [reflexivity |]. split.
  - rewrite place_clips. simpl. rewrite Ha0, Hrest. reflexivity.
  - split; [reflexivity | split; [apply place_packed_0 |]].
    apply place_wide. apply Forall_cons in Hwide as [H0 Hw].
    constructor; [exact H0 |]. constructor; [apply rect_width_pos | exact Hw].
Qed.

Lemma index_found pre : forall c post,
  Forall (fun b => oid b <> oid c) pre ->
  MainWindow.index (pre ++ c :: post) c = Some (length pre).
Proof.
  induction pre as [|b pre IH]; intros c post Hpre; simpl.
  - unfold MainWindow.is_. rewrite Nat.eqb_refl. reflexivity.
  - apply Forall_cons in Hpre as [Hb Hpre].
    unfold MainWindow.is_ at 1. apply Nat.eqb_neq in Hb. rewrite Hb.
    rewrite IH by exact Hpre. reflexivity.
Qed.

Lemma flat_map_no_match (c : TimelineClip) (news l : list Item) :
  Forall (fun b => oid (clip b) <> oid c) l ->
  flat_map (fun item => if is_ (clip item) c then news else [item]) l = l.
Proof.
  induction l as [|b l IH]; intros Hl; simpl; [reflexivity |].
  apply Forall_cons in Hl as [Hb Hl].
  unfold is_ at 1. apply Nat.eqb_neq in Hb. rewrite Hb, IH by exact Hl. reflexivity.
Qed.

Lemma packed_remove_middle x0 (pre : list Item) it post :
  packed_from x0 (pre ++ it :: post) -> wide (pre ++ it :: post) ->
  ascending (pre ++ post) /\ Forall (fun b => x0 <= x b) (pre ++ post)
  /\ wide (pre ++ post).
Proof.
  intros Hp Hw.
  pose proof (packed_ascending _ _ Hp Hw) as Hasc.
  pose proof (packed_lower _ _ Hp Hw) as Hlow.
  apply ascending_app_inv in Hasc as (A1 & A2 & A3).
  simpl in A2. destruct A2 as [_ A2].
  apply Forall_app in Hlow as [L1 L2]. apply Forall_cons in L2 as [_ L2].
  unfold wide in *. apply Forall_app in Hw as [W1 W2]. apply Forall_cons in W2 as [_ W2].
  repeat split.
  - apply ascending_app; [exact A1 | exact A2 |].
    eapply Forall_impl; [exact A3 |]. intros a Ha.
    apply Forall_cons in Ha as [_ Ha]. exact Ha.
  - apply Forall_app. split; assumption.
  - apply Forall_app. split; assumption.
Qed.

(** X15. On a window in step with its visual timeline whose clips are
    distinct objects, [split_at_playhead], away from the edges of the clip
    under the playhead, ends with the two halves at the front of the
    timeline when the clip was the first one, and otherwise right after the
    first clip, before the clips that were between the first clip and the
    split one: the items of the halves are new, at position 0, when the
    visual timeline is sorted by position. *)
Theorem split_at_playhead_moves_halves (self : State) (pre post : list Item)
    (it : Item) (local : Q) :
  in_step self ->
  items_list self = pre ++ it :: post ->
  Forall (fun b => oid (clip b) <> oid (clip it)) (pre ++ post) ->
  _clip_at_global_time self (playhead_sec self) = Some (clip it, local) ->
  0.05 < local -> local < Models.duration_effective (clip it) - 0.05 ->
  let left := MainWindow.split_left (next_oid self) (clip it) (start (clip it) + local) in
  let right :=
    MainWindow.split_right (S (next_oid self)) (clip it) (start (clip it) + local) in
  (split_at_playhead self).1 = Ok tt
  /\ timeline (split_at_playhead self).2
     = match pre with
       | [] => left :: right :: map clip post
       | a0 :: pre' => clip a0 :: left :: right :: map clip pre' ++ map clip post
       end
  /\ in_step (split_at_playhead self).2.
Proof.
  intros (Hsync & Hpacked & Hwide) Hitems Hdistinct Hat Hlo Hhi left right.
  apply Forall_app in Hdistinct as [Dpre Dpost].
  unfold split_at_playhead. rewrite Hat.
  assert (E : Py.leb local 0.05
              || Py.leb (Models.duration_effective (clip it) - 0.05) local = false).
  { apply orb_false_iff. split; apply Py_leb_gt; assumption. }
  rewrite E. cbv zeta. fold left. fold right.
  destruct (prepare_previews_keeps
              (_prepare_clip_previews (allocate self 2) left) right)
    as (K1 & K2 & K3 & _).
  destruct (prepare_previews_keeps (allocate self 2) left) as (J1 & J2 & J3 & _).
  set (s2 := _prepare_clip_previews (_prepare_clip_previews (allocate self 2) left) right)
    in *.
  rewrite J1 in K1. rewrite J2 in K2. rewrite J3 in K3.
  change (timeline (allocate self 2)) with (timeline self) in K1.
  change (items_list (allocate self 2)) with (items_list self) in K2.
  change (px_per_sec (allocate self 2)) with (px_per_sec self) in K3.
  assert (Hidx : MainWindow.index (timeline s2) (clip it) = Some (length pre)).
  { rewrite K1, Hsync, Hitems, map_app. simpl.
    rewrite <- (length_map clip pre). apply index_found.
    apply Forall_forall. intros b Hb.
    apply list_elem_of_In, in_map_iff in Hb as (b0 & <- & Hb0).
    rewrite Forall_forall in Dpre. apply Dpre, list_elem_of_In, Hb0. }
  rewrite Hidx.
  unfold repack_by_order, _on_visual_order_changed, set_timeline, set_items.
  cbn [fst snd timeline items_list px_per_sec].
  rewrite K2, K3, Hitems.
  set (li := ClipGraphicsItem_init left (px_per_sec self)).
  set (ri := ClipGraphicsItem_init right (px_per_sec self)).
  assert (F : flat_map (fun item => if is_ (clip item) (clip it) then [li; ri] else [item])
                       (pre ++ it :: post)
              = pre ++ [li; ri] ++ post).
  { rewrite flat_map_app. simpl. unfold is_ at 2. rewrite Nat.eqb_refl.
    rewrite !flat_map_no_match by assumption. reflexivity. }
  rewrite F. rewrite Hitems in Hpacked, Hwide.
  destruct (packed_remove_middle 0 pre it post Hpacked Hwide) as (Hasc & Hlow & Hw2).
  assert (Hnew : Forall (fun n => x n = 0.0) [li; ri])
    by (repeat constructor).
  assert (Wnew : wide [li; ri]).
  { constructor; [apply rect_width_pos |]. constructor; [apply rect_width_pos |].
    constructor. }
  split; [reflexivity |].
  destruct pre as [|a0 pre'].
  - cbn [app].
    assert (S0 : sorted_by_x (li :: ri :: post) = li :: ri :: post).
    { apply sorted_by_x_ascending.
      apply (zero_block_ascending [li; ri] post);
        [repeat constructor | exact Hlow | exact Hasc]. }
    rewrite S0. split.
    + rewrite place_clips. reflexivity.
    + split; [reflexivity | split; [apply place_packed_0 |]].
      apply place_wide. apply (Forall_app _ [li; ri] post).
      split; [exact Wnew | exact Hw2].
  - cbn [app] in Hpacked, Hwide, Hasc, Hw2.
    change ((a0 :: pre') ++ [li; ri] ++ post) with (a0 :: pre' ++ [li; ri] ++ post).
    pose proof (packed_strict _ _ _ Hpacked Hwide) as Hstrict.
    destruct Hpacked as [X0 _]. destruct Hasc as [_ Hasc].
    assert (Hpos : Forall (fun b => 0 < x b) (pre' ++ post)).
    { apply Forall_app in Hstrict as [S1 S2]. apply Forall_cons in S2 as [_ S2].
      apply Forall_app. split; (eapply Forall_impl; [eassumption |]);
        intros b Hb; simpl in Hb; lra. }
    rewrite (sorted_by_x_after_first a0 pre' [li; ri] post X0 Hpos Hasc Hnew).
    split.
    + rewrite place_clips. cbn [map app]. rewrite map_app. reflexivity.
    + split; [reflexivity | split; [apply place_packed_0 |]].
      apply place_wide. apply Forall_cons in Hw2 as [W0 Hw2].
      constructor; [exact W0 |]. apply (Forall_app _ [li; ri] (pre' ++ post)).
      split; [exact Wnew | exact Hw2].
Qed.

(** ** Assignments to the selected clip *)

Lemma Forall_same_x (P : Q -> Prop) (l1 : list Item) : forall l2,
  map x l1 = map x l2 ->
  Forall (fun b => P (x b)) l1 -> Forall (fun b => P (x b)) l2.
Proof.
  induction l1 as [|a l1 IH]; intros [|b l2] E Hall; try discriminate E;
    [constructor |].
  injection E as Ea El. apply Forall_cons in Hall as [Ha Hall].
  constructor; [rewrite <- Ea; exact Ha | apply IH; assumption].
Qed.

Lemma ascending_same_x (l1 : list Item) : forall l2,
  map x l1 = map x l2 -> ascending l1 -> ascending l2.
Proof.
  induction l1 as [|a l1 IH]; intros [|b l2] E Hasc; try discriminate E;
    [exact I |].
  injection E as Ea El. destruct Hasc as [Ha Hasc]. split; [| apply IH; assumption].
  rewrite <- Ea. apply (Forall_same_x (fun q => x a <= q) l1 l2 El Ha).
Qed.

Lemma update_first_width_keeps pps c l :
  map x (update_first_width pps c l) = map x l
  /\ map clip (update_first_width pps c l) = map clip l
  /\ (wide l -> wide (update_first_width pps c l)).
Proof.
  induction l as [|a l (IH1 & IH2 & IH3)]; simpl; [repeat split; auto |].
  destruct (is_ (clip a) c); simpl.
  - repeat split. intros Hw. apply Forall_cons in Hw as [_ Hw].
    constructor; [apply rect_width_pos | exact Hw].
  - rewrite IH1, IH2. repeat split. intros Hw. apply Forall_cons in Hw as [Ha Hw].
    constructor; [exact Ha | apply IH3, Hw].
Qed.

(** An assignment to the clip [c] followed by [_refresh_visual_width_for]:
    the clips keep their order, and the window stays in step. *)
Lemma refresh_after_assign self c (f : TimelineClip -> TimelineClip) :
  in_step self ->
  timeline (_refresh_visual_width_for (assign (oid c) f self) c)
  = map (fun k => if Nat.eqb (oid k) (oid c) then f k else k) (timeline self)
  /\ in_step (_refresh_visual_width_for (assign (oid c) f self) c)
  /\ pool (_refresh_visual_width_for (assign (oid c) f self) c) = pool self.
Proof.
  intros (Hsync & Hpacked & Hwide).
  unfold _refresh_visual_width_for, repack_by_order, _on_visual_order_changed,
    assign, set_timeline, set_items.
  cbn [timeline items_list px_per_sec pool].
  set (upd := fun k => if Nat.eqb (oid k) (oid c) then f k else k).
  set (items1 := map (fun it => {| clip := upd (clip it); x := x it; width := width it |})
                     (items_list self)).
  destruct (update_first_width_keeps (px_per_sec self) c items1) as (U1 & U2 & U3).
  set (items2 := update_first_width (px_per_sec self) c items1) in *.
  assert (X1 : map x items1 = map x (items_list self)).
  { unfold items1. rewrite map_map. reflexivity. }
  assert (C1 : map clip items1 = map upd (timeline self)).
  { unfold items1. rewrite Hsync, !map_map. reflexivity. }
  assert (W1 : wide items1).
  { unfold items1, wide. apply Forall_forall. intros b Hb.
    apply list_elem_of_In, in_map_iff in Hb as (b0 & <- & Hb0). simpl.
    unfold wide in Hwide. rewrite Forall_forall in Hwide.
    apply Hwide, list_elem_of_In, Hb0. }
  assert (Hasc : ascending items2).
  { apply (ascending_same_x (items_list self)); [rewrite U1, X1; reflexivity |].
    eapply packed_ascending; eassumption. }
  rewrite sorted_by_x_ascending by exact Hasc.
  split; [rewrite place_clips; exact (eq_trans U2 C1) |].
  split; [| reflexivity].
  split; [reflexivity | split; [apply place_packed_0 | apply place_wide, U3, W1]].
Qed.

(** X16. On a window in step with its visual timeline,
    [apply_speed_to_clip] gives the selected clip the value of the speed
    field, 1.0 in place of a value that is not positive: the speed it sets
    is positive; the clips keep their order and the window stays in step;
    and one effect preview of the clip is queued. *)
Theorem apply_speed_to_clip_sets_positive (self : State) (c : TimelineClip) :
  in_step self ->
  let val := if Py.leb (speed_spin self) 0 then 1.0 else speed_spin self in
  0 < val
  /\ timeline (apply_speed_to_clip self (Some c))
     = map (fun k => if Nat.eqb (oid k) (oid c) then with_speed k val else k)
           (timeline self)
  /\ in_step (apply_speed_to_clip self (Some c))
  /\ pool (apply_speed_to_clip self (Some c)) = pool self ++ [EffectPreviewJob (oid c)].
Proof.
  intros Hstep val.
  destruct (refresh_after_assign self c (fun k => with_speed k val) Hstep)
    as (E & Hstep' & Hpool).
  split.
  - unfold val. destruct (Py.leb (speed_spin self) 0) eqn:El; [reflexivity |].
    apply Py_leb_gt in El. exact El.
  - unfold apply_speed_to_clip, _rebuild_effect_preview_for, start_job.
    fold val. cbn [timeline items_list pool].
    split; [exact E |]. split; [exact Hstep' |]. rewrite Hpool. reflexivity.
Qed.

Lemma pymin_le a b : pymin a b <= b /\ pymin a b <= a.
Proof.
  unfold pymin. destruct (Py.ltb b a) eqn:E.
  - apply Py_ltb_lt in E. lra.
  - apply Py_ltb_ge in E. lra.
Qed.

(** The trim [apply_trim_to_clip] computes: the start is never negative,
    an end is at least 0.2 after the start, and with a known non-zero media
    duration there is an end, no later than the media duration unless the
    start leaves less than 0.2 before it. *)
Lemma trimmed_bounds (k : TimelineClip) (s : Q) (e : option Q) :
  0 <= start (trimmed k s e)
  /\ (forall e', end_ (trimmed k s e) = Some e' -> start (trimmed k s e) + 0.2 <= e')
  /\ (forall d, duration (media k) = Some d -> ~ d == 0 ->
      exists e', end_ (trimmed k s e) = Some e'
                 /\ e' <= Qmax (start (trimmed k s e) + 0.2) d).
Proof.
  unfold trimmed. cbn [start end_].
  pose proof (Py_max_lower 0.0 s) as Hs.
  split; [lra |]. split.
  - intros e' E.
    destruct e as [e0|]; [| destruct (duration (media k)) as [d|]; [| discriminate E]];
      injection E as <-;
      match goal with |- _ <= Py.max ?a ?b => pose proof (Py_max_lower a b); lra end.
  - intros d Hd Hnz. rewrite Hd.
    assert (Eor : forall y, Py.or_float d y = d).
    { intros y. unfold Py.or_float. destruct (Qeq_bool d 0) eqn:Eq; [| reflexivity].
      apply Qeq_bool_eq in Eq. contradiction. }
    destruct e as [e0|]; rewrite Eor; eexists; (split; [reflexivity |]);
      rewrite !Py_max_Qmax; apply Q.max_le_compat_l; apply pymin_le.
Qed.

Section TrimFacts.
Context `{Runtime}.

(** X17. On a window in step with its visual timeline,
    [apply_trim_to_clip] with fields that read as numbers (the end field may
    be empty) gives the selected clip a start that is not negative and an
    end at least 0.2 after it, and with a known non-zero media duration no
    later than that duration unless the start leaves less than 0.2 before
    it; the clips keep their order and the window stays in step; with a
    field that does not read as a number it changes nothing. *)
Theorem apply_trim_to_clip_bounds (self : State) (c : TimelineClip)
    (start_text end_text : string) (s : Q) (e : option Q) :
  in_step self ->
  float_of_str start_text = Some s ->
  (if String.eqb (Py.strip end_text) "" then Some None
   else option_map Some (float_of_str (Py.strip end_text))) = Some e ->
  timeline (apply_trim_to_clip self (Some c) start_text end_text)
  = map (fun k => if Nat.eqb (oid k) (oid c) then trimmed k s e else k) (timeline self)
  /\ in_step (apply_trim_to_clip self (Some c) start_text end_text)
  /\ (forall k,
        0 <= start (trimmed k s e)
        /\ (forall e', end_ (trimmed k s e) = Some e' ->
                       start (trimmed k s e) + 0.2 <= e')
        /\ (forall d, duration (media k) = Some d -> ~ d == 0 ->
            exists e', end_ (trimmed k s e) = Some e'
                       /\ e' <= Qmax (start (trimmed k s e) + 0.2) d))
  /\ (forall bad, float_of_str bad = None ->
        apply_trim_to_clip self (Some c) bad end_text = self).
Proof.
  intros Hstep Hs He.
  destruct (refresh_after_assign self c (fun k => trimmed k s e) Hstep)
    as (E & Hstep' & _).
  unfold apply_trim_to_clip. rewrite Hs, He.
  unfold _rebuild_effect_preview_for, start_job. cbn [timeline items_list].
  split; [exact E |]. split; [exact Hstep' |]. split.
  - intros k. destruct (trimmed_bounds k s e) as (B1 & B2 & B3).
    split; [exact B1 |]. split; [exact B2 |].
    exact B3.
  - intros bad Hbad. rewrite Hbad. reflexivity.
Qed.

End TrimFacts.

End CanvasOperations.

Lemma remove_selected_clip_removes_witness :
  in_step demo_window
  /\ Canvas.timeline (Canvas.remove_selected_clip demo_window (Some (demo_clip_as 1)))
     = [demo_clip_as 0; demo_clip_as 2].
Proof.
  split; [apply rebuild_in_step; reflexivity |].
  exact (proj1 (remove_selected_clip_removes demo_window (demo_clip_as 1)
                  (rebuild_in_step _ _ eq_refl))).
Defined.

Lemma duplicate_lands_second_witness :
  in_step demo_window
  /\ Canvas.timeline
       (Canvas.duplicate_selected_clip demo_window (Some (demo_clip_as 2))).2
     = [demo_clip_as 0; Canvas.duplicate_of 3 (demo_clip_as 2);
        demo_clip_as 1; demo_clip_as 2].
Proof.
  split; [apply rebuild_in_step; reflexivity |].
  exact (proj1 (proj2 (duplicate_lands_second demo_window (demo_clip_as 2)
                         (demo_clip_as 0) [demo_clip_as 1; demo_clip_as 2] 2
                         (rebuild_in_step _ _ eq_refl) eq_refl eq_refl))).
Defined.

Lemma split_at_playhead_moves_halves_witness :
  in_step (demo_window_at 7.0)
  /\ Canvas.timeline (Canvas.split_at_playhead (demo_window_at 7.0)).2
     = [demo_clip_as 0;
        MainWindow.split_left 3 (demo_clip_as 2) (start (demo_clip_as 2) + demo_local);
        MainWindow.split_right 4 (demo_clip_as 2) (start (demo_clip_as 2) + demo_local);
        demo_clip_as 1].
Proof.
  assert (Hstep : in_step (demo_window_at 7.0))
    by exact (rebuild_in_step _ _ eq_refl).
  split; [exact Hstep |].
  refine (proj1 (proj2 (split_at_playhead_moves_halves (demo_window_at 7.0)
                          [demo_item 0; demo_item 1] [] (demo_item 2) demo_local
                          Hstep eq_refl _ _ _ _))).
  - repeat constructor; vm_compute; discriminate.
  - vm_compute. reflexivity.
  - vm_compute. reflexivity.
  - vm_compute. reflexivity.
Defined.

Lemma apply_speed_to_clip_sets_positive_witness :
  in_step demo_window
  /\ Canvas.timeline (Canvas.apply_speed_to_clip demo_window (Some (demo_clip_as 1)))
     = [demo_clip_as 0; with_speed (demo_clip_as 1) 2.0; demo_clip_as 2].
Proof.
  split; [apply rebuild_in_step; reflexivity |].
  exact (proj1 (proj2 (apply_speed_to_clip_sets_positive demo_window (demo_clip_as 1)
                         (rebuild_in_step _ _ eq_refl)))).
Defined.

Lemma apply_trim_to_clip_bounds_witness :
  in_step demo_window
  /\ Canvas.timeline
       (@Canvas.apply_trim_to_clip typing_runtime demo_window (Some (demo_clip_as 1))
          "1.5" "4")
     = [demo_clip_as 0; Canvas.trimmed (demo_clip_as 1) 1.5 (Some 4); demo_clip_as 2].
Proof.
  split; [apply rebuild_in_step; reflexivity |].
  exact (proj1 (@apply_trim_to_clip_bounds typing_runtime demo_window (demo_clip_as 1)
                  "1.5" "4" 1.5 (Some 4) (rebuild_in_step _ _ eq_refl)
                  eq_refl eq_refl)).
Defined.

(* ===================================================================== *)
(** * The effect preview                                                  *)
(* ===================================================================== *)

Section EffectPreviewFacts.
Context `{Runtime}.

(** X19. The effect preview of a clip is rendered with the video and audio
    filter arguments of the export of that clip; its [-ss] is the one of the
    export when the start is positive, its [-t] the one of the export when
    the end is not zero and more than 0.1 after the start; and its [-t] is
    never below 0.1. *)
Theorem effect_preview_matches_export (self : EffectPreviewWorker.Worker) (w : World) :
  let c := EffectPreviewWorker.clip self in
  EffectPreviewWorker.filter_args self w
  = ExportPy.filter_args (EffectPreviewWorker.lut_dir self) w c
  /\ (0 < start c ->
      ExportPy.start_args c = ["-ss"; str_float (EffectPreviewWorker.start_v c)])
  /\ (forall e, end_ c = Some e -> ~ e == 0 -> 0.1 < e - EffectPreviewWorker.start_v c ->
      ExportPy.duration_args c = ["-t"; str_float (EffectPreviewWorker.dur c)])
  /\ 0.1 <= EffectPreviewWorker.dur c.
Proof.
  intros c. split; [| split; [| split]].
  - unfold EffectPreviewWorker.filter_args, ExportPy.filter_args,
      EffectPreviewWorker.vf_filters, ExportPy.filters, ExportPy.a_filters,
      EffectPreviewWorker.af_filters, ExportPy.speed_a_filters,
      EffectPreviewWorker.speed_filters, ExportPy.speed_filters,
      EffectPreviewWorker.lut_filters, ExportPy.lut_filters,
      EffectPreviewWorker.title_filters, ExportPy.title_filters,
      EffectPreviewWorker.spd, ExportPy.render_speed.
    fold c. reflexivity.
  - intros Hpos. unfold ExportPy.start_args, EffectPreviewWorker.start_v.
    assert (Hne : Qeq_bool (start c) 0 = false).
    { destruct (Qeq_bool (start c) 0) eqn:E; [| reflexivity].
      apply Qeq_bool_iff in E. lra. }
    unfold Py.truthy_float, Py.or_float. rewrite Hne.
    assert (E : Py.ltb 0 (start c) = true) by (apply Py_ltb_lt; exact Hpos).
    rewrite E. reflexivity.
  - intros e He Hnz Hlong. unfold ExportPy.duration_args, EffectPreviewWorker.dur.
    rewrite He. unfold EffectPreviewWorker.start_v in *.
    assert (Hne : Qeq_bool e 0 = false).
    { destruct (Qeq_bool e 0) eqn:E; [| reflexivity].
      apply Qeq_bool_iff in E. contradiction. }
    unfold Py.truthy_float. rewrite Hne.
    assert (E1 : Py.ltb (Py.or_float (start c) 0.0) e = true) by (apply Py_ltb_lt; lra).
    assert (E2 : Py.ltb 0.1 (e - Py.or_float (start c) 0.0) = true)
      by (apply Py_ltb_lt; exact Hlong).
    rewrite E1. unfold Py.max. rewrite E2. reflexivity.
  - unfold EffectPreviewWorker.dur. destruct (end_ c); apply Py_max_lower.
Qed.


End EffectPreviewFacts.

(* ===================================================================== *)
(** * The assets of utils.py                                              *)
(* ===================================================================== *)

Section AssetFacts.
Context `{Runtime}.

Lemma thumbnails_loop_sublist video_path output_dir start interval width n :
  forall i acc w,
  exists new,
    (Utils.thumbnails_loop video_path output_dir start interval width i n acc w).1
    = acc ++ new
    /\ sublist new (map (thumb_path output_dir) (seq i n)).
Proof.
  induction n as [|n IH]; intros i acc w; simpl.
  - exists []. split; [rewrite app_nil_r; reflexivity | constructor].
  - destruct (Utils.run_cmd _ 10 w) as [[[code out] err] w1].
    destruct ((code =? 0)%Z && os_path_exists _ w1).
    + destruct (IH (S i) (acc ++ [thumb_path output_dir i]) w1) as (new & E & Hsub).
      exists (thumb_path output_dir i :: new). split.
      * unfold thumb_path in *. rewrite E, <- app_assoc. reflexivity.
      * constructor. exact Hsub.
    + destruct (IH (S i) acc w1) as (new & E & Hsub).
      exists new. split; [exact E |]. constructor. exact Hsub.
Qed.

(** X21. [generate_thumbnails] returns some of the paths [thumb_00.jpg],
    [thumb_01.jpg], ... of the [count] indices, in the order of the indices
    and each at most once, so at most [count] paths; and with a duration
    or a count that is not positive it returns no path and leaves the world
    as it is. *)
Theorem generate_thumbnails_paths (video_path output_dir : string) (start duration : Q)
    (count width : Z) (w : World) :
  sublist
    (Utils.generate_thumbnails video_path output_dir start duration count width w).1
    (map (thumb_path output_dir) (seq 0 (Z.to_nat count)))
  /\ (length
        (Utils.generate_thumbnails video_path output_dir start duration count width w).1
      <= Z.to_nat count)%nat
  /\ (duration <= 0 \/ (count <= 0)%Z ->
      Utils.generate_thumbnails video_path output_dir start duration count width w
      = ([], w)).
Proof.
  assert (Hsub : sublist
    (Utils.generate_thumbnails video_path output_dir start duration count width w).1
    (map (thumb_path output_dir) (seq 0 (Z.to_nat count)))).
  { unfold Utils.generate_thumbnails.
    destruct (Py.leb duration 0 || (count <=? 0)%Z); [apply sublist_nil_l |].
    destruct (thumbnails_loop_sublist video_path output_dir start
                (duration / inject_Z (Z.max count 1)) width (Z.to_nat count) 0%nat [] w)
      as (new & E & Hnew).
    rewrite E. exact Hnew. }
  split; [exact Hsub |]. split.
  - apply sublist_length in Hsub. rewrite length_map, length_seq in Hsub. exact Hsub.
  - intros Hedge. unfold Utils.generate_thumbnails.
    assert (E : Py.leb duration 0 || (count <=? 0)%Z = true).
    { apply orb_true_iff. destruct Hedge as [Hd | Hc].
      - left. apply Py_leb_le. exact Hd.
      - right. apply Z.leb_le. exact Hc. }
    rewrite E. reflexivity.
Qed.

(** X22. What [generate_waveform] and [generate_proxy] report as generated
    exists when they return: a waveform reported with [True] is a file that
    exists, and the path [generate_proxy] returns is empty or of a file that
    exists. *)
Theorem reported_assets_exist (media_path out : string) (start duration : Q)
    (size : Z * Z) (width : Z) (w : World) :
  ((Utils.generate_waveform media_path out start duration size w).1 = true ->
   os_path_exists out (Utils.generate_waveform media_path out start duration size w).2
   = true)
  /\ ((Utils.generate_proxy media_path out width w).1 = ""
      \/ os_path_exists (Utils.generate_proxy media_path out width w).1
                        (Utils.generate_proxy media_path out width w).2 = true).
Proof.
  split.
  - unfold Utils.generate_waveform. destruct size as [wd ht].
    destruct (Utils.run_cmd _ 30 w) as [[[code o] err] w1]. cbn [fst snd].
    intros E. apply andb_true_iff in E as [_ E]. exact E.
  - unfold Utils.generate_proxy, Utils.ensure_dir.
    destruct (os_path_exists _ (os_makedirs out w)) eqn:E1; [right; exact E1 |].
    destruct (Utils.run_cmd _ 300 (os_makedirs out w)) as [[[code o] err] w1].
    destruct ((code =? 0)%Z && os_path_exists _ w1) eqn:E2; cbn [fst snd].
    + right. apply andb_true_iff in E2 as [_ E2]. exact E2.
    + left. reflexivity.
Qed.

End AssetFacts.

(* ===================================================================== *)
(** * Scrubbing and the position of the player                            *)
(* ===================================================================== *)

Section PlaybackFacts.
Context `{Runtime}.

Lemma rate_pos c : 0 < Playback.rate c.
Proof.
  unfold Playback.rate. destruct (Py.ltb 0 (Py.or_float (speed c) 1.0)) eqn:E.
  - apply Py_ltb_lt in E. exact E.
  - reflexivity.
Qed.

Lemma selected_only c l k :
  oid k <> oid c ->
  existsb (Nat.eqb (oid k)) (map oid (List.filter (fun x => MainWindow.is_ x c) l))
  = false.
Proof.
  intros Hk. induction l as [|x l IH]; simpl; [reflexivity |].
  unfold MainWindow.is_ at 1. destruct (Nat.eqb_spec (oid x) (oid c)) as [E|E]; simpl.
  - rewrite E. apply Nat.eqb_neq in Hk. rewrite Hk. exact IH.
  - exact IH.
Qed.

Lemma find_selected pre c post sel :
  Forall (fun k => existsb (Nat.eqb (oid k)) sel = false) pre ->
  existsb (Nat.eqb (oid c)) sel = true ->
  List.find (fun k => existsb (Nat.eqb (oid k)) sel) (pre ++ c :: post) = Some c.
Proof.
  intros Hpre Hc. induction pre as [|k pre IH]; simpl.
  - rewrite Hc. reflexivity.
  - apply Forall_cons in Hpre as [Hk Hpre]. rewrite Hk. apply IH, Hpre.
Qed.

Lemma selected_self pre c post :
  existsb (Nat.eqb (oid c))
    (map oid (List.filter (fun x => MainWindow.is_ x c) (pre ++ c :: post))) = true.
Proof.
  apply existsb_exists. exists (oid c). split; [| apply Nat.eqb_refl].
  apply in_map, filter_In. split; [apply in_elt |].
  unfold MainWindow.is_. apply Nat.eqb_refl.
Qed.

(** X23. Scrubbing to a time inside a video or audio clip of the timeline
    that no earlier item is, and then the player reporting the position of
    the pending seek, puts the playhead back at that time, short of it by
    less than a millisecond of media time: by less than 0.001 divided by the
    playback rate of the clip. *)
Theorem scrub_then_position_round_trip (self : MainWindow.State)
    (pre post : list TimelineClip) (c : TimelineClip) (offset : Q) (w : World) :
  MainWindow.items_list self = pre ++ c :: post ->
  Forall (fun k => oid k <> oid c) pre ->
  Playback.plays (media c) = true ->
  0 <= start c -> 0 <= offset -> offset < Models.duration_effective c ->
  let sec := MainWindow._cumulative_start_of self c + offset in
  exists self1 seek,
    Playback._on_scrubbed self sec w = (self1, Some seek)
    /\ sec - 0.001 / Playback.rate c
       < MainWindow.playhead_sec
           (Playback._on_player_position_changed self1 (Playback.pending_seek_ms seek))
    /\ MainWindow.playhead_sec
         (Playback._on_player_position_changed self1 (Playback.pending_seek_ms seek))
       <= sec.
Proof.
  intros Hitems Hpre Hplays Hstart Hlo Hhi sec.
  pose proof (cumulative_loop_found pre 0.0 c post c Hpre eq_refl) as Hcum.
  pose proof (total_duration_nonneg pre) as Hnn.
  pose proof (rate_pos c) as HR.
  assert (Esec : sec = MainWindow.cumulative_loop (pre ++ c :: post) 0.0 c + offset).
  { unfold sec, MainWindow._cumulative_start_of. rewrite Hitems. reflexivity. }
  set (cum := MainWindow.cumulative_loop (pre ++ c :: post) 0.0 c) in *.
  destruct (clip_at_loop_hit pre 0.0 sec c post) as (local & E & Hl);
    [rewrite Esec; lra | rewrite Esec; lra |].
  assert (Hlocal : local == offset) by (rewrite Hl, Esec; lra).
  unfold Playback._on_scrubbed, MainWindow._clip_at_global_time.
  rewrite Hitems, E, Hplays.
  eexists _, _. split; [reflexivity |].
  cbn [Playback.pending_seek_ms].
  unfold Playback._on_player_position_changed.
  cbn [MainWindow.selected MainWindow.items_list Playback.set_selected].
  rewrite Hitems.
  rewrite (find_selected pre c post);
    [| apply Forall_forall; intros k Hk; apply selected_only;
       rewrite Forall_forall in Hpre; apply Hpre, Hk
     | apply selected_self].
  unfold Playback.set_playhead_seconds, MainWindow._cumulative_start_of.
  cbn [MainWindow.playhead_sec MainWindow.items_list Playback.set_selected].
  rewrite Hitems. fold cum.
  set (R := Playback.rate c) in *.
  set (y := (start c + local * R) * 1000).
  assert (Hprod : 0 <= local * R).
  { apply Qmult_le_0_compat; [rewrite Hlocal; exact Hlo | lra]. }
  assert (Hy : 0 <= y) by (unfold y; lra).
  assert (Eint : Py.int_float y = Qfloor y).
  { unfold Py.int_float.
    assert (El : Py.ltb y 0 = false) by (apply Py_ltb_ge; exact Hy).
    rewrite El. reflexivity. }
  rewrite Eint.
  assert (Hm0 : (0 <= Qfloor y)%Z).
  { change 0%Z with (Qfloor 0). apply Qfloor_resp_le, Hy. }
  rewrite Z.max_r by exact Hm0.
  pose proof (Qfloor_le y) as Hfl. pose proof (Qlt_floor y) as Hfu.
  rewrite inject_Z_plus in Hfu. change (inject_Z 1) with 1 in Hfu.
  set (m := inject_Z (Qfloor y)) in *.
  pose proof (Py_or_float_0 (start c)) as Hor.
  set (s0 := Py.or_float (start c) 0.0) in *.
  set (media_sec := m / 1000.0 - s0).
  assert (Hms : media_sec * 1000 == m - s0 * 1000) by (unfold media_sec; field).
  assert (Hup : media_sec <= local * R) by (unfold y in *; lra).
  assert (Hdown : local * R - 0.001 < media_sec) by (unfold y in *; lra).
  set (q := media_sec / R).
  assert (Hq1 : q <= local).
  { unfold q. apply Qle_shift_div_r; [exact HR | exact Hup]. }
  set (d := 0.001 / R).
  assert (Hd : d * R == 0.001) by (unfold d; field; lra).
  assert (Hq2 : local - d < q).
  { unfold q. apply Qlt_shift_div_l; [exact HR |].
    assert (Ex : (local - d) * R == local * R - d * R) by ring.
    rewrite Ex, Hd. exact Hdown. }
  assert (Hlocal0 : 0 <= local) by (rewrite Hlocal; exact Hlo).
  assert (Hr : local - d < Py.max 0.0 q /\ Py.max 0.0 q <= local /\ 0 <= Py.max 0.0 q).
  { unfold Py.max. destruct (Py.ltb 0.0 q) eqn:Eq.
    - apply Py_ltb_lt in Eq. lra.
    - apply Py_ltb_ge in Eq. lra. }
  destruct Hr as (Hr1 & Hr2 & Hr3).
  set (r := Py.max 0.0 q) in *.
  assert (Hp : Py.max 0.0 (cum + r) == cum + r).
  { rewrite Py_max_Qmax. apply Q.max_r. lra. }
  rewrite Hp, Esec. split; lra.
Qed.

End PlaybackFacts.

Lemma scrub_then_position_round_trip_witness :
  exists self1 seek,
    @Playback._on_scrubbed quiet_runtime demo_sequencer
      (MainWindow._cumulative_start_of demo_sequencer (demo_clip_as 1) + 1.0)
      (@nil string : @World quiet_runtime)
    = (self1, Some seek)
    /\ MainWindow._cumulative_start_of demo_sequencer (demo_clip_as 1) + 1.0
       - 0.001 / Playback.rate (demo_clip_as 1)
       < MainWindow.playhead_sec
           (Playback._on_player_position_changed self1
              (Playback.pending_seek_ms seek))
    /\ MainWindow.playhead_sec
         (Playback._on_player_position_changed self1
            (Playback.pending_seek_ms seek))
       <= MainWindow._cumulative_start_of demo_sequencer (demo_clip_as 1) + 1.0.
Proof.
  apply (@scrub_then_position_round_trip quiet_runtime demo_sequencer
           [demo_clip_as 0] [demo_clip_as 2] (demo_clip_as 1) 1.0).
  - reflexivity.
  - constructor; [vm_compute; discriminate | constructor].
  - reflexivity.
  - vm_compute. discriminate.
  - vm_compute. discriminate.
  - vm_compute. reflexivity.
Defined.

(* ===================================================================== *)
(** * The trim handles and the zoom                                       *)
(* ===================================================================== *)

Section HandleFacts.

Lemma pymin_spec a b :
  Canvas.pymin a b <= a /\ Canvas.pymin a b <= b
  /\ (Canvas.pymin a b = a \/ Canvas.pymin a b = b).
Proof.
  unfold Canvas.pymin. destruct (Py.ltb b a) eqn:E.
  - apply Py_ltb_lt in E. repeat split; try lra. right. reflexivity.
  - apply Py_ltb_ge in E. repeat split; try lra. left. reflexivity.
Qed.

(** X24. Dragging a trim handle keeps the window of the clip: the left
    handle gives a start that is not negative and, when the end of the
    window is at least 0.2, at least 0.2 before it, and leaves the end as it
    is; the right handle gives an end at least 0.2 after the start, no later
    than a known non-zero media duration unless the start leaves less than
    0.2 before it, and leaves the start as it is. *)
Theorem trim_handles_keep_window (orig_start : Q) (orig_end : option Q)
    (c : TimelineClip) (secs_delta : Q) :
  let left := Handles._handle_trim_left orig_start c secs_delta in
  let right := Handles._handle_trim_right orig_end c secs_delta in
  let base_end :=
    match end_ c with Some e => e | None => Handles.duration_or_0 (media c) end in
  (0 <= start left /\ end_ left = end_ c
   /\ (0.2 <= base_end -> 0.2 <= base_end - start left))
  /\ (start right = start c
      /\ exists e', end_ right = Some e'
         /\ 0.2 <= e' - start c
         /\ (forall d, duration (media c) = Some d -> ~ d == 0 ->
               e' <= Qmax d (start c + 0.2))).
Proof.
  cbv zeta. split.
  - unfold Handles._handle_trim_left, UIConfig.MIN_CLIP_DURATION.
    cbn [start end_ set_start].
    set (base_end := match end_ c with
                     | Some e => e
                     | None => Handles.duration_or_0 (media c)
                     end).
    set (s1 := Py.max 0.0 (Py.or_float orig_start 0.0 + secs_delta)).
    pose proof (Py_max_lower 0.0 (Py.or_float orig_start 0.0 + secs_delta)) as H1.
    fold s1 in H1.
    pose proof (Py_max_lower 0.0 (base_end - 0.2)) as H2.
    pose proof (Py_max_Qmax 0.0 (base_end - 0.2)) as H3.
    destruct (Py.ltb (base_end - s1) 0.2) eqn:E.
    + split; [lra |]. split; [reflexivity |]. intros Hbase.
      rewrite H3. rewrite Q.max_r by lra. lra.
    + apply Py_ltb_ge in E. split; [lra |]. split; [reflexivity |]. intros _. lra.
  - unfold Handles._handle_trim_right, UIConfig.MIN_CLIP_DURATION.
    cbn [start end_ set_end]. split; [reflexivity |].
    pose proof (Py_or_float_0 (start c)) as Hs.
    set (s0 := Py.or_float (start c) 0.0) in *.
    set (n0 := match orig_end with
               | Some e => e
               | None => Handles.duration_or_0 (media c)
               end + secs_delta).
    set (max_end := match duration (media c) with
                    | Some d => Py.or_float d n0
                    | None => n0
                    end).
    destruct (pymin_spec max_end n0) as (M1 & M2 & _).
    set (n1 := Canvas.pymin max_end n0) in *.
    destruct (Py.ltb (n1 - s0) 0.2) eqn:E; eexists; (split; [reflexivity |]).
    + split; [lra |]. intros d Hd Hnz.
      apply Qle_trans with (start c + 0.2); [lra | apply Q.le_max_r].
    + apply Py_ltb_ge in E. split; [lra |]. intros d Hd Hnz.
      apply Qle_trans with d; [| apply Q.le_max_l].
      unfold max_end in M1. rewrite Hd in M1.
      assert (Eor : Py.or_float d n0 = d).
      { unfold Py.or_float. destruct (Qeq_bool d 0) eqn:Eq; [| reflexivity].
        apply Qeq_bool_iff in Eq. contradiction. }
      rewrite Eor in M1. exact M1.
Qed.

(** X25. From a zoom between 0.2 and 8, [zoom_in], [zoom_out] and
    [fit_timeline] give a zoom between 0.2 and 8; and at such a zoom the
    pixels per second are 100 times the zoom, between 20 and 800: the floor
    of 10 in [px_per_sec] is never the value. *)
Theorem zoom_stays_in_range (zoom width_sum : Q) (viewport : Z) :
  0.2 <= zoom -> zoom <= 8 ->
  (0.2 <= Zoom.zoom_in zoom /\ Zoom.zoom_in zoom <= 8)
  /\ (0.2 <= Zoom.zoom_out zoom /\ Zoom.zoom_out zoom <= 8)
  /\ (0.2 <= Zoom.fit_timeline zoom width_sum viewport
      /\ Zoom.fit_timeline zoom width_sum viewport <= 8)
  /\ Zoom.px_per_sec zoom == 100 * zoom
  /\ 20 <= Zoom.px_per_sec zoom /\ Zoom.px_per_sec zoom <= 800.
Proof.
  intros Hlo Hhi.
  assert (Hpx : Zoom.px_per_sec zoom == 100 * zoom).
  { unfold Zoom.px_per_sec, Zoom.BASE_PX_PER_SEC. rewrite Py_max_Qmax.
    rewrite Q.max_r by lra. lra. }
  split; [| split; [| split; [| split; [exact Hpx | rewrite Hpx; split; lra]]]].
  - unfold Zoom.zoom_in. destruct (pymin_spec 8.0 (zoom * 1.25)) as (M1 & M2 & [E|E]);
      rewrite E in *; split; lra.
  - unfold Zoom.zoom_out. rewrite Py_max_Qmax.
    assert (D : zoom / 1.25 == zoom * 0.8) by field.
    rewrite D. split; [apply Q.le_max_l |]. apply Q.max_lub; lra.
  - unfold Zoom.fit_timeline. destruct (Py.leb width_sum 0); [lra |].
    rewrite Py_max_Qmax. split; [apply Q.le_max_l |].
    apply Q.max_lub; [lra |].
    match goal with |- Canvas.pymin ?a ?b <= _ =>
      destruct (pymin_spec a b) as (M1 & _) end.
    lra.
Qed.

End HandleFacts.

Lemma zoom_stays_in_range_witness :
  (0.2 <= Zoom.zoom_in 1.0 /\ Zoom.zoom_in 1.0 <= 8)
  /\ (0.2 <= Zoom.zoom_out 1.0 /\ Zoom.zoom_out 1.0 <= 8)
  /\ (0.2 <= Zoom.fit_timeline 1.0 450 1280
      /\ Zoom.fit_timeline 1.0 450 1280 <= 8)
  /\ Zoom.px_per_sec 1.0 == 100 * 1.0
  /\ 20 <= Zoom.px_per_sec 1.0 /\ Zoom.px_per_sec 1.0 <= 800.
Proof.
  apply (zoom_stays_in_range 1.0 450 1280).
  - vm_compute. discriminate.
  - vm_compute. discriminate.
Defined.

(* ===================================================================== *)
(** * The preview worker: what a run leaves alone                         *)
(* ===================================================================== *)

Section PreviewFrame.
Context `{Runtime}.
Import PreviewWorker.

Lemma frame_refl a : frame_step a a.
Proof. repeat split; reflexivity. Qed.

Lemma frame_media a b : frame_step a b -> media (clip b) = media (clip a).
Proof. intros (_ & E & _). unfold edit_attributes in E. congruence. Qed.

Lemma frame_trans a b c : frame_step a b -> frame_step b c -> frame_step a c.
Proof.
  intros Hab Hbc. pose proof (frame_media a b Hab) as Hm.
  destruct Hab as (S1 & E1 & C1). destruct Hbc as (S2 & E2 & C2).
  split; [congruence |]. split; [congruence |].
  intros k Hk. destruct (C1 k Hk) as [T1 W1].
  destruct (C2 k) as [T2 W2]; [rewrite Hm; exact Hk |].
  split; congruence.
Qed.

Lemma frame_set_clip a c :
  edit_attributes c = edit_attributes (clip a) -> frame_step a (set_clip a c).
Proof. intros E. split; [reflexivity |]. split; [exact E |]. intros k _. split; reflexivity. Qed.

Lemma check_wave_cache_frame self w : frame_step self (check_wave_cache self w).
Proof.
  unfold check_wave_cache. destruct (wave_cache self !! _); [| apply frame_refl].
  destruct (os_path_exists _ w); [| apply frame_refl].
  apply frame_set_clip. reflexivity.
Qed.

Lemma check_thumbs_cache_frame self w : frame_step self (check_thumbs_cache self w).
Proof.
  unfold check_thumbs_cache. destruct (thumbs_cache self !! _); [| apply frame_refl].
  destruct (forallb _ _); [| apply frame_refl].
  apply frame_set_clip. reflexivity.
Qed.

Lemma proxy_step_frame self w : frame_step self (proxy_step self w).1.
Proof.
  unfold proxy_step. destruct (proxy_enabled self); [| apply frame_refl].
  destruct (Utils.generate_proxy _ _ _ w) as [p w1]. cbn [fst].
  destruct (Py.truthy_str p); [| apply frame_refl].
  repeat split; reflexivity.
Qed.

Lemma thumbs_step_frame self clip_dir w : frame_step self (thumbs_step self clip_dir w).1.
Proof.
  unfold thumbs_step. destruct (negb _); [| apply frame_refl].
  destruct (_generate_thumbs_from_source self _ _ _ _ w) as [new_thumbs w1]. cbn [fst].
  destruct (Py.truthy_list new_thumbs); [| apply frame_set_clip; reflexivity].
  split; [reflexivity |]. split; [reflexivity |].
  intros k Hk. cbn [thumbs_cache wave_cache set_thumbs_cache set_clip clip].
  split; [| reflexivity].
  apply lookup_insert_ne. cbn [media set_thumb_paths]. congruence.
Qed.

Lemma wave_step_frame self clip_dir w : frame_step self (wave_step self clip_dir w).1.
Proof.
  unfold wave_step. destruct (_ && _); [| apply frame_refl].
  destruct (_generate_wave_from_source self _ _ _ _ w) as [wave_path w1]. cbn [fst].
  destruct (truthy_path wave_path); [| apply frame_refl].
  split; [reflexivity |]. split; [reflexivity |].
  intros k Hk. cbn [thumbs_cache wave_cache set_wave_cache set_clip clip].
  split; [reflexivity |].
  apply lookup_insert_ne. cbn [media set_waveform_path]. congruence.
Qed.

(** X26. A run of the preview worker emits [started] with the clip and
    then [done] with the clip, once each; it writes no attribute of the clip
    other than the preview directory, the thumbnails, the waveform and the
    proxy; and it leaves the cache entries of every other media path as they
    are. *)
Theorem preview_run_frame (self : Worker) (w : World) :
  let self' := (run self w).1 in
  signals self' = signals self ++ [started (clip self); done (clip self')]
  /\ edit_attributes (clip self') = edit_attributes (clip self)
  /\ forall k, k <> path (media (clip self)) ->
       thumbs_cache self' !! k = thumbs_cache self !! k
       /\ wave_cache self' !! k = wave_cache self !! k.
Proof.
  cbv zeta. unfold run.
  set (s0 := emit self (started (clip self))).
  assert (F1 : frame_step s0 (check_thumbs_cache (check_wave_cache s0 w) w)).
  { eapply frame_trans; [apply check_wave_cache_frame | apply check_thumbs_cache_frame]. }
  set (s1 := check_thumbs_cache (check_wave_cache s0 w) w) in *.
  assert (Fin : forall s2, frame_step s0 s2 ->
            signals (emit s2 (done (clip s2)))
            = signals self ++ [started (clip self); done (clip (emit s2 (done (clip s2))))]
            /\ edit_attributes (clip (emit s2 (done (clip s2))))
               = edit_attributes (clip self)
            /\ forall k, k <> path (media (clip self)) ->
                 thumbs_cache (emit s2 (done (clip s2))) !! k = thumbs_cache self !! k
                 /\ wave_cache (emit s2 (done (clip s2))) !! k = wave_cache self !! k).
  { intros s2 (S2 & E2 & C2). cbn [emit signals clip thumbs_cache wave_cache].
    split; [rewrite S2; unfold s0; cbn [emit signals]; rewrite <- app_assoc; reflexivity |].
    split; [exact E2 | exact C2]. }
  destruct (truthy_path (waveform_path (clip s1)) && Py.truthy_list (thumb_paths (clip s1))).
  - cbn [fst]. apply Fin, F1.
  - unfold generate, make_clip_dir.
    destruct (uuid4_hex w) as [hex w1].
    destruct (Utils.ensure_dir _ w1) as [clip_dir w2].
    set (s2 := set_clip s1 (set_preview_dir (clip s1) (Some clip_dir))).
    assert (F2 : frame_step s0 s2).
    { eapply frame_trans; [exact F1 | apply frame_set_clip; reflexivity]. }
    pose proof (proxy_step_frame s2 w2) as P.
    destruct (proxy_step s2 w2) as [s3 w3]. cbn [fst] in P.
    pose proof (thumbs_step_frame s3 clip_dir w3) as T.
    destruct (thumbs_step s3 clip_dir w3) as [s4 w4]. cbn [fst] in T.
    pose proof (wave_step_frame s4 clip_dir w4) as W.
    destruct (wave_step s4 clip_dir w4) as [s5 w5]. cbn [fst] in W.
    assert (F5 : frame_step s0 s5).
    { eapply frame_trans; [exact F2 |]. eapply frame_trans; [exact P |].
      eapply frame_trans; [exact T | exact W]. }
    cbn [fst]. apply Fin.
    destruct (Py.truthy_str (worker_proxy_path s5)); [| exact F5].
    eapply frame_trans; [exact F5 | apply frame_set_clip; reflexivity].
Qed.

End PreviewFrame.

(* ===================================================================== *)
(** * The preview worker on a clip that holds stale paths                 *)
(* ===================================================================== *)

(** C9 at a clip that holds a thumbnail and a waveform from an earlier
    cache hit, the cached files being gone: both lookups miss, and the run
    ends at once with [done]; the clip keeps the paths of the missing files,
    no directory is made and no tool is run, so nothing is regenerated: the
    early return, meant for a hit of both caches, tests the attributes of the
    clip.  For a new clip with the same caches the run regenerates the
    thumbnails in a fresh directory. *)
Theorem stale_paths_are_not_regenerated :
  (@os_path_exists quiet_runtime "/tmp/old/thumb_00.jpg" [] = false
   /\ @os_path_exists quiet_runtime "/tmp/old/wave.png" [] = false)
  /\ (@PreviewWorker.check_thumbs_cache quiet_runtime
        (@PreviewWorker.check_wave_cache quiet_runtime stale_clip_worker []) [])
     = stale_clip_worker
  /\ PreviewWorker.clip (@PreviewWorker.run quiet_runtime stale_clip_worker []).1
     = stale_clip
  /\ thumb_paths
       (PreviewWorker.clip (@PreviewWorker.run quiet_runtime stale_clip_worker []).1)
     = ["/tmp/old/thumb_00.jpg"]
  /\ waveform_path
       (PreviewWorker.clip (@PreviewWorker.run quiet_runtime stale_clip_worker []).1)
     = Some "/tmp/old/wave.png"
  /\ PreviewWorker.signals (@PreviewWorker.run quiet_runtime stale_clip_worker []).1
     = [started stale_clip; done stale_clip]
  /\ (@PreviewWorker.run quiet_runtime stale_clip_worker []).2 = []
  /\ thumb_paths (PreviewWorker.clip (@PreviewWorker.run quiet_runtime stale_worker []).1)
     = ["/tmp/previews/clip_0/thumb_00.jpg"; "/tmp/previews/clip_0/thumb_01.jpg";
        "/tmp/previews/clip_0/thumb_02.jpg"; "/tmp/previews/clip_0/thumb_03.jpg";
        "/tmp/previews/clip_0/thumb_04.jpg"; "/tmp/previews/clip_0/thumb_05.jpg"].
Proof.
  split; [split; reflexivity |].
  repeat split; vm_compute; reflexivity.
Qed.

(* ===================================================================== *)
(** * The halves of a split                                               *)
(* ===================================================================== *)

Section SplitWhole.
Import Canvas.

Lemma map_clip_flat_map (c : TimelineClip) (li ri : Item) (l : list Item) :
  map clip (flat_map (fun item => if is_ (clip item) c then [li; ri] else [item]) l)
  = flat_map (fun k => if is_ k c then [clip li; clip ri] else [k]) (map clip l).
Proof.
  induction l as [|a l IH]; simpl; [reflexivity |].
  rewrite map_app, IH. destruct (is_ (clip a) c); reflexivity.
Qed.

(** C10, amended. When [split_at_playhead] splits a clip, the clip is
    replaced in the timeline by its two halves (and the visual timeline
    then puts the clips in the order of its items); both halves have the
    title, the title size and the LUT of the clip; the left half has the
    transition [none] and the right half the transition of the clip; both
    halves are on track 0, whatever the track of the clip; and neither has
    derived artifacts: no thumbnails, no waveform, no preview directory. *)
Theorem split_halves_inherit (self : State) (c : TimelineClip) (local : Q)
    (idx : nat) :
  _clip_at_global_time self (playhead_sec self) = Some (c, local) ->
  0.05 < local -> local < Models.duration_effective c - 0.05 ->
  MainWindow.index (timeline self) c = Some idx ->
  exists left right,
    (split_at_playhead self).1 = Ok tt
    /\ Permutation (timeline (split_at_playhead self).2)
         (flat_map (fun k => if is_ k c then [left; right] else [k])
                   (map clip (items_list self)))
    /\ (In left (timeline (split_at_playhead self).2)
        /\ In right (timeline (split_at_playhead self).2))
    /\ (start left = start c /\ end_ left = Some (start c + local)
        /\ start right = start c + local /\ end_ right = end_ c)
    /\ (title left = title c /\ title right = title c)
    /\ (title_size left = title_size c /\ title_size right = title_size c)
    /\ (lut left = lut c /\ lut right = lut c)
    /\ (track left = 0%Z /\ track right = 0%Z)
    /\ (transition left = "none" /\ transition right = transition c)
    /\ (thumb_paths left = [] /\ waveform_path left = None /\ preview_dir left = None)
    /\ (thumb_paths right = [] /\ waveform_path right = None
        /\ preview_dir right = None).
Proof.
  intros Hat Hlo Hhi Hidx.
  set (left := MainWindow.split_left (next_oid self) c (start c + local)).
  set (right := MainWindow.split_right (S (next_oid self)) c (start c + local)).
  exists left, right.
  assert (Hin : In c (map clip (items_list self))).
  { unfold _clip_at_global_time in Hat.
    destruct (clip_at_loop_some _ _ _ _ _ Hat) as (pre & post & E & _).
    rewrite E. apply in_elt. }
  assert (Hrun : (split_at_playhead self).1 = Ok tt
                 /\ Permutation (timeline (split_at_playhead self).2)
                      (flat_map (fun k => if is_ k c then [left; right] else [k])
                                (map clip (items_list self)))).
  { unfold split_at_playhead. rewrite Hat.
    assert (E : Py.leb local 0.05
                || Py.leb (Models.duration_effective c - 0.05) local = false).
    { apply orb_false_iff. split; apply Py_leb_gt; assumption. }
    rewrite E. cbv zeta. fold left. fold right.
    destruct (prepare_previews_keeps
                (_prepare_clip_previews (allocate self 2) left) right)
      as (K1 & K2 & K3 & _).
    destruct (prepare_previews_keeps (allocate self 2) left) as (J1 & J2 & J3 & _).
    set (s2 := _prepare_clip_previews (_prepare_clip_previews (allocate self 2) left) right)
      in *.
    rewrite J1 in K1. rewrite J2 in K2. rewrite J3 in K3.
    change (timeline (allocate self 2)) with (timeline self) in K1.
    change (items_list (allocate self 2)) with (items_list self) in K2.
    change (px_per_sec (allocate self 2)) with (px_per_sec self) in K3.
    rewrite K1, Hidx.
    unfold repack_by_order, _on_visual_order_changed, set_timeline, set_items.
    cbn [fst snd timeline items_list px_per_sec].
    split; [reflexivity |].
    rewrite K2, K3, place_clips.
    eapply Permutation_trans; [apply Permutation_map, sorted_by_x_perm |].
    rewrite map_clip_flat_map. reflexivity. }
  destruct Hrun as (Hok & Hperm).
  split; [exact Hok |]. split; [exact Hperm |].
  split.
  { assert (Hboth : In left (flat_map (fun k => if is_ k c then [left; right] else [k])
                                      (map clip (items_list self)))
                    /\ In right (flat_map (fun k => if is_ k c then [left; right] else [k])
                                          (map clip (items_list self)))).
    { split; apply in_flat_map; exists c; (split; [exact Hin |]);
        unfold is_; rewrite Nat.eqb_refl; simpl; auto. }
    destruct Hboth as [HL HR].
    split; eapply Permutation_in; try (symmetry; exact Hperm); assumption. }
  repeat split; reflexivity.
Qed.

End SplitWhole.

Lemma split_halves_inherit_witness :
  exists left right,
    (Canvas.split_at_playhead (demo_window_at 7.0)).1 = Ok tt
    /\ Canvas.timeline (Canvas.split_at_playhead (demo_window_at 7.0)).2
       = [demo_clip_as 0; left; right; demo_clip_as 1]
    /\ (title left = title (demo_clip_as 2) /\ lut right = lut (demo_clip_as 2))
    /\ (track left = 0%Z /\ track right = 0%Z)
    /\ (transition left = "none" /\ transition right = transition (demo_clip_as 2)).
Proof.
  destruct (split_halves_inherit (demo_window_at 7.0) (demo_clip_as 2) demo_local 2
              ltac:(vm_compute; reflexivity)
              ltac:(vm_compute; reflexivity) ltac:(vm_compute; reflexivity) eq_refl)
    as (left & right & Hok & _ & _ & _ & (T1 & _) & _ & (_ & L2) & Htr & Htrans & _).
  exists (MainWindow.split_left 3 (demo_clip_as 2) (start (demo_clip_as 2) + demo_local)),
         (MainWindow.split_right 4 (demo_clip_as 2) (start (demo_clip_as 2) + demo_local)).
  split; [exact Hok |].
  split; [vm_compute; reflexivity |].
  repeat split; reflexivity.
Defined.

(** C10 as stated fails on the track: the halves of a clip of track 1 are
    on track 0. *)
Lemma split_halves_track_counterexample :
  track (whole_clip 2.0) = 1%Z
  /\ map track (Canvas.timeline
                  (Canvas.split_at_playhead (whole_clip_canvas 2.0 2.0)).2)
     = [0%Z; 0%Z]
  /\ ~ Forall (fun half => track half = track (whole_clip 2.0))
         (Canvas.timeline
            (Canvas.split_at_playhead (whole_clip_canvas 2.0 2.0)).2).
Proof.
  split; [reflexivity |]. split; [vm_compute; reflexivity |].
  intros F. apply Forall_inv in F. vm_compute in F. discriminate F.
Qed.
